(** * pygamelib.gfx.ui: a shallow embedding of the widgets of [ui.py]

    The first part follows the source file class by class: [UiConfig],
    [Dialog], [Box], [ProgressBar], [ProgressDialog], [LineInputDialog] and
    [MultiLineInputDialog] each get a module whose records hold the attributes
    of the Python object, under their names in the source, and whose
    functions are the methods.  The second part is the vocabulary of the
    statements, the third one the facts.

    Objects.  An object is the record of its attributes.  A method that
    assigns to an attribute of [self] returns the object it has made of
    [self]; the exceptions of such a method are raised before it assigns, or
    on a key of a cache that every constructed object has.  A dictionary
    [_cache] is a record of optional entries, an entry that is missing being
    a [KeyError].

    Effects.  A method that writes into the frame buffer or calls the screen
    is a computation in the monad [M]: it takes the world (the buffer and the
    log of the calls made to the screen) and returns either a value or the
    exception that was raised, together with the world as it is at that
    point.  Writes made before an exception stay in the buffer, as in Python.
    The buffer is a list of rows; [buffer[row][column] = x] counts a negative
    index from the end and raises [IndexError] out of range.

    Numbers and strings.  A Python [int] is a [Z].  The expressions [a / b] of
    the source are true divisions, whose result is a binary64 [float]: the
    module [Py] gives the correctly rounded division, the subtraction and the
    builtins [round] and [int] on such values.  A [str] is a string of
    characters below code point 256. *)

From stdpp Require Import base list strings.
From Stdlib Require Import ZArith Lia Ascii.

Local Open Scope Z_scope.

(** ** Exceptions and results *)

Inductive exn :=
| ZeroDivisionError
| OverflowError
| ValueError
| IndexError
| KeyError (key : string)
| NotImplementedError
| PglInvalidTypeException (message : string).

Inductive Result (A : Type) :=
| Raised (e : exn)
| Returned (a : A).
Arguments Raised {A} e.
Arguments Returned {A} a.

(** The only exception type of the library that [ui.py] raises itself. *)
Definition is_pgl_exception (e : exn) : bool :=
  match e with PglInvalidTypeException _ => true | _ => false end.

(** ** Python numbers *)

Module Py.

(** A binary64 value: the number [m * 2^e], an infinity, or a NaN. *)
Inductive float :=
| Finite (m e : Z)
| Inf (negative : bool)
| NaN.

(** Exponent of the least significant bit of the subnormal numbers. *)
Definition emin : Z := -1074.

(** [scaled_le d l n] decides [d * 2^l <= n], for [l] of either sign. *)
Definition scaled_le (d l n : Z) : bool :=
  if 0 <=? l then d * 2 ^ l <=? n else d <=? n * 2 ^ (- l).

(** [floor (log2 (n / d))] for positive [n] and [d]. *)
Definition ilog2_ratio (n d : Z) : Z :=
  let l := Z.log2 n - Z.log2 d in
  if scaled_le d l n then l else l - 1.

(** The integer nearest to [n / d] for [0 < d], ties going to the even one. *)
Definition round_half_even (n d : Z) : Z :=
  let q := n / d in
  let r := n mod d in
  if 2 * r <? d then q
  else if d <? 2 * r then q + 1
  else if Z.even q then q else q + 1.

(** The binary64 value nearest to [n / d] for [0 < d] (53 bits of mantissa,
    ties to even, gradual underflow, overflow to an infinity). *)
Definition round_ratio (n d : Z) : float :=
  if n =? 0 then Finite 0 0
  else
    let e := Z.max (ilog2_ratio (Z.abs n) d - 52) emin in
    let m := if 0 <=? e then round_half_even n (d * 2 ^ e)
             else round_half_even (n * 2 ^ (- e)) d in
    if (0 <=? e) && (2 ^ 1024 <=? Z.abs m * 2 ^ e) then Inf (n <? 0)
    else Finite m e.

(** The binary64 value nearest to [m * 2^e]. *)
Definition round_dyadic (m e : Z) : float :=
  if 0 <=? e then round_ratio (m * 2 ^ e) 1 else round_ratio m (2 ^ (- e)).

(** [a / b] on two [int]s: the correctly rounded quotient. *)
Definition truediv (a b : Z) : Result float :=
  if b =? 0 then Raised ZeroDivisionError
  else
    match (if 0 <? b then round_ratio a b else round_ratio (- a) (- b)) with
    | Finite m e => Returned (Finite m e)
    | _ => Raised OverflowError
    end.

(** The conversion of an [int] operand of a float operation. *)
Definition of_int (n : Z) : Result float :=
  match round_ratio n 1 with
  | Finite m e => Returned (Finite m e)
  | _ => Raised OverflowError
  end.

(** [x - y] on two floats. *)
Definition fsub (x y : float) : float :=
  match x, y with
  | NaN, _ | _, NaN => NaN
  | Inf s, Inf t => if Bool.eqb s t then NaN else Inf s
  | Inf s, Finite _ _ => Inf s
  | Finite _ _, Inf t => Inf (negb t)
  | Finite m1 e1, Finite m2 e2 =>
      let e := Z.min e1 e2 in
      round_dyadic (m1 * 2 ^ (e1 - e) - m2 * 2 ^ (e2 - e)) e
  end.

(** [int(x)]: truncation towards zero. *)
Definition int (x : float) : Result Z :=
  match x with
  | Finite m e => Returned (if 0 <=? e then m * 2 ^ e else m ÷ 2 ^ (- e))
  | Inf _ => Raised OverflowError
  | NaN => Raised ValueError
  end.

(** [round(x)]: the nearest integer, ties going to the even one. *)
Definition round (x : float) : Result Z :=
  match x with
  | Finite m e =>
      Returned (if 0 <=? e then m * 2 ^ e else round_half_even m (2 ^ (- e)))
  | Inf _ => Raised OverflowError
  | NaN => Raised ValueError
  end.

(** [range(a, b)] *)
Definition range (a b : Z) : list Z :=
  (fun i : nat => a + Z.of_nat i) <$> seq 0 (Z.to_nat (b - a)).

(** [len(s)] on a [str] *)
Definition len (s : string) : Z := Z.of_nat (String.length s).

(** [len(l)] on a [list] *)
Definition len_list {A} (l : list A) : Z := Z.of_nat (length l).

(** The position that the index [i] denotes in a sequence of [n] items:
    negative indices count from the end, anything else is an [IndexError]. *)
Definition index (n : nat) (i : Z) : Result nat :=
  if (0 <=? i) && (i <? Z.of_nat n) then Returned (Z.to_nat i)
  else if (- Z.of_nat n <=? i) && (i <? 0) then Returned (Z.to_nat (i + Z.of_nat n))
  else Raised IndexError.

End Py.

(** ** The collaborators of the module

    [core.Color], [core.Sprixel], [core.Sprite], [base.Text], the constants of
    [pygamelib.constants], the keystrokes of the terminal and the screen are
    imported by [ui.py]; their code is not part of it. *)

Module Color.
(** [core.Color(r, g, b)] *)
Record t := __init__ { r : Z; g : Z; b : Z }.
End Color.

Module Sprixel.
(** Modelled from the spec: a cell is a glyph plus a background and a
    foreground colour; it is the unit of the buffer.  The arguments are in
    the order of the calls [core.Sprixel(model, bg_color, fg_color)]. *)
Record t := __init__ {
  model : string;
  bg_color : option Color.t;
  fg_color : option Color.t
}.
End Sprixel.

Module Text.
(** Modelled from the spec: a text run with its colours, in the order of
    the calls [base.Text(text, fg_color, bg_color)]. *)
Record t := __init__ {
  text : string;
  fg_color : option Color.t;
  bg_color : option Color.t
}.

(** Modelled from the spec: the length of the run in character cells. *)
Definition length (self : t) : Z := Py.len (text self).

(** [self.text = value] *)
Definition text_setter (self : t) (value : string) : t :=
  {| text := value; fg_color := fg_color self; bg_color := bg_color self |}.

(** [self.fg_color = value] *)
Definition fg_color_setter (self : t) (value : option Color.t) : t :=
  {| text := text self; fg_color := value; bg_color := bg_color self |}.
End Text.

(** A title or a label is given as a [base.Text] or as a [str]. *)
Inductive text_or_str :=
| IsText (t : Text.t)
| IsStr (s : string).

(** A marker of a progress bar is given as a [core.Sprixel] or as a [str]. *)
Inductive marker :=
| MSprixel (s : Sprixel.t)
| MStr (s : string).

Module constants.
(** Modelled from the spec: the filter kind of an input field, printable
    characters or digits. *)
Inductive Filter := PRINTABLE_FILTER | INTEGER_FILTER.

Definition Filter_eqb (x y : Filter) : bool :=
  match x, y with
  | PRINTABLE_FILTER, PRINTABLE_FILTER | INTEGER_FILTER, INTEGER_FILTER => true
  | _, _ => false
  end.
End constants.

Module Keystroke.
(** Modelled from the spec: a key event is a name tag ([KEY_ENTER],
    [KEY_ESCAPE], ..., or none for an ordinary character) plus the characters
    themselves; a poll that timed out gives the empty string. *)
Record t := { name : option string; str : string }.

(** A character is a code point below 256. *)
Definition char_isprintable (c : ascii) : bool :=
  let n := Z.of_N (N_of_ascii c) in
  ((32 <=? n) && (n <=? 126))
  || ((161 <=? n) && (n <=? 255) && negb (n =? 173)).

Definition char_isdigit (c : ascii) : bool :=
  let n := Z.of_N (N_of_ascii c) in
  ((48 <=? n) && (n <=? 57)) || (n =? 178) || (n =? 179) || (n =? 185).

(** [str.isprintable()]: every character is printable. *)
Definition isprintable (k : t) : bool :=
  forallb char_isprintable (String.list_ascii_of_string (str k)).

(** [str.isdigit()]: every character is a digit and there is one at least. *)
Definition isdigit (k : t) : bool :=
  negb (String.eqb (str k) EmptyString)
  && forallb char_isdigit (String.list_ascii_of_string (str k)).

(** [inkey.name == s] *)
Definition name_is (k : t) (s : string) : bool :=
  match name k with
  | Some n => String.eqb n s
  | None => false
  end.
End Keystroke.

(** The game object that a configuration refers to; [game.screen] is its
    display surface and [game.terminal] its key source. *)
Definition Game : Type := nat.

(** The calls that the widgets make to [game.screen]. *)
Inductive ScreenCall :=
| trigger_rendering
| update
| delete (row column : Z).

(** ** The world and the monad of the methods *)

Record World := {
  buffer : list (list Sprixel.t);
  screen : list (Game * ScreenCall)
}.

Definition M (A : Type) : Type := World -> Result A * World.

Definition ret {A} (a : A) : M A := fun w => (Returned a, w).

Definition raise {A} (e : exn) : M A := fun w => (Raised e, w).

Definition bind {A B} (c : M A) (k : A -> M B) : M B :=
  fun w =>
    match c w with
    | (Returned a, w') => k a w'
    | (Raised e, w') => (Raised e, w')
    end.

Notation "x <- c1 ;; c2" := (bind c1 (fun x => c2))
  (at level 100, c1 at next level, right associativity).
Notation "c1 ;; c2" := (bind c1 (fun _ => c2))
  (at level 100, right associativity).

(** A computation that needs no world. *)
Definition lift {A} (r : Result A) : M A := fun w => (r, w).

(** [d[key]] on a key of a cache dictionary. *)
Definition getitem {A} (key : string) (entry : option A) : M A :=
  match entry with
  | Some a => ret a
  | None => raise (KeyError key)
  end.

(** [buffer[row][column] = x] *)
Definition setitem (row column : Z) (x : Sprixel.t) : M unit :=
  fun w =>
    match Py.index (length (buffer w)) row with
    | Raised e => (Raised e, w)
    | Returned i =>
        match buffer w !! i with
        | None => (Raised IndexError, w)
        | Some line =>
            match Py.index (length line) column with
            | Raised e => (Raised e, w)
            | Returned j =>
                (Returned tt,
                 {| buffer := <[i := <[j := x]> line]> (buffer w);
                    screen := screen w |})
            end
        end
    end.

(** [for x in xs: body] *)
Fixpoint for_ {A} (xs : list A) (body : A -> M unit) : M unit :=
  match xs with
  | [] => ret tt
  | x :: xs' => body x ;; for_ xs' body
  end.

(** A call [game.screen.f(...)]. *)
Definition screen_call (game : Game) (c : ScreenCall) : M unit :=
  fun w => (Returned tt, {| buffer := buffer w; screen := screen w ++ [(game, c)] |}).

Module Sprite.
(** Modelled from the spec: the text primitive turns a text run into a
    renderable object of one cell per character, each with the colours of
    the run. *)
Abbreviation t := (list Sprixel.t).

Definition from_text (text_object : Text.t) : t :=
  (fun c : ascii =>
     Sprixel.__init__ (String c EmptyString)
       (Text.bg_color text_object) (Text.fg_color text_object))
  <$> String.list_ascii_of_string (Text.text text_object).

(** Modelled from the spec: rendering stamps the cells in a single row,
    from [(row, column)] rightwards; nothing is clipped. *)
Definition render_to_buffer (self : t)
    (row column buffer_height buffer_width : Z) : M unit :=
  for_ (imap (fun (i : nat) (x : Sprixel.t) => (i, x)) self)
    (fun ix => setitem row (column + Z.of_nat ix.1) ix.2).
End Sprite.

(** ** UiConfig *)

Module UiConfig.
Record t := {
  game : Game;
  box_vertical_border : string;
  box_horizontal_border : string;
  box_top_left_corner : string;
  box_top_right_corner : string;
  box_bottom_left_corner : string;
  box_bottom_right_corner : string;
  fg_color : option Color.t;
  bg_color : option Color.t;
  border_fg_color : option Color.t;
  border_bg_color : option Color.t;
  borderless_dialog : bool
}.

(** The arguments of a call of the constructor, each bound to its
    parameter; the defaults of the glyphs are constants of
    [pygamelib.assets.graphics]. *)
Module Args.
Record t := {
  game : option Game;
  box_vertical_border : string;
  box_horizontal_border : string;
  box_top_left_corner : string;
  box_top_right_corner : string;
  box_bottom_left_corner : string;
  box_bottom_right_corner : string;
  fg_color : option Color.t;
  bg_color : option Color.t;
  border_fg_color : option Color.t;
  border_bg_color : option Color.t;
  borderless_dialog : bool
}.
End Args.

Definition __init__ (args : Args.t) : Result t :=
  match Args.game args with
  | None =>
      Raised (PglInvalidTypeException
        "UiConfig: the 'game' parameter cannot be None.")
  | Some g =>
      Returned
        {| game := g;
           box_vertical_border := Args.box_vertical_border args;
           box_horizontal_border := Args.box_horizontal_border args;
           box_top_left_corner := Args.box_top_left_corner args;
           box_top_right_corner := Args.box_top_right_corner args;
           box_bottom_left_corner := Args.box_bottom_left_corner args;
           box_bottom_right_corner := Args.box_bottom_right_corner args;
           fg_color := Args.fg_color args;
           bg_color := Args.bg_color args;
           border_fg_color := Args.border_fg_color args;
           border_bg_color := Args.border_bg_color args;
           borderless_dialog := Args.borderless_dialog args |}
  end.

(** The class method [instance]: [__instance] is the class attribute of
    that name, [None] until a call has stored a configuration in it.  The
    call gives its result and the attribute as it leaves it. *)
Definition instance (__instance : option t) (args : Args.t)
    : Result t * option t :=
  match __instance with
  | None =>
      match __init__ args with
      | Raised e => (Raised e, None)
      | Returned c => (Returned c, Some c)
      end
  | Some c => (Returned c, Some c)
  end.
End UiConfig.

(** The values that the setters and constructors of the module test the type
    of. *)
Inductive PyObj :=
| PyNone
| PyInt (n : Z)
| PyBool (b : bool)
| PyStr (s : string)
| PyText (t : Text.t)
| PySprixel (s : Sprixel.t)
| PyUiConfig (c : UiConfig.t).

(** ** Dialog *)

Module Dialog.
Record t := { _config : UiConfig.t; _user_input : string }.

Definition __init__ (config : PyObj) : Result t :=
  match config with
  | PyUiConfig c => Returned {| _config := c; _user_input := EmptyString |}
  | _ =>
      Raised (PglInvalidTypeException
        "The config parameter cannot be None and needs to be a UiConfig object.")
  end.

Definition config (self : t) : UiConfig.t := _config self.

Definition config_setter (self : t) (value : PyObj) : Result t :=
  match value with
  | PyUiConfig c =>
      Returned {| _config := c; _user_input := _user_input self |}
  | _ =>
      Raised (PglInvalidTypeException
        "Dialog.config = value: value needs to be an UiConfig object.")
  end.

Definition user_input (self : t) : string := _user_input self.

Definition user_input_setter (self : t) (value : PyObj) : Result t :=
  match value with
  | PyStr s => Returned {| _config := _config self; _user_input := s |}
  | _ =>
      Raised (PglInvalidTypeException
        "Dialog.user_input = value: value needs to be a str.")
  end.

Definition show : Result unit := Raised NotImplementedError.
End Dialog.

(** ** Box *)

Module Box.

(** The dictionary [self._cache]: a key is absent until [_build_cache] has
    written it. *)
Module Cache.
Record t := {
  dialog_vertical_border : option Sprixel.t;
  dialog_horizontal_border : option Sprixel.t;
  top_right_corner : option Sprixel.t;
  top_left_corner : option Sprixel.t;
  bottom_right_corner : option Sprixel.t;
  bottom_left_corner : option Sprixel.t;
  title : option Text.t;
  title_sprite : option Sprite.t
}.

Definition empty : t :=
  {| dialog_vertical_border := None; dialog_horizontal_border := None;
     top_right_corner := None; top_left_corner := None;
     bottom_right_corner := None; bottom_left_corner := None;
     title := None; title_sprite := None |}.
End Cache.

Record t := {
  __width : Z;
  __height : Z;
  __title : text_or_str;
  __config : UiConfig.t;
  _cache : Cache.t
}.

Definition _build_cache (self : t) : t :=
  let config := __config self in
  let border (glyph : string) : option Sprixel.t :=
    Some (Sprixel.__init__ glyph
            (UiConfig.border_bg_color config) (UiConfig.border_fg_color config)) in
  let title : Text.t :=
    match __title self with
    | IsText t => t
    | IsStr s =>
        Text.__init__ s
          (UiConfig.border_fg_color config) (UiConfig.border_bg_color config)
    end in
  {| __width := __width self;
     __height := __height self;
     __title := __title self;
     __config := config;
     _cache :=
       {| Cache.dialog_vertical_border := border (UiConfig.box_vertical_border config);
          Cache.dialog_horizontal_border := border (UiConfig.box_horizontal_border config);
          Cache.top_right_corner := border (UiConfig.box_top_left_corner config);
          Cache.top_left_corner := border (UiConfig.box_top_right_corner config);
          Cache.bottom_right_corner := border (UiConfig.box_bottom_left_corner config);
          Cache.bottom_left_corner := border (UiConfig.box_bottom_right_corner config);
          Cache.title := Some title;
          Cache.title_sprite := Some (Sprite.from_text title) |} |}.

Definition __init__ (width height : Z) (title : text_or_str)
    (config : UiConfig.t) : t :=
  _build_cache
    {| __width := width; __height := height; __title := title;
       __config := config; _cache := Cache.empty |}.

Definition config (self : t) : UiConfig.t := __config self.

Definition config_setter (self : t) (value : PyObj) : Result t :=
  match value with
  | PyUiConfig c =>
      Returned (_build_cache
        {| __width := __width self; __height := __height self;
           __title := __title self; __config := c; _cache := _cache self |})
  | _ =>
      Raised (PglInvalidTypeException
        "Box.config = value: value needs to be an UiConfig object.")
  end.

Definition title (self : t) : text_or_str := __title self.

Definition title_setter (self : t) (value : PyObj) : Result t :=
  let assign (v : text_or_str) :=
    Returned (_build_cache
      {| __width := __width self; __height := __height self;
         __title := v; __config := __config self; _cache := _cache self |}) in
  match value with
  | PyText v => assign (IsText v)
  | PyStr v => assign (IsStr v)
  | _ =>
      Raised (PglInvalidTypeException
        "Box.title = value: value needs to be a Text object or str.")
  end.

Definition width (self : t) : Z := __width self.

Definition width_setter (self : t) (value : PyObj) : Result t :=
  match value with
  | PyInt v =>
      Returned (_build_cache
        {| __width := v; __height := __height self;
           __title := __title self; __config := __config self;
           _cache := _cache self |})
  | _ =>
      Raised (PglInvalidTypeException
        "Box.width = value: value needs to be an int.")
  end.

Definition height (self : t) : Z := __height self.

Definition height_setter (self : t) (value : PyObj) : Result t :=
  match value with
  | PyInt v =>
      Returned (_build_cache
        {| __width := __width self; __height := v;
           __title := __title self; __config := __config self;
           _cache := _cache self |})
  | _ =>
      Raised (PglInvalidTypeException
        "Box.width = value: value needs to be an int.")
  end.

(** [self.__width / 2 - len(self._cache["title"].text) / 2] *)
Definition half_gap (self : t) : M Py.float :=
  a <- lift (Py.truediv (__width self) 2) ;;
  title <- getitem "title" (Cache.title (_cache self)) ;;
  b <- lift (Py.truediv (Py.len (Text.text title)) 2) ;;
  ret (Py.fsub a b).

(** [self.__width / 2 - 1 - len(self._cache["title"].text) / 2] *)
Definition half_gap_less_one (self : t) : M Py.float :=
  a <- lift (Py.truediv (__width self) 2) ;;
  one <- lift (Py.of_int 1) ;;
  title <- getitem "title" (Cache.title (_cache self)) ;;
  b <- lift (Py.truediv (Py.len (Text.text title)) 2) ;;
  ret (Py.fsub (Py.fsub a one) b).

Section Rendering.

(** The comparison [text_object == s] of a [base.Text] with a [str]: the
    class [base.Text] decides it, and its code is not part of [ui.py]. *)
Variable Text_eq : Text.t -> string -> bool.

Definition render_to_buffer (self : t)
    (row column buffer_height buffer_width : Z) : M unit :=
  vert_sprix <- getitem "dialog_vertical_border"
                  (Cache.dialog_vertical_border (_cache self)) ;;
  horiz_sprix <- getitem "dialog_horizontal_border"
                   (Cache.dialog_horizontal_border (_cache self)) ;;
  corner <- getitem "top_right_corner" (Cache.top_right_corner (_cache self)) ;;
  setitem row column corner ;;
  title <- getitem "title" (Cache.title (_cache self)) ;;
  (if Text_eq title EmptyString then
     for_ (Py.range (column + 1) (column + __width self - 1))
       (fun c => setitem row c horiz_sprix)
   else
     x <- half_gap self ;;
     n <- lift (Py.round x) ;;
     for_ (Py.range (column + 1) (column + 1 + n))
       (fun c => setitem row c horiz_sprix) ;;
     title_sprite <- getitem "title_sprite" (Cache.title_sprite (_cache self)) ;;
     y <- half_gap_less_one self ;;
     k <- lift (Py.int y) ;;
     Sprite.render_to_buffer title_sprite row (column + 1 + k)
       buffer_height buffer_width ;;
     y <- half_gap_less_one self ;;
     k <- lift (Py.int y) ;;
     title <- getitem "title" (Cache.title (_cache self)) ;;
     let cs := column + 1 + k + Py.len (Text.text title) in
     x <- half_gap self ;;
     n <- lift (Py.int x) ;;
     for_ (Py.range cs (cs + n)) (fun c => setitem row c horiz_sprix)) ;;
  corner <- getitem "top_left_corner" (Cache.top_left_corner (_cache self)) ;;
  setitem row (column + __width self - 1) corner ;;
  for_ (Py.range 1 (__height self - 1))
    (fun r =>
       setitem (row + r) column vert_sprix ;;
       setitem (row + r) (column + __width self - 1) vert_sprix) ;;
  corner <- getitem "bottom_right_corner"
              (Cache.bottom_right_corner (_cache self)) ;;
  setitem (row + __height self - 1) column corner ;;
  for_ (Py.range (column + 1) (column + __width self - 1))
    (fun c => setitem (row + __height self - 1) c horiz_sprix) ;;
  corner <- getitem "bottom_left_corner"
              (Cache.bottom_left_corner (_cache self)) ;;
  setitem (row + __height self - 1) (column + __width self - 1) corner.

End Rendering.

End Box.

(** ** ProgressBar *)

Module ProgressBar.

Module Cache.
Record t := {
  pb_empty : option Sprixel.t;
  pb_progress : option Sprixel.t
}.

Definition empty : t := {| pb_empty := None; pb_progress := None |}.
End Cache.

Record t := {
  __value : Z;
  __maximum : Z;
  __width : Z;
  __progress_marker : marker;
  __empty_marker : marker;
  __config : UiConfig.t;
  _cache : Cache.t
}.

Definition _build_cache (self : t) : t :=
  let config := __config self in
  let cell (m : marker) : Sprixel.t :=
    match m with
    | MSprixel s => s
    | MStr s =>
        Sprixel.__init__ s
          (UiConfig.bg_color config) (UiConfig.fg_color config)
    end in
  {| __value := __value self; __maximum := __maximum self;
     __width := __width self;
     __progress_marker := __progress_marker self;
     __empty_marker := __empty_marker self;
     __config := config;
     _cache :=
       {| Cache.pb_empty := Some (cell (__empty_marker self));
          Cache.pb_progress := Some (cell (__progress_marker self)) |} |}.

Definition __init__ (value maximum width : Z)
    (progress_marker empty_marker : marker) (config : UiConfig.t) : t :=
  _build_cache
    {| __value := value; __maximum := maximum; __width := width;
       __progress_marker := progress_marker;
       __empty_marker := empty_marker;
       __config := config; _cache := Cache.empty |}.

Definition trigger (self : t) : M unit :=
  screen_call (UiConfig.game (__config self)) trigger_rendering.

Definition config (self : t) : UiConfig.t := __config self.

Definition config_setter (self : t) (value : PyObj) : Result t :=
  match value with
  | PyUiConfig c =>
      Returned (_build_cache
        {| __value := __value self; __maximum := __maximum self;
           __width := __width self;
           __progress_marker := __progress_marker self;
           __empty_marker := __empty_marker self;
           __config := c; _cache := _cache self |})
  | _ =>
      Raised (PglInvalidTypeException
        "Box.config(value): value needs to be an UiConfig object.")
  end.

Definition progress_marker (self : t) : marker := __progress_marker self.

(** [self.__progress_marker = s] followed by [self._build_cache()] *)
Definition assign_progress_marker (self : t) (s : string) : t :=
  _build_cache
    {| __value := __value self; __maximum := __maximum self;
       __width := __width self;
       __progress_marker := MStr s;
       __empty_marker := __empty_marker self;
       __config := __config self; _cache := _cache self |}.

(** In the first branch the entry [pb_progress] receives the [Text] itself,
    which [_build_cache] replaces at once by the cell built from its text.
    In the second one the assignment to the attribute [text] of the cached
    cell needs the entry, and changes neither glyph nor colour of the
    cell. *)
Definition progress_marker_setter (self : t) (value : PyObj) : M t :=
  self' <- match value with
           | PyText v => ret (assign_progress_marker self (Text.text v))
           | PyStr v =>
               getitem "pb_progress" (Cache.pb_progress (_cache self)) ;;
               ret (assign_progress_marker self v)
           | _ =>
               raise (PglInvalidTypeException
                 "ProgressDialog.progress_marker: value needs to be a str or pygamelib.base.Text.")
           end ;;
  trigger self' ;;
  ret self'.

(** The getter reads the attribute of the progress marker. *)
Definition empty_marker (self : t) : marker := __progress_marker self.

(** [self.__empty_marker = s] followed by [self._build_cache()] *)
Definition assign_empty_marker (self : t) (s : string) : t :=
  _build_cache
    {| __value := __value self; __maximum := __maximum self;
       __width := __width self;
       __progress_marker := __progress_marker self;
       __empty_marker := MStr s;
       __config := __config self; _cache := _cache self |}.

Definition empty_marker_setter (self : t) (value : PyObj) : M t :=
  self' <- match value with
           | PyText v => ret (assign_empty_marker self (Text.text v))
           | PyStr v =>
               getitem "pb_empty" (Cache.pb_empty (_cache self)) ;;
               ret (assign_empty_marker self v)
           | _ =>
               raise (PglInvalidTypeException
                 "ProgressDialog.empty_marker: value needs to be a str or pygamelib.base.Text.")
           end ;;
  trigger self' ;;
  ret self'.

Definition value (self : t) : Z := __value self.

Definition value_setter (self : t) (value : PyObj) : M t :=
  self' <- match value with
           | PyInt v =>
               ret {| __value := v; __maximum := __maximum self;
                      __width := __width self;
                      __progress_marker := __progress_marker self;
                      __empty_marker := __empty_marker self;
                      __config := __config self; _cache := _cache self |}
           | _ =>
               raise (PglInvalidTypeException
                 "ProgressDialog.value: value needs to be an int.")
           end ;;
  trigger self' ;;
  ret self'.

Definition maximum (self : t) : Z := __maximum self.

Definition maximum_setter (self : t) (value : PyObj) : M t :=
  self' <- match value with
           | PyInt v =>
               ret {| __value := __value self; __maximum := v;
                      __width := __width self;
                      __progress_marker := __progress_marker self;
                      __empty_marker := __empty_marker self;
                      __config := __config self; _cache := _cache self |}
           | _ =>
               raise (PglInvalidTypeException
                 "ProgressDialog.maximum: value needs to be an int.")
           end ;;
  trigger self' ;;
  ret self'.

Definition render_to_buffer (self : t)
    (row column buffer_height buffer_width : Z) : M unit :=
  q <- lift (Py.truediv (__value self * __width self) (__maximum self)) ;;
  n <- lift (Py.int q) ;;
  let prog := Z.min n (__width self) in
  for_ (Py.range 0 prog)
    (fun c =>
       x <- getitem "pb_progress" (Cache.pb_progress (_cache self)) ;;
       setitem row (column + c) x) ;;
  for_ (Py.range prog (__width self))
    (fun c =>
       x <- getitem "pb_empty" (Cache.pb_empty (_cache self)) ;;
       setitem row (column + c) x).

End ProgressBar.

(** ** ProgressDialog *)

Module ProgressDialog.

Module Cache.
Record t := {
  label : option Text.t;
  pb : option ProgressBar.t;
  borders : option Box.t
}.

Definition empty : t := {| label := None; pb := None; borders := None |}.
End Cache.

Record t := {
  super : Dialog.t;
  __label : text_or_str;
  __value : Z;
  __maximum : Z;
  __width : Z;
  __progress_marker : marker;
  __empty_marker : marker;
  __adaptive_width : bool;
  destroy_on_complete : bool;
  __destroy : bool;
  _cache : Cache.t
}.

(** The property [config] is the one of [Dialog]. *)
Definition config (self : t) : UiConfig.t := Dialog.config (super self).

Definition config_setter (self : t) (value : PyObj) : Result t :=
  match Dialog.config_setter (super self) value with
  | Raised e => Raised e
  | Returned d =>
      Returned
        {| super := d; __label := __label self; __value := __value self;
           __maximum := __maximum self; __width := __width self;
           __progress_marker := __progress_marker self;
           __empty_marker := __empty_marker self;
           __adaptive_width := __adaptive_width self;
           destroy_on_complete := destroy_on_complete self;
           __destroy := __destroy self; _cache := _cache self |}
  end.

Definition _build_cache (self : t) : t :=
  let config := config self in
  let label : Text.t :=
    match __label self with
    | IsText t => t
    | IsStr s => Text.__init__ s (UiConfig.fg_color config) (UiConfig.bg_color config)
    end in
  let width :=
    if __adaptive_width self && negb (__width self =? Text.length label)
    then Py.len (Text.text label)
    else __width self in
  let pb :=
    ProgressBar.__init__ (__value self) (__maximum self) width
      (__progress_marker self) (__empty_marker self) config in
  let borders :=
    if negb (UiConfig.borderless_dialog config)
    then Some (Box.__init__ width 2 (IsText label) config)
    else Cache.borders (_cache self) in
  {| super := super self; __label := __label self; __value := __value self;
     __maximum := __maximum self; __width := width;
     __progress_marker := __progress_marker self;
     __empty_marker := __empty_marker self;
     __adaptive_width := __adaptive_width self;
     destroy_on_complete := destroy_on_complete self;
     __destroy := __destroy self;
     _cache :=
       {| Cache.label := Some label; Cache.pb := Some pb;
          Cache.borders := borders |} |}.

Definition __init__ (label : text_or_str) (value maximum width : Z)
    (progress_marker empty_marker : marker)
    (adaptive_width destroy_on_complete : bool) (config : PyObj) : Result t :=
  match Dialog.__init__ config with
  | Raised e => Raised e
  | Returned d =>
      Returned (_build_cache
        {| super := d; __label := label; __value := value;
           __maximum := maximum; __width := width;
           __progress_marker := progress_marker;
           __empty_marker := empty_marker;
           __adaptive_width := adaptive_width;
           destroy_on_complete := destroy_on_complete;
           __destroy := false; _cache := Cache.empty |})
  end.

Definition trigger (self : t) : M unit :=
  screen_call (UiConfig.game (config self)) trigger_rendering.

Definition label (self : t) : text_or_str := __label self.

(** [self.__label = s], with the entry [label] of the cache set to [entry],
    followed by [self._build_cache()] *)
Definition assign_label (self : t) (s : string) (entry : Text.t) : t :=
  _build_cache
    {| super := super self; __label := IsStr s; __value := __value self;
       __maximum := __maximum self; __width := __width self;
       __progress_marker := __progress_marker self;
       __empty_marker := __empty_marker self;
       __adaptive_width := __adaptive_width self;
       destroy_on_complete := destroy_on_complete self;
       __destroy := __destroy self;
       _cache :=
         {| Cache.label := Some entry; Cache.pb := Cache.pb (_cache self);
            Cache.borders := Cache.borders (_cache self) |} |}.

(** In the second branch the text object of the entry [label] receives the
    new text before [_build_cache] replaces the entry by a text object made
    from [__label]. *)
Definition label_setter (self : t) (value : PyObj) : M t :=
  self' <- match value with
           | PyText v => ret (assign_label self (Text.text v) v)
           | PyStr v =>
               entry <- getitem "label" (Cache.label (_cache self)) ;;
               ret (assign_label self v (Text.text_setter entry v))
           | _ =>
               raise (PglInvalidTypeException
                 "ProgressDialog.label: value needs to be a str or pygamelib.base.Text.")
           end ;;
  trigger self' ;;
  ret self'.

Definition value (self : t) : Z := __value self.

(** The value goes to the cached progress bar through its own setter; the
    cache is not rebuilt. *)
Definition value_setter (self : t) (val : PyObj) : M t :=
  self' <- match val with
           | PyInt v =>
               bar <- getitem "pb" (Cache.pb (_cache self)) ;;
               bar' <- ProgressBar.value_setter bar (PyInt v) ;;
               ret {| super := super self; __label := __label self;
                      __value := v;
                      __maximum := __maximum self; __width := __width self;
                      __progress_marker := __progress_marker self;
                      __empty_marker := __empty_marker self;
                      __adaptive_width := __adaptive_width self;
                      destroy_on_complete := destroy_on_complete self;
                      __destroy := __destroy self;
                      _cache :=
                        {| Cache.label := Cache.label (_cache self);
                           Cache.pb := Some bar';
                           Cache.borders := Cache.borders (_cache self) |} |}
           | _ =>
               raise (PglInvalidTypeException
                 "ProgressDialog.value: value needs to be an int.")
           end ;;
  trigger self' ;;
  ret self'.

Definition maximum (self : t) : Z := __maximum self.

Definition maximum_setter (self : t) (value : PyObj) : M t :=
  self' <- match value with
           | PyInt v =>
               ret (_build_cache
                 {| super := super self; __label := __label self;
                    __value := __value self;
                    __maximum := v; __width := __width self;
                    __progress_marker := __progress_marker self;
                    __empty_marker := __empty_marker self;
                    __adaptive_width := __adaptive_width self;
                    destroy_on_complete := destroy_on_complete self;
                    __destroy := __destroy self; _cache := _cache self |})
           | _ =>
               raise (PglInvalidTypeException
                 "ProgressDialog.maximum: value needs to be an int.")
           end ;;
  trigger self' ;;
  ret self'.

(** [self.__destroy = flag] *)
Definition assign_destroy (self : t) (flag : bool) : t :=
  {| super := super self; __label := __label self; __value := __value self;
     __maximum := __maximum self; __width := __width self;
     __progress_marker := __progress_marker self;
     __empty_marker := __empty_marker self;
     __adaptive_width := __adaptive_width self;
     destroy_on_complete := destroy_on_complete self;
     __destroy := flag; _cache := _cache self |}.

Section Rendering.

Variable Text_eq : Text.t -> string -> bool.

(** The method returns the dialog, whose attribute [__destroy] it may
    have set. *)
Definition render_to_buffer (self : t)
    (row column buffer_height buffer_width : Z) : M t :=
  (if __destroy self
   then screen_call (UiConfig.game (config self)) (delete row column)
   else ret tt) ;;
  offset <- (if negb (UiConfig.borderless_dialog (config self)) then
               let box := Box.__init__ (__width self + 2) 4 (IsStr EmptyString) (config self) in
               Box.render_to_buffer Text_eq box row column
                 buffer_height buffer_width ;;
               ret 1
             else ret 0) ;;
  label <- getitem "label" (Cache.label (_cache self)) ;;
  let lbl := Sprite.from_text label in
  Sprite.render_to_buffer lbl (row + offset) (column + offset)
    buffer_height buffer_width ;;
  bar <- getitem "pb" (Cache.pb (_cache self)) ;;
  ProgressBar.render_to_buffer bar (row + 1 + offset) (column + offset)
    buffer_height buffer_width ;;
  ret (if destroy_on_complete self && (__value self =? __maximum self)
       then assign_destroy self true
       else self).

End Rendering.

End ProgressDialog.

(** ** MessageDialog *)

Module MessageDialog.
(** [super().__init__()] gives no configuration: the parameter [config] of
    [Dialog.__init__] takes its default, [None]. *)
Definition __init__ : Result Dialog.t := Dialog.__init__ PyNone.
End MessageDialog.

(** ** The input dialogs *)

(** What a call of [show()] comes to on a given sequence of results of
    [term.inkey]: it returned or raised, or it has used up the sequence and
    waits in [term.inkey] for a key. *)
Inductive Outcome (S A : Type) :=
| Finished (r : Result A) (s : S)
| Waiting (s : S).
Arguments Finished {S A} r s.
Arguments Waiting {S A} s.

(** [s[:-1]] *)
Fixpoint drop_last (s : string) : string :=
  match s with
  | EmptyString => EmptyString
  | String c EmptyString => EmptyString
  | String c s' => String c (drop_last s')
  end.

(** The world after [screen.trigger_rendering()] and [screen.update()]. *)
Definition redraw (game : Game) (w : World) : World :=
  (screen_call game update (screen_call game trigger_rendering w).2).2.

Module LineInputDialog.

Record t := {
  super : Dialog.t;
  __label : Text.t;
  __default : string;
  __filter : constants.Filter
}.

Definition config (self : t) : UiConfig.t := Dialog.config (super self).
Definition user_input (self : t) : string := Dialog.user_input (super self).

(** [self.user_input = value] on a [str], through the setter of [Dialog]. *)
Definition assign_user_input (self : t) (value : string) : Result t :=
  match Dialog.user_input_setter (super self) (PyStr value) with
  | Raised e => Raised e
  | Returned d =>
      Returned {| super := d; __label := __label self;
                  __default := __default self; __filter := __filter self |}
  end.

(** The default is a [str], which [str(default)] leaves as it is. *)
Definition __init__ (label : PyObj) (default : string)
    (filter : constants.Filter) (config : PyObj) : Result t :=
  match Dialog.__init__ config with
  | Raised e => Raised e
  | Returned d =>
      let finish (label' : Text.t) : Result t :=
        assign_user_input
          {| super := d; __label := label'; __default := default;
             __filter := filter |} default in
      match label with
      | PyText v => finish v
      | PyStr s => finish (Text.__init__ s None None)
      | _ =>
          Raised (PglInvalidTypeException
            "LineInputDialog: label must be a str or pygamelib.base.Text.")
      end
  end.

(** The loop of [show]: [polls] are the results of the calls of
    [term.inkey] to come. *)
Fixpoint loop (polls : list Keystroke.t) (self : t) (w : World)
    : Outcome (t * World) string :=
  match polls with
  | [] => Waiting (self, w)
  | inkey :: polls' =>
      if String.eqb (Keystroke.str inkey) EmptyString then loop polls' self w
      else if Keystroke.name_is inkey "KEY_ENTER" then
        Finished (Returned (user_input self)) (self, w)
      else if Keystroke.name_is inkey "KEY_ESCAPE" then
        match assign_user_input self EmptyString with
        | Raised e => Finished (Raised e) (self, w)
        | Returned self' => Finished (Returned (user_input self')) (self', w)
        end
      else if Keystroke.name_is inkey "KEY_BACKSPACE"
              || Keystroke.name_is inkey "KEY_DELETE" then
        match assign_user_input self (drop_last (user_input self)) with
        | Raised e => Finished (Raised e) (self, w)
        | Returned self' =>
            loop polls' self' (redraw (UiConfig.game (config self)) w)
        end
      else if (constants.Filter_eqb (__filter self) constants.PRINTABLE_FILTER
               && Keystroke.isprintable inkey)
              || (constants.Filter_eqb (__filter self) constants.INTEGER_FILTER
                  && Keystroke.isdigit inkey) then
        match assign_user_input self
                (String.append (user_input self) (Keystroke.str inkey)) with
        | Raised e => Finished (Raised e) (self, w)
        | Returned self' =>
            loop polls' self' (redraw (UiConfig.game (config self)) w)
        end
      else loop polls' self w
  end.

Definition show (self : t) (polls : list Keystroke.t) (w : World)
    : Outcome (t * World) string :=
  loop polls self (screen_call (UiConfig.game (config self)) update w).2.


Section Rendering.

Variable Text_eq : Text.t -> string -> bool.

Definition render_to_buffer (self : t)
    (row column buffer_height buffer_width : Z) : M unit :=
  offset <- (if negb (UiConfig.borderless_dialog (config self)) then
               let box :=
                 Box.__init__ (Text.length (__label self) + 2) 4 (IsStr EmptyString)
                   (config self) in
               Box.render_to_buffer Text_eq box row column
                 buffer_height buffer_width ;;
               ret 1
             else ret 0) ;;
  let lbl := Sprite.from_text (__label self) in
  Sprite.render_to_buffer lbl (row + offset) (column + offset)
    buffer_height buffer_width ;;
  let inp :=
    Sprite.from_text
      (Text.__init__ (String.append "> " (user_input self)) None None) in
  Sprite.render_to_buffer inp (row + 1 + offset) (column + offset)
    buffer_height buffer_width.

End Rendering.

End LineInputDialog.

Module MultiLineInputDialog.

(** A field is a dictionary with the keys [label], [default] and [filter],
    to which [_build_cache] adds [user_input].  The list of the fields holds
    one record for each position: the dictionaries are taken to be pairwise
    distinct objects, so that an assignment to the dictionary at one
    position is an update of the list at that position. *)
Module Field.
Record t := {
  label : text_or_str;
  default : string;
  filter : constants.Filter;
  user_input : string
}.

(** [field["user_input"] = value] *)
Definition assign_user_input (field : t) (value : string) : t :=
  {| label := label field; default := default field;
     filter := filter field; user_input := value |}.
End Field.

Record t := {
  super : Dialog.t;
  __fields : list Field.t;
  __cache : list Text.t;
  __current_field : Z
}.

Definition config (self : t) : UiConfig.t := Dialog.config (super self).

Definition _build_cache (self : t) : t :=
  {| super := super self;
     __fields :=
       (fun field => Field.assign_user_input field (Field.default field))
       <$> __fields self;
     __cache :=
       (fun field =>
          match Field.label field with
          | IsText t => t
          | IsStr s => Text.__init__ s None None
          end) <$> __fields self;
     __current_field := __current_field self |}.

Definition __init__ (fields : list Field.t) (config : PyObj) : Result t :=
  match Dialog.__init__ config with
  | Raised e => Raised e
  | Returned d =>
      match Dialog.user_input_setter d (PyStr EmptyString) with
      | Raised e => Raised e
      | Returned d' =>
          Returned (_build_cache
            {| super := d'; __fields := fields; __cache := [];
               __current_field := 0 |})
      end
  end.

Definition fields (self : t) : list Field.t := __fields self.

(** [self.__fields = fs] *)
Definition assign_fields (self : t) (fs : list Field.t) : t :=
  {| super := super self; __fields := fs; __cache := __cache self;
     __current_field := __current_field self |}.

(** [self.__current_field = i] *)
Definition assign_current_field (self : t) (i : Z) : t :=
  {| super := super self; __fields := __fields self; __cache := __cache self;
     __current_field := i |}.

(** [self.__fields[self.__current_field]], with its position in the list *)
Definition current (self : t) : Result (nat * Field.t) :=
  match Py.index (length (__fields self)) (__current_field self) with
  | Raised e => Raised e
  | Returned i =>
      match __fields self !! i with
      | Some field => Returned (i, field)
      | None => Raised IndexError
      end
  end.

Fixpoint loop (polls : list Keystroke.t) (self : t) (w : World)
    : Outcome (t * World) (list Field.t) :=
  match polls with
  | [] => Waiting (self, w)
  | inkey :: polls' =>
      if String.eqb (Keystroke.str inkey) EmptyString then loop polls' self w
      else if Keystroke.name_is inkey "KEY_ENTER" then
        Finished (Returned (__fields self)) (self, w)
      else if Keystroke.name_is inkey "KEY_TAB" then
        let self1 := assign_current_field self (__current_field self + 1) in
        if Py.len_list (__fields self1) =? 0
        then Finished (Raised ZeroDivisionError) (self1, w)
        else
          loop polls'
            (assign_current_field self1
               (__current_field self1 mod Py.len_list (__fields self1)))
            (redraw (UiConfig.game (config self)) w)
      else if Keystroke.name_is inkey "KEY_ESCAPE" then
        let self' :=
          assign_fields self
            ((fun field => Field.assign_user_input field EmptyString) <$> __fields self) in
        Finished (Returned (__fields self')) (self', w)
      else if Keystroke.name_is inkey "KEY_BACKSPACE"
              || Keystroke.name_is inkey "KEY_DELETE" then
        match current self with
        | Raised e => Finished (Raised e) (self, w)
        | Returned (i, field) =>
            loop polls'
              (assign_fields self
                 (<[i := Field.assign_user_input field
                           (drop_last (Field.user_input field))]> (__fields self)))
              (redraw (UiConfig.game (config self)) w)
        end
      else
        match current self with
        | Raised e => Finished (Raised e) (self, w)
        | Returned (i, field) =>
            if (constants.Filter_eqb (Field.filter field) constants.PRINTABLE_FILTER
                && Keystroke.isprintable inkey)
               || (constants.Filter_eqb (Field.filter field) constants.INTEGER_FILTER
                   && Keystroke.isdigit inkey) then
              loop polls'
                (assign_fields self
                   (<[i := Field.assign_user_input field
                             (String.append (Field.user_input field)
                                (Keystroke.str inkey))]> (__fields self)))
                (redraw (UiConfig.game (config self)) w)
            else loop polls' self w
        end
  end.

Definition show (self : t) (polls : list Keystroke.t) (w : World)
    : Outcome (t * World) (list Field.t) :=
  loop polls (assign_current_field self 0)
    (redraw (UiConfig.game (config self)) w).


(** The value given to the setter of [fields]: a [list] of fields, or an
    object of another type. *)
Inductive list_or_other :=
| IsList (fields : list Field.t)
| NotAList (value : PyObj).

Definition fields_setter (self : t) (value : list_or_other) : M t :=
  self1 <- match value with
           | IsList fs => ret (assign_fields self fs)
           | NotAList _ =>
               raise (PglInvalidTypeException
                 "MultiInputDialog.label: value needs to be a list of dictionaries.")
           end ;;
  let self2 := _build_cache self1 in
  screen_call (UiConfig.game (config self2)) trigger_rendering ;;
  ret self2.

(** The first loop of [render_to_buffer]: the greatest length of a label. *)
Fixpoint widest (fields : list Field.t) (max_text_width : Z) : Z :=
  match fields with
  | [] => max_text_width
  | field :: fields' =>
      widest fields'
        (match Field.label field with
         | IsText t =>
             if max_text_width <? Text.length t then Text.length t
             else max_text_width
         | IsStr s =>
             if max_text_width <? Py.len s then Py.len s
             else max_text_width
         end)
  end.

(** [self.__cache[fidx]] *)
Definition cache_item (self : t) (fidx : Z) : Result Text.t :=
  match Py.index (length (__cache self)) fidx with
  | Raised e => Raised e
  | Returned i =>
      match __cache self !! i with
      | Some text => Returned text
      | None => Raised IndexError
      end
  end.

Section Rendering.

Variable Text_eq : Text.t -> string -> bool.

(** The second loop of [render_to_buffer], from the values that [lc] and
    [fidx] have when it reaches the fields [fields]. *)
Fixpoint render_fields (self : t) (fields : list Field.t) (lc fidx : Z)
    (row column offset buffer_height buffer_width : Z) : M unit :=
  match fields with
  | [] => ret tt
  | field :: fields' =>
      text <- lift (cache_item self fidx) ;;
      let lbl := Sprite.from_text text in
      Sprite.render_to_buffer lbl (row + offset + lc) (column + offset)
        buffer_height buffer_width ;;
      let t :=
        Text.__init__ (String.append "> " (Field.user_input field)) None None in
      let t :=
        if fidx =? __current_field self
        then Text.fg_color_setter t (Some (Color.__init__ 0 255 0))
        else t in
      let inp := Sprite.from_text t in
      Sprite.render_to_buffer inp (row + 1 + offset + lc) (column + offset)
        buffer_height buffer_width ;;
      render_fields self fields' (lc + 2) (fidx + 1)
        row column offset buffer_height buffer_width
  end.

Definition render_to_buffer (self : t)
    (row column buffer_height buffer_width : Z) : M unit :=
  offset <- (if negb (UiConfig.borderless_dialog (config self)) then
               let max_text_width := widest (__fields self) 0 in
               let box :=
                 Box.__init__ (max_text_width + 2)
                   (Py.len_list (__fields self) * 2 + 2) (IsStr EmptyString)
                   (config self) in
               Box.render_to_buffer Text_eq box row column
                 buffer_height buffer_width ;;
               ret 1
             else ret 0) ;;
  render_fields self (__fields self) 0 0
    row column offset buffer_height buffer_width.

End Rendering.

End MultiLineInputDialog.

(** * Specification vocabulary *)

(** ** Floats that are exact halves

    [is_half x K] holds when the float [x] is exactly [K / 2]. *)
Definition is_half (x : Py.float) (K : Z) : Prop :=
  exists m e, x = Py.Finite m e /\ e <= 0 /\ 2 * m = K * 2 ^ (- e).

(** ** The contents of a buffer *)

(** The cell of the buffer at row [r] and column [c], both counted from 0. *)
Definition cell (buf : list (list Sprixel.t)) (r c : Z) : option Sprixel.t :=
  if (0 <=? r) && (0 <=? c) then
    match buf !! Z.to_nat r with
    | Some line => line !! Z.to_nat c
    | None => None
    end
  else None.

(** The buffer has [h] rows of [w] cells each. *)
Definition rect (h w : Z) (buf : list (list Sprixel.t)) : Prop :=
  Z.of_nat (length buf) = h /\
  Forall (fun line : list Sprixel.t => Z.of_nat (length line) = w) buf.

(** A paint is what a rendering leaves in the cells it has written. *)
Definition paint : Type := Z -> Z -> option Sprixel.t.

Definition nothing : paint := fun _ _ => None.

(** [over g2 g1]: the paint [g1], then [g2] on top of it. *)
Definition over (g2 g1 : paint) : paint :=
  fun r c => match g2 r c with Some x => Some x | None => g1 r c end.

(** One cell. *)
Definition dot (r c : Z) (x : Sprixel.t) : paint :=
  fun r' c' => if (r' =? r) && (c' =? c) then Some x else None.

(** The cells of row [r] in the columns [a <= c < b]. *)
Definition hline (r a b : Z) (x : Sprixel.t) : paint :=
  fun r' c' => if (r' =? r) && (a <=? c') && (c' <? b) then Some x else None.

(** The cells of the columns [c1] and [c2] in the rows [a <= r < b]. *)
Definition sides (a b c1 c2 : Z) (x : Sprixel.t) : paint :=
  fun r' c' =>
    if (a <=? r') && (r' <? b) && ((c' =? c1) || (c' =? c2)) then Some x else None.

(** The cells [xs] in row [r] from column [a] rightwards. *)
Definition stamp (r a : Z) (xs : list Sprixel.t) : paint :=
  fun r' c' =>
    if (r' =? r) && (a <=? c') && (c' <? a + Z.of_nat (length xs))
    then xs !! Z.to_nat (c' - a) else None.

(** [wd'] is [wd] with the paint [g] applied to a buffer of [h] rows of [w]
    cells; the screen has not been called. *)
Definition painted (h w : Z) (g : paint) (wd wd' : World) : Prop :=
  rect h w (buffer wd') /\
  screen wd' = screen wd /\
  forall r c,
    cell (buffer wd') r c =
    match g r c with Some x => Some x | None => cell (buffer wd) r c end.

(** The computation [m] returns on every buffer of [h] rows of [w] cells and
    applies the paint [g] to it. *)
Definition paints (h w : Z) (m : M unit) (g : paint) : Prop :=
  forall wd, rect h w (buffer wd) ->
    exists wd', m wd = (Returned tt, wd') /\ painted h w g wd wd'.

(** ** What a box paints *)

(** The cell that [Box._build_cache] makes of a border glyph. *)
Definition border_cell (config : UiConfig.t) (glyph : string) : Sprixel.t :=
  Sprixel.__init__ glyph
    (UiConfig.border_bg_color config) (UiConfig.border_fg_color config).

(** The text object that [Box._build_cache] keeps for the title. *)
Definition title_of (s : Box.t) : Text.t :=
  match Box.__title s with
  | IsText t => t
  | IsStr str =>
      Text.__init__ str
        (UiConfig.border_fg_color (Box.__config s))
        (UiConfig.border_bg_color (Box.__config s))
  end.

(** The length of the title. *)
Definition title_len (s : Box.t) : Z := Py.len (Text.text (title_of s)).

(** The three numbers of the top row of a box of width [W] whose title has
    [l] characters: the length of the left loop, the offset of the title and
    the length of the right loop. *)
Definition left_fill (W l : Z) : Z := Py.round_half_even (W - l) 2.
Definition title_offset (W l : Z) : Z := (W - 2 - l) ÷ 2.
Definition right_fill (W l : Z) : Z := (W - l) ÷ 2.

(** The paint of the loops of the top row, between the two corners. *)
Definition top_paint (Text_eq : Text.t -> string -> bool) (s : Box.t)
    (row column : Z) : paint :=
  let W := Box.__width s in
  let l := title_len s in
  let hz := border_cell (Box.__config s) (UiConfig.box_horizontal_border (Box.__config s)) in
  if Text_eq (title_of s) EmptyString then hline row (column + 1) (column + W - 1) hz
  else
    let cs := column + 1 + title_offset W l + l in
    over
      (over (hline row cs (cs + right_fill W l) hz)
            (stamp row (column + 1 + title_offset W l) (Sprite.from_text (title_of s))))
      (hline row (column + 1) (column + 1 + left_fill W l) hz).

(** The paint of [Box.render_to_buffer], write after write. *)
Definition box_paint (Text_eq : Text.t -> string -> bool) (s : Box.t)
    (row column : Z) : paint :=
  let cfg := Box.__config s in
  let W := Box.__width s in
  let H := Box.__height s in
  let hz := border_cell cfg (UiConfig.box_horizontal_border cfg) in
  let vt := border_cell cfg (UiConfig.box_vertical_border cfg) in
  over (over (over (over (over (over
    (dot (row + H - 1) (column + W - 1)
       (border_cell cfg (UiConfig.box_bottom_right_corner cfg)))
    (hline (row + H - 1) (column + 1) (column + W - 1) hz))
    (dot (row + H - 1) column
       (border_cell cfg (UiConfig.box_bottom_left_corner cfg))))
    (sides (row + 1) (row + (H - 1)) column (column + W - 1) vt))
    (dot row (column + W - 1)
       (border_cell cfg (UiConfig.box_top_right_corner cfg))))
    (top_paint Text_eq s row column))
    (dot row column (border_cell cfg (UiConfig.box_top_left_corner cfg))).

(** ** The properties of the renderings *)

(** Rendering the box [s], once its cache is built, returns and leaves a
    frame: the four corners, the horizontal border between the corners of the
    top and of the bottom row, the vertical border at both ends of the rows in
    between, and every other cell as it was. *)
Definition frame_drawn (Text_eq : Text.t -> string -> bool) (s : Box.t)
    (row column bh bw : Z) (wd : World) : Prop :=
  let cfg := Box.__config s in
  let W := Box.__width s in
  let H := Box.__height s in
  let hz := border_cell cfg (UiConfig.box_horizontal_border cfg) in
  let vt := border_cell cfg (UiConfig.box_vertical_border cfg) in
  exists wd',
    Box.render_to_buffer Text_eq (Box._build_cache s) row column bh bw wd
    = (Returned tt, wd') /\
    rect bh bw (buffer wd') /\
    screen wd' = screen wd /\
    cell (buffer wd') row column
    = Some (border_cell cfg (UiConfig.box_top_left_corner cfg)) /\
    cell (buffer wd') row (column + W - 1)
    = Some (border_cell cfg (UiConfig.box_top_right_corner cfg)) /\
    cell (buffer wd') (row + H - 1) column
    = Some (border_cell cfg (UiConfig.box_bottom_left_corner cfg)) /\
    cell (buffer wd') (row + H - 1) (column + W - 1)
    = Some (border_cell cfg (UiConfig.box_bottom_right_corner cfg)) /\
    (forall c, column < c < column + W - 1 ->
       cell (buffer wd') row c = Some hz /\
       cell (buffer wd') (row + H - 1) c = Some hz) /\
    (forall r, row < r < row + H - 1 ->
       cell (buffer wd') r column = Some vt /\
       cell (buffer wd') r (column + W - 1) = Some vt) /\
    (forall r c, row < r < row + H - 1 -> column < c < column + W - 1 ->
       cell (buffer wd') r c = cell (buffer wd) r c) /\
    (forall r c, r < row \/ row + H <= r \/ c < column \/ column + W <= c ->
       cell (buffer wd') r c = cell (buffer wd) r c).

(** After the rendering the top row of the box reads: the top-left corner,
    [nl] cells of horizontal border, the cells of the title, [nr] cells of
    horizontal border, the top-right corner. *)
Definition top_row_split (nl nr : Z) (Text_eq : Text.t -> string -> bool)
    (s : Box.t) (row column bh bw : Z) (wd : World) : Prop :=
  let cfg := Box.__config s in
  let hz := border_cell cfg (UiConfig.box_horizontal_border cfg) in
  let title := Sprite.from_text (title_of s) in
  let nt := Z.of_nat (length title) in
  exists wd',
    Box.render_to_buffer Text_eq (Box._build_cache s) row column bh bw wd
    = (Returned tt, wd') /\
    cell (buffer wd') row column
    = Some (border_cell cfg (UiConfig.box_top_left_corner cfg)) /\
    (forall c, column + 1 <= c < column + 1 + nl ->
       cell (buffer wd') row c = Some hz) /\
    (forall i, 0 <= i < nt ->
       cell (buffer wd') row (column + 1 + nl + i) = title !! Z.to_nat i) /\
    (forall c, column + 1 + nl + nt <= c < column + 1 + nl + nt + nr ->
       cell (buffer wd') row c = Some hz) /\
    cell (buffer wd') row (column + 1 + nl + nt + nr)
    = Some (border_cell cfg (UiConfig.box_top_right_corner cfg)).

(** The entries of the cache named after a corner hold the glyph configured
    for the corner on the other side. *)
Definition corners_crossed (s : Box.t) : Prop :=
  let cfg := Box.__config s in
  let cache := Box._cache (Box._build_cache s) in
  Box.Cache.top_right_corner cache
  = Some (border_cell cfg (UiConfig.box_top_left_corner cfg)) /\
  Box.Cache.top_left_corner cache
  = Some (border_cell cfg (UiConfig.box_top_right_corner cfg)) /\
  Box.Cache.bottom_right_corner cache
  = Some (border_cell cfg (UiConfig.box_bottom_left_corner cfg)) /\
  Box.Cache.bottom_left_corner cache
  = Some (border_cell cfg (UiConfig.box_bottom_right_corner cfg)).

(** After the rendering each corner of the rectangle of the box holds the
    glyph configured for that corner. *)
Definition corners_placed (Text_eq : Text.t -> string -> bool) (s : Box.t)
    (row column bh bw : Z) (wd : World) : Prop :=
  let cfg := Box.__config s in
  let W := Box.__width s in
  let H := Box.__height s in
  exists wd',
    Box.render_to_buffer Text_eq (Box._build_cache s) row column bh bw wd
    = (Returned tt, wd') /\
    cell (buffer wd') row column
    = Some (border_cell cfg (UiConfig.box_top_left_corner cfg)) /\
    cell (buffer wd') row (column + W - 1)
    = Some (border_cell cfg (UiConfig.box_top_right_corner cfg)) /\
    cell (buffer wd') (row + H - 1) column
    = Some (border_cell cfg (UiConfig.box_bottom_left_corner cfg)) /\
    cell (buffer wd') (row + H - 1) (column + W - 1)
    = Some (border_cell cfg (UiConfig.box_bottom_right_corner cfg)).

(** Rendering the progress bar [pb] returns and writes [width] cells of one
    row: the cached filled cell in the first
    [min (floor (value * width / maximum)) width] of them, the cached empty
    cell in the others; no other cell changes and the screen is not called. *)
Definition bar_drawn (pb : ProgressBar.t) (row column bh bw : Z)
    (wd : World) : Prop :=
  let W := ProgressBar.__width pb in
  let prog :=
    Z.min (ProgressBar.__value pb * W / ProgressBar.__maximum pb) W in
  exists wd' filled empty,
    ProgressBar.Cache.pb_progress (ProgressBar._cache pb) = Some filled /\
    ProgressBar.Cache.pb_empty (ProgressBar._cache pb) = Some empty /\
    ProgressBar.render_to_buffer pb row column bh bw wd = (Returned tt, wd') /\
    screen wd' = screen wd /\
    forall r c,
      cell (buffer wd') r c =
      if (r =? row) && (column <=? c) && (c <? column + W)
      then (if c <? column + prog then Some filled else Some empty)
      else cell (buffer wd) r c.

(** ** Values given to the setters *)

(** A [str] or a [base.Text] as the argument of a setter, and the characters
    that it holds. *)
Definition as_obj (v : text_or_str) : PyObj :=
  match v with
  | IsText t => PyText t
  | IsStr s => PyStr s
  end.

Definition text_in (v : text_or_str) : string :=
  match v with
  | IsText t => Text.text t
  | IsStr s => s
  end.

(** The world after a call to the screen of [game]. *)
Definition called (game : Game) (c : ScreenCall) (wd : World) : World :=
  {| buffer := buffer wd; screen := screen wd ++ [(game, c)] |}.

(** ** The renderings of a progress dialog *)

(** The rendering asks the screen to delete the dialog and draws nothing. *)
Definition deleted_instead_of_drawn (Text_eq : Text.t -> string -> bool)
    (d : ProgressDialog.t) (row column bh bw : Z) (wd : World) : Prop :=
  exists d',
    ProgressDialog.render_to_buffer Text_eq d row column bh bw wd
    = (Returned d',
       called (UiConfig.game (ProgressDialog.config d)) (delete row column) wd).

(** A computation that makes no call to the screen. *)
Definition quiet {A} (m : M A) : Prop :=
  forall wd, screen (m wd).2 = screen wd.

(** ** Keys *)

(** The key of an ordinary character, a named key, and the result of a poll
    that timed out. *)
Definition char_key (s : string) : Keystroke.t :=
  {| Keystroke.name := None; Keystroke.str := s |}.

Definition named_key (name s : string) : Keystroke.t :=
  {| Keystroke.name := Some name; Keystroke.str := s |}.

Definition timeout : Keystroke.t := char_key EmptyString.


(** The entries [label] and [pb] of the cache of a progress dialog are
    there, as they are once [__init__] has returned. *)
Definition built (d : ProgressDialog.t) : Prop :=
  is_Some (ProgressDialog.Cache.label (ProgressDialog._cache d)) /\
  is_Some (ProgressDialog.Cache.pb (ProgressDialog._cache d)).

(** [bar.__value = v] on the cached progress bar. *)
Definition bar_with_value (v : Z) (bar : ProgressBar.t) : ProgressBar.t :=
  {| ProgressBar.__value := v;
     ProgressBar.__maximum := ProgressBar.__maximum bar;
     ProgressBar.__width := ProgressBar.__width bar;
     ProgressBar.__progress_marker := ProgressBar.__progress_marker bar;
     ProgressBar.__empty_marker := ProgressBar.__empty_marker bar;
     ProgressBar.__config := ProgressBar.__config bar;
     ProgressBar._cache := ProgressBar._cache bar |}.

(** The dialog [d] with [v] as its value and as the value of the cached
    progress bar, and nothing else changed. *)
Definition dialog_with_value (v : Z) (d : ProgressDialog.t) : ProgressDialog.t :=
  {| ProgressDialog.super := ProgressDialog.super d;
     ProgressDialog.__label := ProgressDialog.__label d;
     ProgressDialog.__value := v;
     ProgressDialog.__maximum := ProgressDialog.__maximum d;
     ProgressDialog.__width := ProgressDialog.__width d;
     ProgressDialog.__progress_marker := ProgressDialog.__progress_marker d;
     ProgressDialog.__empty_marker := ProgressDialog.__empty_marker d;
     ProgressDialog.__adaptive_width := ProgressDialog.__adaptive_width d;
     ProgressDialog.destroy_on_complete := ProgressDialog.destroy_on_complete d;
     ProgressDialog.__destroy := ProgressDialog.__destroy d;
     ProgressDialog._cache :=
       {| ProgressDialog.Cache.label :=
            ProgressDialog.Cache.label (ProgressDialog._cache d);
          ProgressDialog.Cache.pb :=
            bar_with_value v <$> ProgressDialog.Cache.pb (ProgressDialog._cache d);
          ProgressDialog.Cache.borders :=
            ProgressDialog.Cache.borders (ProgressDialog._cache d) |} |}.


(** A computation that returns no other value than [x]. *)
Definition returns_only {A} (m : M A) (x : A) : Prop :=
  forall wd a, (m wd).1 = Returned a -> a = x.

(** ** The input dialogs *)

(** The line dialog [d] with [s] as its input. *)
Definition with_input (d : LineInputDialog.t) (s : string) : LineInputDialog.t :=
  {| LineInputDialog.super :=
       {| Dialog._config := Dialog._config (LineInputDialog.super d);
          Dialog._user_input := s |};
     LineInputDialog.__label := LineInputDialog.__label d;
     LineInputDialog.__default := LineInputDialog.__default d;
     LineInputDialog.__filter := LineInputDialog.__filter d |}.

(** The filter [f] accepts the key [k]. *)
Definition accepts (f : constants.Filter) (k : Keystroke.t) : bool :=
  (constants.Filter_eqb f constants.PRINTABLE_FILTER && Keystroke.isprintable k)
  || (constants.Filter_eqb f constants.INTEGER_FILTER && Keystroke.isdigit k).

(** [field["user_input"]] set to the empty string *)
Definition cleared (field : MultiLineInputDialog.Field.t)
    : MultiLineInputDialog.Field.t :=
  MultiLineInputDialog.Field.assign_user_input field EmptyString.

(** ** More on the renderings *)

(** The computation [m] raises [e] on every buffer of [h] rows of [w] cells,
    after it has applied the paint [g] to it. *)
Definition raises_after {A} (h w : Z) (m : M A) (e : exn) (g : paint) : Prop :=
  forall wd, rect h w (buffer wd) ->
    exists wd', m wd = (Raised e, wd') /\ painted h w g wd wd'.

(** The cell that [ProgressBar._build_cache] makes of a marker. *)
Definition marker_cell (config : UiConfig.t) (m : marker) : Sprixel.t :=
  match m with
  | MSprixel x => x
  | MStr str =>
      Sprixel.__init__ str (UiConfig.bg_color config) (UiConfig.fg_color config)
  end.

Definition filled_cell (s : ProgressBar.t) : Sprixel.t :=
  marker_cell (ProgressBar.__config s) (ProgressBar.__progress_marker s).

Definition empty_cell (s : ProgressBar.t) : Sprixel.t :=
  marker_cell (ProgressBar.__config s) (ProgressBar.__empty_marker s).

(** The number of filled cells of a bar: [min (floor (value * width /
    maximum)) width]. *)
Definition bar_progress (s : ProgressBar.t) : Z :=
  Z.min (ProgressBar.__value s * ProgressBar.__width s / ProgressBar.__maximum s)
        (ProgressBar.__width s).

(** Rendering the bar [s], once its cache is built, returns and leaves in
    the [width] cells of its row [n] filled cells followed by empty cells;
    every other cell is as it was. *)
Definition bar_shows (n : Z) (s : ProgressBar.t) (row column bh bw : Z)
    (wd : World) : Prop :=
  exists wd',
    ProgressBar.render_to_buffer (ProgressBar._build_cache s) row column bh bw wd
    = (Returned tt, wd') /\
    forall r c,
      cell (buffer wd') r c =
      if (r =? row) && (column <=? c) && (c <? column + ProgressBar.__width s)
      then Some (if c <? column + n then filled_cell s else empty_cell s)
      else cell (buffer wd) r c.

(** The cache of the bar is what [_build_cache] makes of its attributes. *)
Definition up_to_date (pb : ProgressBar.t) : Prop :=
  ProgressBar._build_cache pb = pb.

(** The cache of the bar holds the cells of its two markers: the entry
    [pb_progress] the cell of the progress marker and the entry [pb_empty]
    the cell of the empty marker, where the cell of a marker is the marker
    itself when it is a [Sprixel] and, when it is a [str], a cell of that
    text in the colours [bg_color] and [fg_color] of the configuration of
    the bar. *)
Definition cells_match_markers (pb : ProgressBar.t) : Prop :=
  ProgressBar.Cache.pb_progress (ProgressBar._cache pb) = Some (filled_cell pb) /\
  ProgressBar.Cache.pb_empty (ProgressBar._cache pb) = Some (empty_cell pb).

(** The setters of [ProgressBar] that request a rendering. *)
Definition ProgressBar_setters
    : list (ProgressBar.t -> PyObj -> M ProgressBar.t) :=
  [ ProgressBar.progress_marker_setter; ProgressBar.empty_marker_setter;
    ProgressBar.value_setter; ProgressBar.maximum_setter ].

(** The computation [m] returns [a] on every buffer of [h] rows of [w]
    cells and applies the paint [g] to it. *)
Definition draws {A} (h w : Z) (m : M A) (a : A) (g : paint) : Prop :=
  forall wd, rect h w (buffer wd) ->
    exists wd', m wd = (Returned a, wd') /\ painted h w g wd wd'.

(** The frame of a box of [H] rows and [W] columns whose top-left corner is
    at [(row, column)]: the four corners, the horizontal border between the
    corners of the first and of the last row, the vertical border at both
    ends of the rows in between. *)
Definition frame (cfg : UiConfig.t) (row column H W : Z) : paint :=
  fun r c =>
    if (r =? row) && (c =? column)
    then Some (border_cell cfg (UiConfig.box_top_left_corner cfg))
    else if (r =? row) && (c =? column + W - 1)
    then Some (border_cell cfg (UiConfig.box_top_right_corner cfg))
    else if (r =? row + H - 1) && (c =? column)
    then Some (border_cell cfg (UiConfig.box_bottom_left_corner cfg))
    else if (r =? row + H - 1) && (c =? column + W - 1)
    then Some (border_cell cfg (UiConfig.box_bottom_right_corner cfg))
    else if ((r =? row) || (r =? row + H - 1))
            && (column <? c) && (c <? column + W - 1)
    then Some (border_cell cfg (UiConfig.box_horizontal_border cfg))
    else if (row <? r) && (r <? row + H - 1)
            && ((c =? column) || (c =? column + W - 1))
    then Some (border_cell cfg (UiConfig.box_vertical_border cfg))
    else None.

(** The frame that a dialog draws around [H - 2] rows of [W - 2] cells when
    its configuration asks for a border, and the offset of its contents. *)
Definition dialog_frame (cfg : UiConfig.t) (row column H W : Z) : paint :=
  if UiConfig.borderless_dialog cfg then nothing else frame cfg row column H W.

Definition dialog_offset (cfg : UiConfig.t) : Z :=
  if UiConfig.borderless_dialog cfg then 0 else 1.

(** The cells of a bar whose first cell is at [(row, column)]: filled
    cells, [bar_progress] of them, then empty cells up to [width]. *)
Definition bar_cells (s : ProgressBar.t) (row column : Z) : paint :=
  fun r c =>
    if (r =? row) && (column <=? c) && (c <? column + ProgressBar.__width s)
    then Some (if c <? column + bar_progress s
               then filled_cell s else empty_cell s)
    else None.

(** The text object that [ProgressDialog._build_cache] keeps for the
    label. *)
Definition label_of (d : ProgressDialog.t) : Text.t :=
  match ProgressDialog.__label d with
  | IsText t => t
  | IsStr str =>
      Text.__init__ str
        (UiConfig.fg_color (ProgressDialog.config d))
        (UiConfig.bg_color (ProgressDialog.config d))
  end.

(** The attributes of the progress bar that [ProgressDialog._build_cache]
    makes for a dialog. *)
Definition bar_of (d : ProgressDialog.t) : ProgressBar.t :=
  {| ProgressBar.__value := ProgressDialog.__value d;
     ProgressBar.__maximum := ProgressDialog.__maximum d;
     ProgressBar.__width := ProgressDialog.__width d;
     ProgressBar.__progress_marker := ProgressDialog.__progress_marker d;
     ProgressBar.__empty_marker := ProgressDialog.__empty_marker d;
     ProgressBar.__config := ProgressDialog.config d;
     ProgressBar._cache := ProgressBar.Cache.empty |}.

(** ** The cache of a progress dialog *)

(** The progress bar that the cache of the dialog [d] holds when it agrees
    with the attributes of [d]: a bar with the value, the maximum, the width,
    the markers and the configuration of the dialog, whose own cache holds
    the cells of its two markers. *)
Definition cached_bar (d : ProgressDialog.t) : ProgressBar.t :=
  {| ProgressBar.__value := ProgressDialog.__value d;
     ProgressBar.__maximum := ProgressDialog.__maximum d;
     ProgressBar.__width := ProgressDialog.__width d;
     ProgressBar.__progress_marker := ProgressDialog.__progress_marker d;
     ProgressBar.__empty_marker := ProgressDialog.__empty_marker d;
     ProgressBar.__config := ProgressDialog.config d;
     ProgressBar._cache :=
       {| ProgressBar.Cache.pb_empty := Some (empty_cell (bar_of d));
          ProgressBar.Cache.pb_progress := Some (filled_cell (bar_of d)) |} |}.

(** The box that the cache of the dialog [d] holds when it agrees with the
    attributes of [d]: a box of the width of the dialog and of height 2,
    titled with the text object of the label, with the configuration of the
    dialog; its own cache holds the cells of the borders in the border
    colours, each entry named after a corner the glyph of the corner on the
    other side, the title and the sprite of the title. *)
Definition cached_borders (d : ProgressDialog.t) : Box.t :=
  let cfg := ProgressDialog.config d in
  {| Box.__width := ProgressDialog.__width d;
     Box.__height := 2;
     Box.__title := IsText (label_of d);
     Box.__config := cfg;
     Box._cache :=
       {| Box.Cache.dialog_vertical_border :=
            Some (border_cell cfg (UiConfig.box_vertical_border cfg));
          Box.Cache.dialog_horizontal_border :=
            Some (border_cell cfg (UiConfig.box_horizontal_border cfg));
          Box.Cache.top_right_corner :=
            Some (border_cell cfg (UiConfig.box_top_left_corner cfg));
          Box.Cache.top_left_corner :=
            Some (border_cell cfg (UiConfig.box_top_right_corner cfg));
          Box.Cache.bottom_right_corner :=
            Some (border_cell cfg (UiConfig.box_bottom_left_corner cfg));
          Box.Cache.bottom_left_corner :=
            Some (border_cell cfg (UiConfig.box_bottom_right_corner cfg));
          Box.Cache.title := Some (label_of d);
          Box.Cache.title_sprite := Some (Sprite.from_text (label_of d)) |} |}.

(** The cache is consistent with the attributes of the dialog: the entry
    [label] is the text object of the label (the label itself when it is a
    [Text], a text in the colours of the configuration when it is a [str]);
    the entry [pb] is a progress bar with the value, the maximum, the width,
    the markers and the configuration of the dialog; and, when the
    configuration asks for a border, the entry [borders] is a box of the
    width of the dialog, titled with the label. *)
Definition consistent (d : ProgressDialog.t) : Prop :=
  ProgressDialog.Cache.label (ProgressDialog._cache d) = Some (label_of d) /\
  ProgressDialog.Cache.pb (ProgressDialog._cache d) = Some (cached_bar d) /\
  (UiConfig.borderless_dialog (ProgressDialog.config d) = false ->
   ProgressDialog.Cache.borders (ProgressDialog._cache d)
   = Some (cached_borders d)).

(** The setter, given [v], returns a dialog whose attributes are as
    [assigned] says and whose cache is consistent with them, after a request
    to render again as its last call to the screen. *)
Definition setter_leaves_consistent
    (setter : ProgressDialog.t -> PyObj -> M ProgressDialog.t)
    (d : ProgressDialog.t) (v : PyObj) (wd : World)
    (assigned : ProgressDialog.t -> Prop) : Prop :=
  exists d' wd' calls,
    setter d v wd = (Returned d', wd') /\
    assigned d' /\
    consistent d' /\
    buffer wd' = buffer wd /\
    screen wd' = screen wd ++ calls ++
                 [(UiConfig.game (ProgressDialog.config d'), trigger_rendering)].

(** What the rendering of a progress dialog leaves in the buffer: the frame
    if the configuration asks for one, on it the label, and on both the
    bar, one row below the label. *)
Definition progress_dialog_picture (d : ProgressDialog.t) (row column : Z)
    : paint :=
  let cfg := ProgressDialog.config d in
  let off := dialog_offset cfg in
  over (bar_cells (bar_of d) (row + 1 + off) (column + off))
    (over (stamp (row + off) (column + off) (Sprite.from_text (label_of d)))
       (dialog_frame cfg row column 4 (ProgressDialog.__width d + 2))).

(** The setters of [ProgressDialog]. *)
Definition ProgressDialog_setters
    : list (ProgressDialog.t -> PyObj -> M ProgressDialog.t) :=
  [ ProgressDialog.label_setter; ProgressDialog.value_setter;
    ProgressDialog.maximum_setter ].

(** The dialog [d] with [m] as its maximum. *)
Definition dialog_with_maximum (m : Z) (d : ProgressDialog.t) : ProgressDialog.t :=
  {| ProgressDialog.super := ProgressDialog.super d;
     ProgressDialog.__label := ProgressDialog.__label d;
     ProgressDialog.__value := ProgressDialog.__value d;
     ProgressDialog.__maximum := m;
     ProgressDialog.__width := ProgressDialog.__width d;
     ProgressDialog.__progress_marker := ProgressDialog.__progress_marker d;
     ProgressDialog.__empty_marker := ProgressDialog.__empty_marker d;
     ProgressDialog.__adaptive_width := ProgressDialog.__adaptive_width d;
     ProgressDialog.destroy_on_complete := ProgressDialog.destroy_on_complete d;
     ProgressDialog.__destroy := ProgressDialog.__destroy d;
     ProgressDialog._cache := ProgressDialog._cache d |}.

(** The line that an input dialog shows for the input [s]: a prompt, then
    the input, in the default colours. *)
Definition input_line (s : string) : Sprite.t :=
  Sprite.from_text (Text.__init__ (String.append "> " s) None None).

(** What the rendering of a line input dialog leaves in the buffer: the
    frame if the configuration asks for one, on it the label, and on both
    the input line, one row below the label. *)
Definition line_dialog_picture (d : LineInputDialog.t) (row column : Z)
    : paint :=
  let cfg := LineInputDialog.config d in
  let off := dialog_offset cfg in
  over (stamp (row + 1 + off) (column + off)
          (input_line (LineInputDialog.user_input d)))
    (over (stamp (row + off) (column + off)
             (Sprite.from_text (LineInputDialog.__label d)))
       (dialog_frame cfg row column 4
          (Text.length (LineInputDialog.__label d) + 2))).

(** ** More on the input dialogs *)

(** The key [k] is one that the loop of [show] appends to an input whose
    filter is [f]: it is none of Enter, Escape, Backspace and Delete, and
    the filter accepts it. *)
Definition typed (f : constants.Filter) (k : Keystroke.t) : bool :=
  negb (Keystroke.name_is k "KEY_ENTER")
  && negb (Keystroke.name_is k "KEY_ESCAPE")
  && negb (Keystroke.name_is k "KEY_BACKSPACE")
  && negb (Keystroke.name_is k "KEY_DELETE")
  && accepts f k.

(** The key is Backspace or Delete. *)
Definition erases (k : Keystroke.t) : bool :=
  Keystroke.name_is k "KEY_BACKSPACE" || Keystroke.name_is k "KEY_DELETE".

(** The strings of [ss], one after the other. *)
Definition joined (ss : list string) : string :=
  foldr String.append EmptyString ss.

(** The calls to the screen of [game] that the keys [ks], all of which
    change the input, cause: a request to render and an update for each of
    them, none for a poll that timed out. *)
Definition redraws (game : Game) (ks : list Keystroke.t)
    : list (Game * ScreenCall) :=
  mjoin ((fun k : Keystroke.t =>
            if String.eqb (Keystroke.str k) EmptyString then []
            else [(game, trigger_rendering); (game, update)]) <$> ks).

(** Every character of [s] is a digit, as [str.isdigit] has it. *)
Definition all_digits (s : string) : bool :=
  forallb Keystroke.char_isdigit (String.list_ascii_of_string s).

(** Two fields that differ by their input at most. *)
Definition same_but_input (f1 f2 : MultiLineInputDialog.Field.t) : Prop :=
  MultiLineInputDialog.Field.label f1 = MultiLineInputDialog.Field.label f2 /\
  MultiLineInputDialog.Field.default f1 = MultiLineInputDialog.Field.default f2 /\
  MultiLineInputDialog.Field.filter f1 = MultiLineInputDialog.Field.filter f2.

(** Two states of a multi-line dialog that differ by the inputs of their
    fields and by the current field at most. *)
Definition only_inputs_differ (d d' : MultiLineInputDialog.t) : Prop :=
  MultiLineInputDialog.super d' = MultiLineInputDialog.super d /\
  MultiLineInputDialog.__cache d' = MultiLineInputDialog.__cache d /\
  Forall2 same_but_input
    (MultiLineInputDialog.__fields d) (MultiLineInputDialog.__fields d').

(** The field with its input set to its default, as [_build_cache] leaves
    it. *)
Definition reset (field : MultiLineInputDialog.Field.t)
    : MultiLineInputDialog.Field.t :=
  MultiLineInputDialog.Field.assign_user_input field
    (MultiLineInputDialog.Field.default field).

(** The text object that [MultiLineInputDialog._build_cache] keeps for the
    label of a field. *)
Definition field_label (field : MultiLineInputDialog.Field.t) : Text.t :=
  match MultiLineInputDialog.Field.label field with
  | IsText t => t
  | IsStr s => Text.__init__ s None None
  end.

(** The field [field] with [s] appended to its input. *)
Definition with_typed (s : string) (field : MultiLineInputDialog.Field.t)
    : MultiLineInputDialog.Field.t :=
  MultiLineInputDialog.Field.assign_user_input field
    (String.append (MultiLineInputDialog.Field.user_input field) s).

(** The key [k] is one that the loop of [show] of a multi-line dialog
    appends to the input of a field whose filter is [f]. *)
Definition typed_in_field (f : constants.Filter) (k : Keystroke.t) : bool :=
  negb (Keystroke.name_is k "KEY_TAB") && typed f k.




(** ** Sample objects *)

Module Sample.

(** A configuration with ASCII glyphs. *)
Definition config : UiConfig.t :=
  {| UiConfig.game := 0%nat;
     UiConfig.box_vertical_border := "|";
     UiConfig.box_horizontal_border := "-";
     UiConfig.box_top_left_corner := "1";
     UiConfig.box_top_right_corner := "2";
     UiConfig.box_bottom_left_corner := "3";
     UiConfig.box_bottom_right_corner := "4";
     UiConfig.fg_color := Some (Color.__init__ 255 255 255);
     UiConfig.bg_color := Some (Color.__init__ 0 128 128);
     UiConfig.border_fg_color := Some (Color.__init__ 255 255 255);
     UiConfig.border_bg_color := None;
     UiConfig.borderless_dialog := true |}.

(** A buffer of [h] rows of [w] cells that all hold a dot. *)
Definition blank (h w : nat) : World :=
  {| buffer := replicate h (replicate w (Sprixel.__init__ "." None None));
     screen := [] |}.

(** The comparison that Python makes when a class defines none: an object
    of another class is never equal to a [str]. *)
Definition object_eq (t : Text.t) (s : string) : bool := false.

(** The attributes of a box, before its cache is built. *)
Definition box (width height : Z) (title : string) : Box.t :=
  {| Box.__width := width; Box.__height := height;
     Box.__title := IsStr title; Box.__config := config;
     Box._cache := Box.Cache.empty |}.

(** The attributes of a progress bar, before its cache is built. *)
Definition bar (value maximum width : Z) : ProgressBar.t :=
  {| ProgressBar.__value := value; ProgressBar.__maximum := maximum;
     ProgressBar.__width := width;
     ProgressBar.__progress_marker := MStr "#";
     ProgressBar.__empty_marker := MStr "_";
     ProgressBar.__config := config;
     ProgressBar._cache := ProgressBar.Cache.empty |}.

(** Another configuration: other colours, and dialogs with a border. *)
Definition other_config : UiConfig.t :=
  {| UiConfig.game := 0%nat;
     UiConfig.box_vertical_border := "|";
     UiConfig.box_horizontal_border := "-";
     UiConfig.box_top_left_corner := "1";
     UiConfig.box_top_right_corner := "2";
     UiConfig.box_bottom_left_corner := "3";
     UiConfig.box_bottom_right_corner := "4";
     UiConfig.fg_color := Some (Color.__init__ 0 0 0);
     UiConfig.bg_color := None;
     UiConfig.border_fg_color := None;
     UiConfig.border_bg_color := None;
     UiConfig.borderless_dialog := false |}.

(** The attributes of a progress dialog labelled "ab", complete, that
    destroys itself when complete; its cache is not built yet. *)
Definition progress_dialog : ProgressDialog.t :=
  {| ProgressDialog.super :=
       {| Dialog._config := config; Dialog._user_input := EmptyString |};
     ProgressDialog.__label := IsStr "ab";
     ProgressDialog.__value := 100;
     ProgressDialog.__maximum := 100;
     ProgressDialog.__width := 20;
     ProgressDialog.__progress_marker := MStr "#";
     ProgressDialog.__empty_marker := MStr "_";
     ProgressDialog.__adaptive_width := true;
     ProgressDialog.destroy_on_complete := true;
     ProgressDialog.__destroy := false;
     ProgressDialog._cache := ProgressDialog.Cache.empty |}.

(** Three fields of a multi-line dialog. *)
Definition fields : list MultiLineInputDialog.Field.t :=
  [ {| MultiLineInputDialog.Field.label := IsStr "Name";
       MultiLineInputDialog.Field.default := "Al";
       MultiLineInputDialog.Field.filter := constants.PRINTABLE_FILTER;
       MultiLineInputDialog.Field.user_input := EmptyString |};
    {| MultiLineInputDialog.Field.label := IsStr "Age";
       MultiLineInputDialog.Field.default := "4";
       MultiLineInputDialog.Field.filter := constants.INTEGER_FILTER;
       MultiLineInputDialog.Field.user_input := EmptyString |};
    {| MultiLineInputDialog.Field.label := IsStr "Town";
       MultiLineInputDialog.Field.default := EmptyString;
       MultiLineInputDialog.Field.filter := constants.PRINTABLE_FILTER;
       MultiLineInputDialog.Field.user_input := EmptyString |} ].

(** The progress dialog once built, then given another configuration
    through the setter of [Dialog]. *)
Definition stale_dialog : ProgressDialog.t :=
  match ProgressDialog.config_setter
          (ProgressDialog._build_cache progress_dialog)
          (PyUiConfig other_config) with
  | Returned d => d
  | Raised _ => progress_dialog
  end.

(** A dialog of the three fields. *)
Definition multi_dialog : MultiLineInputDialog.t :=
  MultiLineInputDialog._build_cache
    {| MultiLineInputDialog.super :=
         {| Dialog._config := config; Dialog._user_input := EmptyString |};
       MultiLineInputDialog.__fields := fields;
       MultiLineInputDialog.__cache := [];
       MultiLineInputDialog.__current_field := 0 |}.

(** The keys x, Tab, 7 and Escape. *)
Definition keys : list Keystroke.t :=
  [ char_key "x"; named_key "KEY_TAB" (String (ascii_of_nat 9) EmptyString);
    char_key "7" ].

Definition escape : Keystroke.t :=
  named_key "KEY_ESCAPE" (String (ascii_of_nat 27) EmptyString).

Definition backspace : Keystroke.t :=
  named_key "KEY_BACKSPACE" (String (ascii_of_nat 127) EmptyString).

Definition enter : Keystroke.t :=
  named_key "KEY_ENTER" (String (ascii_of_nat 10) EmptyString).

(** The arguments of a call of [UiConfig]: those that give [config], and
    others with no game. *)
Definition args : UiConfig.Args.t :=
  {| UiConfig.Args.game := Some 0%nat;
     UiConfig.Args.box_vertical_border := "|";
     UiConfig.Args.box_horizontal_border := "-";
     UiConfig.Args.box_top_left_corner := "1";
     UiConfig.Args.box_top_right_corner := "2";
     UiConfig.Args.box_bottom_left_corner := "3";
     UiConfig.Args.box_bottom_right_corner := "4";
     UiConfig.Args.fg_color := Some (Color.__init__ 255 255 255);
     UiConfig.Args.bg_color := Some (Color.__init__ 0 128 128);
     UiConfig.Args.border_fg_color := Some (Color.__init__ 255 255 255);
     UiConfig.Args.border_bg_color := None;
     UiConfig.Args.borderless_dialog := true |}.

Definition args_without_game : UiConfig.Args.t :=
  {| UiConfig.Args.game := None;
     UiConfig.Args.box_vertical_border := "!";
     UiConfig.Args.box_horizontal_border := "=";
     UiConfig.Args.box_top_left_corner := "a";
     UiConfig.Args.box_top_right_corner := "b";
     UiConfig.Args.box_bottom_left_corner := "c";
     UiConfig.Args.box_bottom_right_corner := "d";
     UiConfig.Args.fg_color := None;
     UiConfig.Args.bg_color := None;
     UiConfig.Args.border_fg_color := None;
     UiConfig.Args.border_bg_color := None;
     UiConfig.Args.borderless_dialog := false |}.

(** The attributes of a progress dialog labelled "ab" whose configuration
    asks for a border; its cache is not built yet. *)
Definition bordered_dialog : ProgressDialog.t :=
  {| ProgressDialog.super :=
       {| Dialog._config := other_config; Dialog._user_input := EmptyString |};
     ProgressDialog.__label := IsStr "ab";
     ProgressDialog.__value := 50;
     ProgressDialog.__maximum := 100;
     ProgressDialog.__width := 20;
     ProgressDialog.__progress_marker := MStr "#";
     ProgressDialog.__empty_marker := MStr "_";
     ProgressDialog.__adaptive_width := true;
     ProgressDialog.destroy_on_complete := true;
     ProgressDialog.__destroy := false;
     ProgressDialog._cache := ProgressDialog.Cache.empty |}.

(** A line input dialog labelled "Name", with a border, whose input
    is "Alexandra". *)
Definition line_dialog : LineInputDialog.t :=
  {| LineInputDialog.super :=
       {| Dialog._config := other_config; Dialog._user_input := "Alexandra" |};
     LineInputDialog.__label := Text.__init__ "Name" None None;
     LineInputDialog.__default := EmptyString;
     LineInputDialog.__filter := constants.PRINTABLE_FILTER |}.

Definition tab : Keystroke.t :=
  named_key "KEY_TAB" (String (ascii_of_nat 9) EmptyString).


End Sample.

(** * Facts *)

(** ** Floats *)
Lemma pow2_pos (k : Z) : 0 <= k -> 0 < 2 ^ k.
Proof. intros. apply Z.pow_pos_nonneg; lia. Qed.

Lemma pow2_add (a b : Z) : 0 <= a -> 0 <= b -> 2 ^ (a + b) = 2 ^ a * 2 ^ b.
Proof. intros. apply Z.pow_add_r; lia. Qed.

Lemma round_half_even_exact (q d : Z) : 0 < d -> Py.round_half_even (q * d) d = q.
Proof.
  intros Hd. unfold Py.round_half_even.
  rewrite Z.div_mul by lia. rewrite Z.mod_mul by lia.
  destruct (Z.ltb_spec (2 * 0) d); [reflexivity | lia].
Qed.

(** shifted bounds of ilog2_ratio *)
Lemma ilog2_ratio_lower (n d s : Z) :
  0 < n -> 0 < d -> 0 <= s -> 0 <= s + Py.ilog2_ratio n d ->
  d * 2 ^ (s + Py.ilog2_ratio n d) <= n * 2 ^ s.
Proof.
  intros Hn Hd Hs. unfold Py.ilog2_ratio, Py.scaled_le.
  pose proof (Z.log2_spec n Hn) as [Hn1 Hn2].
  pose proof (Z.log2_spec d Hd) as [Hd1 Hd2].
  pose proof (Z.log2_nonneg n). pose proof (Z.log2_nonneg d).
  set (ln := Z.log2 n) in *. set (ld := Z.log2 d) in *.
  pose proof (pow2_pos s Hs).
  destruct (Z.leb_spec 0 (ln - ld)) as [Hl|Hl].
  - destruct (Z.leb_spec (d * 2 ^ (ln - ld)) n) as [Ht|Ht]; intros Hs'.
    + rewrite pow2_add by lia. nia.
    + replace (s + (ln - ld - 1)) with ((s + (ln - ld - 1))) by lia.
      assert (E : 2 ^ (s + ln) = 2 ^ (ld + 1) * 2 ^ (s + (ln - ld - 1))).
      { rewrite <- pow2_add by lia. f_equal. lia. }
      assert (E2 : 2 ^ (s + ln) = 2 ^ s * 2 ^ ln) by (apply pow2_add; lia).
      replace (Z.succ ld) with (ld + 1) in Hd2 by lia.
      pose proof (pow2_pos (s + (ln - ld - 1)) Hs').
      nia.
  - destruct (Z.leb_spec d (n * 2 ^ (- (ln - ld)))) as [Ht|Ht]; intros Hs'.
    + assert (E : 2 ^ s = 2 ^ (- (ln - ld)) * 2 ^ (s + (ln - ld))).
      { rewrite <- pow2_add by lia. f_equal. lia. }
      pose proof (pow2_pos (s + (ln - ld)) Hs').
      nia.
    + assert (E : 2 ^ (s + ln) = 2 ^ (ld + 1) * 2 ^ (s + (ln - ld - 1))).
      { rewrite <- pow2_add by lia. f_equal. lia. }
      assert (E2 : 2 ^ (s + ln) = 2 ^ s * 2 ^ ln) by (apply pow2_add; lia).
      replace (Z.succ ld) with (ld + 1) in Hd2 by lia.
      pose proof (pow2_pos (s + (ln - ld - 1)) Hs').
      nia.
Qed.

Lemma ilog2_ratio_upper (n d s : Z) :
  0 < n -> 0 < d -> 0 <= s -> 0 <= s + Py.ilog2_ratio n d + 1 ->
  n * 2 ^ s < d * 2 ^ (s + Py.ilog2_ratio n d + 1).
Proof.
  intros Hn Hd Hs. unfold Py.ilog2_ratio, Py.scaled_le.
  pose proof (Z.log2_spec n Hn) as [Hn1 Hn2].
  pose proof (Z.log2_spec d Hd) as [Hd1 Hd2].
  pose proof (Z.log2_nonneg n). pose proof (Z.log2_nonneg d).
  set (ln := Z.log2 n) in *. set (ld := Z.log2 d) in *.
  replace (Z.succ ln) with (ln + 1) in Hn2 by lia.
  pose proof (pow2_pos s Hs).
  destruct (Z.leb_spec 0 (ln - ld)) as [Hl|Hl].
  - destruct (Z.leb_spec (d * 2 ^ (ln - ld)) n) as [Ht|Ht]; intros Hs'.
    + assert (E : 2 ^ (ln + 1 + s) = 2 ^ ld * 2 ^ (s + (ln - ld) + 1)).
      { rewrite <- pow2_add by lia. f_equal. lia. }
      assert (E2 : 2 ^ (ln + 1 + s) = 2 ^ (ln + 1) * 2 ^ s) by (apply pow2_add; lia).
      pose proof (pow2_pos (s + (ln - ld) + 1) Hs').
      nia.
    + replace (s + (ln - ld - 1) + 1) with (s + (ln - ld)) by lia.
      rewrite pow2_add by lia. nia.
  - destruct (Z.leb_spec d (n * 2 ^ (- (ln - ld)))) as [Ht|Ht]; intros Hs'.
    + assert (E : 2 ^ (ln + 1 + s) = 2 ^ ld * 2 ^ (s + (ln - ld) + 1)).
      { rewrite <- pow2_add by lia. f_equal. lia. }
      assert (E2 : 2 ^ (ln + 1 + s) = 2 ^ (ln + 1) * 2 ^ s) by (apply pow2_add; lia).
      pose proof (pow2_pos (s + (ln - ld) + 1) Hs').
      nia.
    + replace (s + (ln - ld - 1) + 1) with (s + (ln - ld)) in * by lia.
      assert (E : 2 ^ s = 2 ^ (- (ln - ld)) * 2 ^ (s + (ln - ld))).
      { rewrite <- pow2_add by lia. f_equal. lia. }
      pose proof (pow2_pos (s + (ln - ld)) Hs').
      nia.
Qed.


Lemma round_ratio_half (n d K : Z) :
  0 < d -> 2 * n = K * d -> Z.abs K < 2 ^ 53 -> is_half (Py.round_ratio n d) K.
Proof.
  intros Hd HK Hb. unfold Py.round_ratio.
  destruct (Z.eqb_spec n 0) as [->|Hn].
  - exists 0, 0. split; [reflexivity|]. split; [lia|]. assert (K = 0) by nia. subst. reflexivity.
  - set (il := Py.ilog2_ratio (Z.abs n) d).
    assert (Hil : il <= 51).
    { destruct (Z.le_gt_cases il 51) as [|Hgt]; [assumption|exfalso].
      pose proof (ilog2_ratio_lower (Z.abs n) d 0 ltac:(lia) Hd ltac:(lia)) as L.
      fold il in L. rewrite Z.add_0_l, Z.pow_0_r in L.
      specialize (L ltac:(lia)).
      assert (2 ^ 52 <= 2 ^ il) by (apply Z.pow_le_mono_r; lia).
      assert (2 * Z.abs n = Z.abs K * d) by nia.
      nia. }
    unfold Py.emin.
    set (e := Z.max (il - 52) (-1074)).
    assert (He : e <= -1) by lia.
    destruct (Z.leb_spec 0 e) as [|_]; [lia|].
    rewrite andb_false_l.
    assert (E2 : 2 ^ (- e) = 2 * 2 ^ (- e - 1)).
    { replace (- e) with (1 + (- e - 1)) at 1 by lia.
      rewrite pow2_add by lia. reflexivity. }
    replace (n * 2 ^ (- e)) with (K * 2 ^ (- e - 1) * d) by (rewrite E2; nia).
    rewrite round_half_even_exact by assumption.
    exists (K * 2 ^ (- e - 1)), e. split; [reflexivity|]. split; [lia|]. rewrite E2. lia.
Qed.

Lemma truediv_half (K : Z) :
  Z.abs K < 2 ^ 53 -> exists x, Py.truediv K 2 = Returned x /\ is_half x K.
Proof.
  intros Hb. unfold Py.truediv.
  change (2 =? 0) with false. change (0 <? 2) with true. cbv iota.
  destruct (round_ratio_half K 2 K ltac:(lia) ltac:(lia) Hb) as (m & e & E & He).
  rewrite E. exists (Py.Finite m e). split; [reflexivity|]. exists m, e. auto.
Qed.

Lemma of_int_one_half : exists x, Py.of_int 1 = Returned x /\ is_half x 2.
Proof.
  exists (Py.Finite (2 ^ 52) (-52)). split; [vm_compute; reflexivity|].
  exists (2 ^ 52), (-52). split; [reflexivity|]. split; [lia|]. vm_compute. reflexivity.
Qed.

Lemma fsub_half (x y : Py.float) (K1 K2 : Z) :
  is_half x K1 -> is_half y K2 -> Z.abs (K1 - K2) < 2 ^ 53 ->
  is_half (Py.fsub x y) (K1 - K2).
Proof.
  intros (m1 & e1 & -> & He1 & H1) (m2 & e2 & -> & He2 & H2) Hb.
  cbn [Py.fsub]. unfold Py.round_dyadic.
  set (e := Z.min e1 e2).
  assert (P1 : 2 ^ (- e) = 2 ^ (- e1) * 2 ^ (e1 - e)).
  { rewrite <- pow2_add by lia. f_equal. lia. }
  assert (P2 : 2 ^ (- e) = 2 ^ (- e2) * 2 ^ (e2 - e)).
  { rewrite <- pow2_add by lia. f_equal. lia. }
  pose proof (pow2_pos (- e) ltac:(lia)).
  destruct (Z.leb_spec 0 e) as [H0|H0].
  - assert (e = 0) by lia. assert (e1 = 0) by lia. assert (e2 = 0) by lia.
    subst e1 e2. replace e with 0 in * by lia. cbn in H1, H2 |- *.
    apply round_ratio_half; lia.
  - apply round_ratio_half; [lia| |assumption].
    rewrite Z.mul_sub_distr_l, Z.mul_sub_distr_r.
    rewrite P1 at 1. rewrite P2. nia.
Qed.

Lemma round_half_even_scale (K p : Z) :
  0 < p -> Py.round_half_even (K * p) (2 * p) = Py.round_half_even K 2.
Proof.
  intros Hp. unfold Py.round_half_even.
  rewrite Z.div_mul_cancel_r by lia.
  rewrite Z.mul_mod_distr_r by lia.
  pose proof (Z.mod_pos_bound K 2 ltac:(lia)).
  assert (K mod 2 = 0 \/ K mod 2 = 1) as [E|E] by lia; rewrite E.
  - destruct (Z.ltb_spec (2 * (0 * p)) (2 * p)); [|lia].
    reflexivity.
  - destruct (Z.ltb_spec (2 * (1 * p)) (2 * p)); [lia|].
    destruct (Z.ltb_spec (2 * p) (2 * (1 * p))); [lia|].
    reflexivity.
Qed.

Lemma round_half (x : Py.float) (K : Z) :
  is_half x K -> Py.round x = Returned (Py.round_half_even K 2).
Proof.
  intros (m & e & -> & He & H). cbn [Py.round]. f_equal.
  destruct (Z.leb_spec 0 e) as [H0|H0].
  - assert (e = 0) by lia. subst e. cbn in H |- *.
    replace K with (m * 2) by lia. rewrite round_half_even_exact by lia. lia.
  - assert (E2 : 2 ^ (- e) = 2 * 2 ^ (- e - 1)).
    { replace (- e) with (1 + (- e - 1)) at 1 by lia.
      rewrite pow2_add by lia. reflexivity. }
    pose proof (pow2_pos (- e - 1) ltac:(lia)).
    rewrite E2 in H |- *. replace m with (K * 2 ^ (- e - 1)) by lia.
    apply round_half_even_scale. assumption.
Qed.

Lemma int_half (x : Py.float) (K : Z) :
  is_half x K -> Py.int x = Returned (K ÷ 2).
Proof.
  intros (m & e & -> & He & H). cbn [Py.int]. f_equal.
  destruct (Z.leb_spec 0 e) as [H0|H0].
  - assert (e = 0) by lia. subst e. cbn in H |- *.
    replace K with (m * 2) by lia. rewrite Z.quot_mul by lia. lia.
  - assert (E2 : 2 ^ (- e) = 2 * 2 ^ (- e - 1)).
    { replace (- e) with (1 + (- e - 1)) at 1 by lia.
      rewrite pow2_add by lia. reflexivity. }
    pose proof (pow2_pos (- e - 1) ltac:(lia)).
    rewrite E2 in H |- *. replace m with (K * 2 ^ (- e - 1)) by lia.
    apply Z.quot_mul_cancel_r; lia.
Qed.

Lemma int_truediv_floor (a b : Z) :
  0 <= a < 2 ^ 53 -> 0 < b ->
  exists x, Py.truediv a b = Returned x /\ Py.int x = Returned (a / b).
Proof.
  intros [Ha0 Ha] Hb. unfold Py.truediv.
  destruct (Z.eqb_spec b 0) as [|_]; [lia|].
  destruct (Z.ltb_spec 0 b) as [_|]; [|lia].
  unfold Py.round_ratio.
  destruct (Z.eqb_spec a 0) as [->|Hne].
  { eexists. split; [reflexivity|]. cbn. rewrite Z.div_0_l by lia. reflexivity. }
  rewrite Z.abs_eq by lia.
  set (il := Py.ilog2_ratio a b).
  assert (L0 : 0 <= il -> b * 2 ^ il <= a).
  { intros H. pose proof (ilog2_ratio_lower a b 0 ltac:(lia) Hb ltac:(lia)) as L.
    fold il in L. rewrite Z.add_0_l, Z.pow_0_r in L. lia. }
  assert (Hil : il <= 52).
  { destruct (Z.le_gt_cases il 52) as [|Hgt]; [assumption|exfalso].
    assert (2 ^ 53 <= 2 ^ il) by (apply Z.pow_le_mono_r; lia).
    specialize (L0 ltac:(lia)). nia. }
  unfold Py.emin. set (e := Z.max (il - 52) (-1074)).
  destruct (Z.leb_spec 0 e) as [He|He].
  - assert (e = 0) by lia. assert (il = 52) by lia.
    specialize (L0 ltac:(lia)). replace il with 52 in L0 by lia.
    assert (b = 1) by lia. subst b. replace e with 0 in * by lia.
    change (1 * 2 ^ 0) with 1.
    replace (Py.round_half_even a 1) with a
      by (rewrite <- (Z.mul_1_r a) at 2; rewrite round_half_even_exact; lia).
    rewrite Z.pow_0_r, Z.mul_1_r, Z.abs_eq by lia.
    destruct (Z.leb_spec (2 ^ 1024) a) as [Hbig|_].
    { exfalso. assert (2 ^ 53 <= 2 ^ 1024) by (apply Z.pow_le_mono_r; lia). lia. }
    cbn [andb]. eexists. split; [reflexivity|]. cbn [Py.int].
    change (0 <=? 0) with true. cbv iota.
    rewrite Z.pow_0_r, Z.mul_1_r, Z.div_1_r. reflexivity.
  - rewrite andb_false_l. eexists. split; [reflexivity|]. cbn [Py.int].
    destruct (Z.leb_spec 0 e) as [|_]; [lia|]. f_equal.
    set (P := 2 ^ (- e)).
    assert (HP : 0 < P) by (apply pow2_pos; lia).
    assert (HP2 : 2 <= P).
    { change 2 with (2 ^ 1) at 1. apply Z.pow_le_mono_r; lia. }
    pose proof (Z.div_mod a b ltac:(lia)) as Ea.
    pose proof (Z.mod_pos_bound a b Hb) as Hr.
    set (k := a / b) in *. set (r := a mod b) in *.
    assert (Hk : 0 <= k) by (apply Z.div_pos; lia).
    (* the bound that excludes rounding up to the next integer *)
    assert (Hkey : b < 2 * (b - r) * P).
    { destruct (Z.le_gt_cases (-1074) (il - 52)) as [Hn|Hsub].
      - assert (e = il - 52) by lia.
        pose proof (ilog2_ratio_lower a b (- e) ltac:(lia) Hb ltac:(lia)) as L.
        fold il in L. replace (- e + il) with 52 in L by lia.
        specialize (L ltac:(lia)). fold P in L.
        assert (b < 2 * P) by nia. nia.
      - pose proof (ilog2_ratio_upper a b (- il - 1) ltac:(lia) Hb ltac:(lia)) as U.
        fold il in U. replace (- il - 1 + il + 1) with 0 in U by lia.
        specialize (U ltac:(lia)). rewrite Z.pow_0_r, Z.mul_1_r in U.
        assert (2 <= 2 ^ (- il - 1)).
        { change 2 with (2 ^ 1) at 1. apply Z.pow_le_mono_r; lia. }
        assert (2 * a < b) by nia.
        assert (k = 0) by nia. assert (r = a) by nia. nia. }
    unfold Py.round_half_even.
    pose proof (Z.div_mod (a * P) b ltac:(lia)) as EA.
    pose proof (Z.mod_pos_bound (a * P) b Hb) as HR.
    set (Q := a * P / b) in *. set (R := (a * P) mod b) in *.
    assert (HQ1 : k * P <= Q) by nia.
    assert (HQ2 : Q < (k + 1) * P) by nia.
    assert (Hgoal : forall m, k * P <= m < (k + 1) * P -> m ÷ P = k).
    { intros m Hm. rewrite Z.quot_div_nonneg by nia.
      symmetry. apply (Z.div_unique m P k (m - P * k)); nia. }
    destruct (Z.ltb_spec (2 * R) b) as [H1|H1]; [apply Hgoal; lia|].
    assert (Hup : Q + 1 < (k + 1) * P).
    { destruct (Z.le_gt_cases ((k + 1) * P) (Q + 1)) as [Hc|]; [exfalso|lia].
      assert (Q = (k + 1) * P - 1) by lia. nia. }
    destruct (Z.ltb_spec b (2 * R)) as [H2|H2]; [apply Hgoal; lia|].
    destruct (Z.even Q); apply Hgoal; lia.
Qed.


(** ** Painting a buffer *)

Section Painting.

Variables h w : Z.

Lemma paints_ext (m : M unit) (g g' : paint) :
  (forall r c, g r c = g' r c) -> paints h w m g -> paints h w m g'.
Proof.
  intros E Hm wd Hr. destruct (Hm wd Hr) as (wd' & Em & Hr' & Hs & Hc).
  exists wd'. split; [assumption|]. split; [assumption|]. split; [assumption|].
  intros r c. rewrite <- E. apply Hc.
Qed.

Lemma paints_ret : paints h w (ret tt) nothing.
Proof.
  intros wd Hr. exists wd. split; [reflexivity|].
  split; [assumption|]. split; reflexivity.
Qed.

Lemma paints_bind (m k : M unit) (g1 g2 : paint) :
  paints h w m g1 -> paints h w k g2 -> paints h w (m ;; k) (over g2 g1).
Proof.
  intros Hm Hk wd Hr.
  destruct (Hm wd Hr) as (wd1 & E1 & Hr1 & Hs1 & Hc1).
  destruct (Hk wd1 Hr1) as (wd2 & E2 & Hr2 & Hs2 & Hc2).
  exists wd2. split.
  - unfold bind. rewrite E1. exact E2.
  - split; [assumption|]. split; [congruence|].
    intros r c. unfold over. rewrite Hc2.
    destruct (g2 r c); [reflexivity|]. apply Hc1.
Qed.

Lemma paints_getitem {A} (key : string) (a : A) (k : A -> M unit) (g : paint) :
  paints h w (k a) g -> paints h w (x <- getitem key (Some a) ;; k x) g.
Proof. intros H wd Hr. exact (H wd Hr). Qed.

Lemma paints_pure {A} (m : M A) (a : A) (k : A -> M unit) (g : paint) :
  (forall wd, m wd = (Returned a, wd)) ->
  paints h w (k a) g -> paints h w (x <- m ;; k x) g.
Proof.
  intros Hm H wd Hr. destruct (H wd Hr) as (wd' & E & Hp).
  exists wd'. split; [|assumption]. unfold bind. rewrite Hm. exact E.
Qed.

Lemma paints_setitem (r c : Z) (x : Sprixel.t) :
  0 <= r < h -> 0 <= c < w -> paints h w (setitem r c x) (dot r c x).
Proof.
  intros Hr Hc wd [Hlen Hall]. unfold setitem, Py.index.
  destruct (Z.leb_spec 0 r) as [_|]; [|lia].
  destruct (Z.ltb_spec r (Z.of_nat (length (buffer wd)))) as [_|]; [|lia].
  cbn [andb].
  destruct (lookup_lt_is_Some_2 (buffer wd) (Z.to_nat r) ltac:(lia)) as [line El].
  rewrite El.
  assert (Hline : Z.of_nat (length line) = w).
  { rewrite Forall_forall in Hall. apply Hall.
    apply list_elem_of_lookup. eauto. }
  destruct (Z.leb_spec 0 c) as [_|]; [|lia].
  destruct (Z.ltb_spec c (Z.of_nat (length line))) as [_|]; [|lia].
  cbn [andb]. eexists. split; [reflexivity|].
  split; [|split]; cbn [buffer screen].
  - split.
    + rewrite length_insert. assumption.
    + apply Forall_insert; [assumption|]. rewrite length_insert. assumption.
  - reflexivity.
  - intros r' c'. unfold dot, cell.
    destruct (Z.eqb_spec r' r) as [->|Hr'].
    + destruct (Z.leb_spec 0 r) as [_|]; [|lia]. cbn [andb].
      rewrite list_lookup_insert_eq by lia. rewrite El.
      destruct (Z.eqb_spec c' c) as [->|Hc'].
      * destruct (Z.leb_spec 0 c) as [_|]; [|lia].
        apply list_lookup_insert_eq. lia.
      * destruct (Z.leb_spec 0 c') as [?|]; [|reflexivity].
        apply list_lookup_insert_ne. lia.
    + cbn [andb]. destruct (Z.leb_spec 0 r') as [?|]; [|reflexivity].
      cbn [andb]. destruct (Z.leb_spec 0 c') as [?|]; [|reflexivity].
      rewrite list_lookup_insert_ne by lia. reflexivity.
Qed.

Lemma range_nil (a b : Z) : b <= a -> Py.range a b = [].
Proof. intros H. unfold Py.range. replace (Z.to_nat (b - a)) with 0%nat by lia. reflexivity. Qed.

Lemma range_cons (a b : Z) : a < b -> Py.range a b = a :: Py.range (a + 1) b.
Proof.
  intros H. unfold Py.range.
  replace (Z.to_nat (b - a)) with (S (Z.to_nat (b - (a + 1)))) by lia.
  cbn [seq fmap list_fmap]. f_equal; [lia|].
  rewrite <- fmap_S_seq, <- list_fmap_compose.
  apply list_fmap_ext. intros _ i _. cbn. lia.
Qed.

(** An induction principle for the loops over a range. *)
Lemma range_ind (P : Z -> Z -> Prop) :
  (forall a b, b <= a -> P a b) ->
  (forall a b, a < b -> P (a + 1) b -> P a b) ->
  forall a b, P a b.
Proof.
  intros Hnil Hcons a b.
  remember (Z.to_nat (b - a)) as n eqn:En. revert a En.
  induction n as [|n IH]; intros a En.
  - apply Hnil. lia.
  - apply Hcons; [lia|]. apply IH. lia.
Qed.

Lemma paints_hline (r off : Z) (x : Sprixel.t) (a b : Z) :
  0 <= r < h -> 0 <= off + a -> off + b <= w ->
  paints h w (for_ (Py.range a b) (fun c => setitem r (off + c) x))
    (hline r (off + a) (off + b) x).
Proof.
  intros Hr. revert a b. apply (range_ind (fun a b => 0 <= off + a -> off + b <= w -> _)).
  - intros a b Hab _ _. rewrite range_nil by assumption.
    apply (paints_ext (ret tt) nothing); [|apply paints_ret].
    intros r' c'. unfold nothing, hline.
    destruct (r' =? r), (Z.leb_spec (off + a) c'), (Z.ltb_spec c' (off + b));
      cbn; try reflexivity; lia.
  - intros a b Hab IH Ha Hb. rewrite range_cons by assumption. cbn [for_].
    eapply paints_ext; [|apply paints_bind;
      [apply (paints_setitem r (off + a) x); lia | apply IH; lia]].
    intros r' c'. unfold over, hline, dot.
    destruct (Z.eqb_spec r' r), (Z.leb_spec (off + (a + 1)) c'),
      (Z.ltb_spec c' (off + b)), (Z.eqb_spec c' (off + a)),
      (Z.leb_spec (off + a) c'); cbn; try reflexivity; lia.
Qed.

Lemma paints_sides (row c1 c2 : Z) (x : Sprixel.t) (a b : Z) :
  0 <= row + a -> row + b <= h -> 0 <= c1 < w -> 0 <= c2 < w ->
  paints h w
    (for_ (Py.range a b)
       (fun r => setitem (row + r) c1 x ;; setitem (row + r) c2 x))
    (sides (row + a) (row + b) c1 c2 x).
Proof.
  intros Ha Hb Hc1 Hc2. revert a b Ha Hb.
  apply (range_ind (fun a b => 0 <= row + a -> row + b <= h -> _)).
  - intros a b Hab _ _. rewrite range_nil by assumption.
    apply (paints_ext (ret tt) nothing); [|apply paints_ret].
    intros r' c'. unfold nothing, sides.
    destruct (Z.leb_spec (row + a) r'), (Z.ltb_spec r' (row + b));
      cbn; try reflexivity; lia.
  - intros a b Hab IH Ha Hb. rewrite range_cons by assumption. cbn [for_].
    eapply paints_ext; [|apply paints_bind;
      [apply paints_bind;
        [apply (paints_setitem (row + a) c1 x); lia
        |apply (paints_setitem (row + a) c2 x); lia]
      | apply IH; lia]].
    intros r' c'. unfold over, sides, dot.
    destruct (Z.leb_spec (row + (a + 1)) r'), (Z.ltb_spec r' (row + b)),
      (Z.eqb_spec r' (row + a)), (Z.leb_spec (row + a) r'),
      (Z.eqb_spec c' c1), (Z.eqb_spec c' c2);
      cbn; try reflexivity; lia.
Qed.

Lemma paints_stamp_from (row column : Z) (xs : list Sprixel.t) (k : nat) :
  0 <= row < h -> 0 <= column + Z.of_nat k ->
  column + Z.of_nat k + Z.of_nat (length xs) <= w ->
  paints h w
    (for_ (imap (fun (i : nat) (x : Sprixel.t) => ((k + i)%nat, x)) xs)
       (fun ix => setitem row (column + Z.of_nat ix.1) ix.2))
    (stamp row (column + Z.of_nat k) xs).
Proof.
  intros Hr. revert k. induction xs as [|x xs IH]; intros k Hk Hw.
  - cbn. apply (paints_ext (ret tt) nothing); [|apply paints_ret].
    intros r' c'. unfold nothing, stamp. cbn [length].
    destruct (r' =? row), (Z.leb_spec (column + Z.of_nat k) c'),
      (Z.ltb_spec c' (column + Z.of_nat k + Z.of_nat 0));
      cbn; try reflexivity; lia.
  - cbn [imap for_ fst snd]. cbn [length] in Hw.
    replace (k + 0)%nat with k by lia.
    eapply paints_ext; [|apply paints_bind;
      [apply (paints_setitem row (column + Z.of_nat k) x); lia|]].
    2:{ erewrite imap_ext; [apply (IH (S k)); lia|].
        intros i y _. cbn. f_equal. lia. }
    intros r' c'. unfold over, stamp, dot. cbn [length].
    destruct (Z.eqb_spec r' row); cbn [andb]; [|reflexivity].
    destruct (Z.leb_spec (column + Z.of_nat (S k)) c'),
      (Z.ltb_spec c' (column + Z.of_nat (S k) + Z.of_nat (length xs)));
      cbn [andb].
    + destruct (Z.leb_spec (column + Z.of_nat k) c'); [|lia].
      destruct (Z.ltb_spec c' (column + Z.of_nat k + Z.of_nat (S (length xs)))); [|lia].
      cbn [andb].
      replace (Z.to_nat (c' - (column + Z.of_nat k)))
        with (S (Z.to_nat (c' - (column + Z.of_nat (S k))))) by lia.
      cbn [lookup list_lookup].
      destruct (xs !! Z.to_nat (c' - (column + Z.of_nat (S k)))) eqn:E;
        [reflexivity|].
      apply lookup_ge_None in E. lia.
    + destruct (Z.eqb_spec c' (column + Z.of_nat k)); [lia|].
      destruct (Z.leb_spec (column + Z.of_nat k) c'); [|reflexivity].
      destruct (Z.ltb_spec c' (column + Z.of_nat k + Z.of_nat (S (length xs)))); [lia|].
      reflexivity.
    + destruct (Z.eqb_spec c' (column + Z.of_nat k)) as [->|].
      * destruct (Z.leb_spec (column + Z.of_nat k) (column + Z.of_nat k)); [|lia].
        destruct (Z.ltb_spec (column + Z.of_nat k)
                    (column + Z.of_nat k + Z.of_nat (S (length xs)))); [|lia].
        cbn [andb]. replace (column + Z.of_nat k - (column + Z.of_nat k)) with 0 by lia.
        reflexivity.
      * destruct (Z.leb_spec (column + Z.of_nat k) c'); [lia|]. reflexivity.
    + lia.
Qed.

Lemma paints_fill (r : Z) (x : Sprixel.t) (a b : Z) :
  0 <= r < h -> 0 <= a -> b <= w ->
  paints h w (for_ (Py.range a b) (fun c => setitem r c x)) (hline r a b x).
Proof. intros Hr Ha Hb. exact (paints_hline r 0 x a b Hr Ha Hb). Qed.

Lemma paints_sprite (xs : Sprite.t) (row column bh bw : Z) :
  0 <= row < h -> 0 <= column -> column + Z.of_nat (length xs) <= w ->
  paints h w (Sprite.render_to_buffer xs row column bh bw) (stamp row column xs).
Proof.
  intros Hr Hc Hw. unfold Sprite.render_to_buffer.
  pose proof (paints_stamp_from row column xs 0 Hr ltac:(lia) ltac:(lia)) as H.
  replace (column + Z.of_nat 0) with column in H by lia. exact H.
Qed.

End Painting.

(** ** Box *)

Lemma round_half_even_2_bounds (K : Z) :
  K - 1 <= 2 * Py.round_half_even K 2 <= K + 1.
Proof.
  unfold Py.round_half_even.
  destruct (Z.ltb_spec (2 * (K mod 2)) 2); [Z.to_euclidean_division_equations; lia|].
  destruct (Z.ltb_spec 2 (2 * (K mod 2))); [Z.to_euclidean_division_equations; lia|].
  destruct (Z.even (K / 2)); Z.to_euclidean_division_equations; lia.
Qed.

Lemma top_numbers (W l : Z) :
  0 <= l < W ->
  0 <= title_offset W l /\
  title_offset W l <= left_fill W l /\
  2 * left_fill W l <= W - l + 1 /\
  0 <= right_fill W l /\
  W - 1 <= title_offset W l + l + right_fill W l + 1 <= W /\
  title_offset W l + l <= W - 1.
Proof.
  intros Hl. pose proof (round_half_even_2_bounds (W - l)) as Hb.
  unfold title_offset, left_fill, right_fill in *.
  set (nL := Py.round_half_even (W - l) 2) in *. clearbody nL.
  Z.to_euclidean_division_equations. lia.
Qed.

Lemma length_from_text (t : Text.t) :
  Z.of_nat (length (Sprite.from_text t)) = Py.len (Text.text t).
Proof.
  unfold Sprite.from_text, Py.len. rewrite length_fmap. f_equal.
  induction (Text.text t) as [|c s IH]; [reflexivity|]. cbn. f_equal. exact IH.
Qed.

Lemma len_nonneg (s : string) : 0 <= Py.len s.
Proof. unfold Py.len. lia. Qed.

Section BoxFacts.

Variables bh bw : Z.
Variable Text_eq : Text.t -> string -> bool.

Lemma half_gap_returns (s : Box.t) :
  Z.abs (Box.__width s) < 2 ^ 53 -> title_len s < 2 ^ 53 ->
  Z.abs (Box.__width s - title_len s) < 2 ^ 53 ->
  exists x, is_half x (Box.__width s - title_len s) /\
    forall wd, Box.half_gap (Box._build_cache s) wd = (Returned x, wd).
Proof.
  intros HW Hl Hd.
  destruct (truediv_half (Box.__width s) HW) as (x1 & E1 & H1).
  pose proof (len_nonneg (Text.text (title_of s))) as Hn. fold (title_len s) in Hn.
  destruct (truediv_half (title_len s) ltac:(lia)) as (x2 & E2 & H2).
  exists (Py.fsub x1 x2). split; [apply fsub_half; assumption|].
  intros wd. unfold Box.half_gap, bind, lift.
  cbn [Box._build_cache Box.__width Box._cache Box.Cache.title getitem ret].
  rewrite E1. fold (title_of s). fold (title_len s). rewrite E2. reflexivity.
Qed.

Lemma half_gap_less_one_returns (s : Box.t) :
  Z.abs (Box.__width s) < 2 ^ 53 -> title_len s < 2 ^ 53 ->
  Z.abs (Box.__width s - 2) < 2 ^ 53 ->
  Z.abs (Box.__width s - 2 - title_len s) < 2 ^ 53 ->
  exists x, is_half x (Box.__width s - 2 - title_len s) /\
    forall wd, Box.half_gap_less_one (Box._build_cache s) wd = (Returned x, wd).
Proof.
  intros HW Hl Hd1 Hd.
  destruct (truediv_half (Box.__width s) HW) as (x1 & E1 & H1).
  destruct of_int_one_half as (one & Eo & Ho).
  pose proof (len_nonneg (Text.text (title_of s))) as Hn. fold (title_len s) in Hn.
  destruct (truediv_half (title_len s) ltac:(lia)) as (x2 & E2 & H2).
  exists (Py.fsub (Py.fsub x1 one) x2). split.
  { apply fsub_half; [apply fsub_half| |]; assumption. }
  intros wd. unfold Box.half_gap_less_one, bind, lift.
  cbn [Box._build_cache Box.__width Box._cache Box.Cache.title getitem ret].
  rewrite E1, Eo. fold (title_of s). fold (title_len s). rewrite E2. reflexivity.
Qed.

(** Rendering a box of width 2 at least whose title is shorter than the
    width, inside the buffer, applies [box_paint]. *)
Lemma Box_render_paints (s : Box.t) (row column : Z) :
  2 <= Box.__width s < 2 ^ 53 -> 2 <= Box.__height s ->
  title_len s < Box.__width s ->
  0 <= row -> row + Box.__height s <= bh ->
  0 <= column -> column + Box.__width s <= bw ->
  paints bh bw
    (Box.render_to_buffer Text_eq (Box._build_cache s) row column bh bw)
    (box_paint Text_eq s row column).
Proof.
  intros HW HH Hl Hr1 Hr2 Hc1 Hc2.
  pose proof (len_nonneg (Text.text (title_of s))) as Hn. fold (title_len s) in Hn.
  pose proof (top_numbers (Box.__width s) (title_len s) ltac:(lia))
    as (K1 & K2 & K3 & K4 & K5 & K6).
  unfold Box.render_to_buffer, box_paint, top_paint.
  cbn [Box._build_cache Box.__width Box.__height Box.__config Box._cache
       Box.Cache.dialog_vertical_border Box.Cache.dialog_horizontal_border
       Box.Cache.top_right_corner Box.Cache.top_left_corner
       Box.Cache.bottom_right_corner Box.Cache.bottom_left_corner
       Box.Cache.title Box.Cache.title_sprite].
  fold (title_of s). fold (title_len s).
  fold (border_cell (Box.__config s) (UiConfig.box_vertical_border (Box.__config s))).
  fold (border_cell (Box.__config s) (UiConfig.box_horizontal_border (Box.__config s))).
  fold (border_cell (Box.__config s) (UiConfig.box_top_left_corner (Box.__config s))).
  fold (border_cell (Box.__config s) (UiConfig.box_top_right_corner (Box.__config s))).
  fold (border_cell (Box.__config s) (UiConfig.box_bottom_left_corner (Box.__config s))).
  fold (border_cell (Box.__config s) (UiConfig.box_bottom_right_corner (Box.__config s))).
  do 3 apply paints_getitem.
  apply paints_bind; [apply paints_setitem; lia|].
  apply paints_getitem.
  apply paints_bind.
  { destruct (Text_eq (title_of s) EmptyString).
    - apply paints_fill; lia.
    - destruct (half_gap_returns s) as (x & Hx & Ex); [lia..|].
      destruct (half_gap_less_one_returns s) as (y & Hy & Ey); [lia..|].
      apply (paints_pure _ _ _ x); [exact Ex|].
      apply (paints_pure _ _ _ (left_fill (Box.__width s) (title_len s)));
        [intros wd; unfold lift; rewrite (round_half _ _ Hx); reflexivity|].
      apply paints_bind; [apply paints_fill; lia|].
      apply paints_getitem.
      apply (paints_pure _ _ _ y); [exact Ey|].
      apply (paints_pure _ _ _ (title_offset (Box.__width s) (title_len s)));
        [intros wd; unfold lift; rewrite (int_half _ _ Hy); reflexivity|].
      apply paints_bind.
      { apply paints_sprite; [lia|lia|]. rewrite length_from_text.
        fold (title_len s). lia. }
      apply (paints_pure _ _ _ y); [exact Ey|].
      apply (paints_pure _ _ _ (title_offset (Box.__width s) (title_len s)));
        [intros wd; unfold lift; rewrite (int_half _ _ Hy); reflexivity|].
      apply paints_getitem.
      apply (paints_pure _ _ _ x); [exact Ex|].
      apply (paints_pure _ _ _ (right_fill (Box.__width s) (title_len s)));
        [intros wd; unfold lift; rewrite (int_half _ _ Hx); reflexivity|].
      fold (title_len s).
      apply paints_fill; lia. }
  apply paints_getitem.
  apply paints_bind; [apply paints_setitem; lia|].
  apply paints_bind; [apply paints_sides; lia|].
  apply paints_getitem.
  apply paints_bind; [apply paints_setitem; lia|].
  apply paints_bind; [apply paints_fill; lia|].
  apply paints_getitem.
  apply paints_setitem; lia.
Qed.

End BoxFacts.

(** Settling the tests of a paint at a cell whose position the hypotheses
    determine. *)
Ltac settle_test :=
  match goal with
  | |- context [?a =? ?b] =>
      first [ rewrite (proj2 (Z.eqb_eq a b)) by lia
            | rewrite (proj2 (Z.eqb_neq a b)) by lia ]
  | |- context [?a <=? ?b] =>
      first [ rewrite (proj2 (Z.leb_le a b)) by lia
            | rewrite (proj2 (Z.leb_gt a b)) by lia ]
  | |- context [?a <? ?b] =>
      first [ rewrite (proj2 (Z.ltb_lt a b)) by lia
            | rewrite (proj2 (Z.ltb_ge a b)) by lia ]
  end.

Ltac settle :=
  repeat (first [ settle_test | rewrite andb_false_r | rewrite orb_true_r ];
          cbn [andb orb]).

Section BoxPaint.

Variable Text_eq : Text.t -> string -> bool.
Variable s : Box.t.
Variables row column : Z.

Local Abbreviation W := (Box.__width s).
Local Abbreviation H := (Box.__height s).
Local Abbreviation cfg := (Box.__config s).
Local Abbreviation hz := (border_cell cfg (UiConfig.box_horizontal_border cfg)).
Local Abbreviation vt := (border_cell cfg (UiConfig.box_vertical_border cfg)).

Hypothesis HW : 2 <= W.
Hypothesis HH : 2 <= H.
Hypothesis Hl : title_len s < W.

(** The loops of the top row stay between the column after the left corner
    and the column of the right corner. *)
Lemma top_paint_support (r c : Z) :
  r <> row \/ c <= column \/ column + W <= c ->
  top_paint Text_eq s row column r c = None.
Proof.
  intros Hrc. pose proof (len_nonneg (Text.text (title_of s))) as Hn.
  fold (title_len s) in Hn.
  pose proof (top_numbers W (title_len s) ltac:(lia)) as (K1 & K2 & K3 & K4 & K5 & K6).
  unfold top_paint.
  destruct (Text_eq (title_of s) EmptyString).
  - unfold hline. destruct (Z.eqb_spec r row); [|reflexivity].
    destruct Hrc as [?|[?|?]]; [lia| |]; settle; reflexivity.
  - unfold over, hline, stamp. rewrite length_from_text. fold (title_len s).
    destruct (Z.eqb_spec r row); [|reflexivity].
    destruct Hrc as [?|[?|?]]; [lia| |]; settle; reflexivity.
Qed.

Lemma box_paint_top_left :
  box_paint Text_eq s row column row column
  = Some (border_cell cfg (UiConfig.box_top_left_corner cfg)).
Proof.
  unfold box_paint, over. rewrite top_paint_support by lia.
  unfold dot, hline, sides. settle. reflexivity.
Qed.

Lemma box_paint_top_right :
  box_paint Text_eq s row column row (column + W - 1)
  = Some (border_cell cfg (UiConfig.box_top_right_corner cfg)).
Proof.
  unfold box_paint, over. unfold dot, hline, sides. settle. reflexivity.
Qed.

Lemma box_paint_bottom_left :
  box_paint Text_eq s row column (row + H - 1) column
  = Some (border_cell cfg (UiConfig.box_bottom_left_corner cfg)).
Proof.
  unfold box_paint, over. unfold dot, hline, sides. settle. reflexivity.
Qed.

Lemma box_paint_bottom_right :
  box_paint Text_eq s row column (row + H - 1) (column + W - 1)
  = Some (border_cell cfg (UiConfig.box_bottom_right_corner cfg)).
Proof.
  unfold box_paint, over. unfold dot, hline, sides. settle. reflexivity.
Qed.

Lemma box_paint_bottom (c : Z) :
  column < c < column + W - 1 ->
  box_paint Text_eq s row column (row + H - 1) c = Some hz.
Proof.
  intros Hc. unfold box_paint, over. unfold dot, hline, sides.
  settle. reflexivity.
Qed.

Lemma box_paint_sides (r : Z) :
  row < r < row + H - 1 ->
  box_paint Text_eq s row column r column = Some vt /\
  box_paint Text_eq s row column r (column + W - 1) = Some vt.
Proof.
  intros Hr. unfold box_paint, over. unfold dot, hline, sides.
  split; settle; reflexivity.
Qed.

Lemma box_paint_top (c : Z) :
  column < c < column + W - 1 ->
  box_paint Text_eq s row column row c = top_paint Text_eq s row column row c.
Proof.
  intros Hc. unfold box_paint, over. unfold dot, hline, sides.
  settle. destruct (top_paint Text_eq s row column row c); reflexivity.
Qed.

(** Nothing is painted strictly inside the frame, nor outside the
    rectangle of the box. *)
Lemma box_paint_elsewhere (r c : Z) :
  (row < r < row + H - 1 /\ column < c < column + W - 1)
  \/ r < row \/ row + H <= r \/ c < column \/ column + W <= c ->
  box_paint Text_eq s row column r c = None.
Proof.
  intros Hrc. unfold box_paint, over. rewrite top_paint_support by lia.
  unfold dot, hline, sides.
  destruct Hrc as [[? ?]|[?|[?|[?|?]]]]; settle; reflexivity.
Qed.

(** The top row between the corners: fill up to the title, the title, and
    fill again. *)
Lemma top_paint_row (c : Z) :
  (Text_eq (title_of s) EmptyString = true -> title_len s = 0) ->
  column < c < column + W - 1 ->
  top_paint Text_eq s row column row c =
    if (column + 1 + title_offset W (title_len s) <=? c)
       && (c <? column + 1 + title_offset W (title_len s) + title_len s)
    then Sprite.from_text (title_of s)
           !! Z.to_nat (c - (column + 1 + title_offset W (title_len s)))
    else Some hz.
Proof.
  intros Hsound Hc. pose proof (len_nonneg (Text.text (title_of s))) as Hn.
  fold (title_len s) in Hn.
  pose proof (top_numbers W (title_len s) ltac:(lia)) as (K1 & K2 & K3 & K4 & K5 & K6).
  unfold top_paint.
  destruct (Text_eq (title_of s) EmptyString).
  - rewrite (Hsound eq_refl). unfold hline.
    destruct (Z.leb_spec (column + 1 + title_offset W 0) c),
             (Z.ltb_spec c (column + 1 + title_offset W 0 + 0));
      cbn [andb]; [lia|..]; settle; reflexivity.
  - unfold over, hline, stamp. rewrite length_from_text. fold (title_len s).
    rewrite Z.eqb_refl. cbn [andb].
    destruct (Z.leb_spec (column + 1 + title_offset W (title_len s)) c) as [L1|L1],
             (Z.ltb_spec c (column + 1 + title_offset W (title_len s) + title_len s)) as [L2|L2];
      cbn [andb]; settle.
    + destruct (Sprite.from_text (title_of s)
                  !! Z.to_nat (c - (column + 1 + title_offset W (title_len s)))) eqn:E;
        [reflexivity|].
      apply lookup_ge_None in E.
      pose proof (length_from_text (title_of s)) as E'. fold (title_len s) in E'. lia.
    + reflexivity.
    + reflexivity.
    + reflexivity.
Qed.

End BoxPaint.

(** ** The claims on Box *)

(** C8.  A box with an empty title, of width and height 2 at least, rendered
    inside the buffer: the top and the bottom row hold [width - 2] cells of
    horizontal border between two corner cells, the rows in between hold the
    vertical border at their two ends only, and the cells strictly inside the
    frame, like those outside the rectangle, are left as they were. *)
Theorem Box_empty_title_draws_frame :
  forall (bh bw : Z) (Text_eq : Text.t -> string -> bool) (s : Box.t)
         (row column : Z) (wd : World),
    Text.text (title_of s) = EmptyString ->
    2 <= Box.__width s < 2 ^ 53 -> 2 <= Box.__height s ->
    0 <= row -> row + Box.__height s <= bh ->
    0 <= column -> column + Box.__width s <= bw ->
    rect bh bw (buffer wd) ->
    frame_drawn Text_eq s row column bh bw wd.
Proof.
  intros bh bw Text_eq s row column wd Ht HW HH Hr1 Hr2 Hc1 Hc2 Hrect.
  assert (Hl : title_len s = 0) by (unfold title_len; rewrite Ht; reflexivity).
  destruct (Box_render_paints bh bw Text_eq s row column HW HH ltac:(lia)
              Hr1 Hr2 Hc1 Hc2 wd Hrect) as (wd' & E & Hrect' & Hs & Hcell).
  exists wd'. split; [exact E|]. split; [exact Hrect'|]. split; [exact Hs|].
  assert (Htop : forall c, column < c < column + Box.__width s - 1 ->
            box_paint Text_eq s row column row c
            = Some (border_cell (Box.__config s)
                      (UiConfig.box_horizontal_border (Box.__config s)))).
  { intros c Hc. rewrite box_paint_top by lia.
    rewrite top_paint_row by lia. rewrite Hl.
    destruct (Z.leb_spec (column + 1 + title_offset (Box.__width s) 0) c),
             (Z.ltb_spec c (column + 1 + title_offset (Box.__width s) 0 + 0));
      cbn [andb]; [lia|..]; reflexivity. }
  split; [rewrite Hcell, box_paint_top_left by lia; reflexivity|].
  split; [rewrite Hcell, box_paint_top_right by lia; reflexivity|].
  split; [rewrite Hcell, box_paint_bottom_left by lia; reflexivity|].
  split; [rewrite Hcell, box_paint_bottom_right by lia; reflexivity|].
  split.
  { intros c Hc. rewrite !Hcell, Htop, box_paint_bottom by lia.
    split; reflexivity. }
  split.
  { intros r Hr.
    destruct (box_paint_sides Text_eq s row column) with (r := r) as [E1 E2];
      try lia.
    rewrite !Hcell, E1, E2. split; reflexivity. }
  split.
  - intros r c Hr Hc. rewrite Hcell, box_paint_elsewhere by lia. reflexivity.
  - intros r c Hrc. rewrite Hcell, box_paint_elsewhere by lia. reflexivity.
Qed.

Lemma Box_empty_title_draws_frame_witness :
  frame_drawn Sample.object_eq (Sample.box 10 3 EmptyString) 1 1 5 12 (Sample.blank 5 12).
Proof.
  apply (Box_empty_title_draws_frame 5 12 Sample.object_eq (Sample.box 10 3 EmptyString)
           1 1 (Sample.blank 5 12)).
  - reflexivity.
  - cbn. lia.
  - cbn. lia.
  - lia.
  - cbn. lia.
  - lia.
  - cbn. lia.
  - split; [reflexivity | repeat constructor].
Defined.

(** C3, as the claim states it, fails: on a buffer of 3 rows of 20 cells the
    top row of a box of width 20 titled "Hi" does not read corner, 9 cells of
    border, the title, 7 cells of border, corner.  The cell at column 9 holds
    the first letter of the title. *)
Lemma Box_title_split_9_2_7_fails :
  ~ top_row_split 9 7 Sample.object_eq (Sample.box 20 3 "Hi") 0 0 3 20
      (Sample.blank 3 20).
Proof.
  intros (wd' & E & _ & Hleft & _).
  vm_compute in E. injection E as <-.
  specialize (Hleft 9 ltac:(lia)). vm_compute in Hleft. discriminate Hleft.
Qed.

(** C3, amended.  A box of width 20 and height 3 whose title is "Hi", rendered
    inside the buffer: the top row reads the top-left corner, 8 cells of
    horizontal border, the 2 cells of the title, 8 cells of horizontal border
    and the top-right corner, which fills the 18 columns between the
    corners. *)
Theorem Box_title_split_8_2_8 :
  forall (bh bw : Z) (Text_eq : Text.t -> string -> bool) (s : Box.t)
         (row column : Z) (wd : World),
    (forall t, Text_eq t EmptyString = true -> Text.text t = EmptyString) ->
    Box.__width s = 20 -> Box.__height s = 3 ->
    Text.text (title_of s) = "Hi" ->
    0 <= row -> row + 3 <= bh -> 0 <= column -> column + 20 <= bw ->
    rect bh bw (buffer wd) ->
    top_row_split 8 8 Text_eq s row column bh bw wd.
Proof.
  intros bh bw Text_eq s row column wd Hsound HW HH Ht Hr1 Hr2 Hc1 Hc2 Hrect.
  assert (Hl : title_len s = 2) by (unfold title_len; rewrite Ht; reflexivity).
  assert (Hoff : title_offset 20 2 = 8) by reflexivity.
  assert (Hlen : Z.of_nat (length (Sprite.from_text (title_of s))) = 2).
  { rewrite length_from_text. exact Hl. }
  destruct (Box_render_paints bh bw Text_eq s row column ltac:(lia) ltac:(lia)
              ltac:(lia) Hr1 ltac:(lia) Hc1 ltac:(lia) wd Hrect)
    as (wd' & E & Hrect' & Hs & Hcell).
  assert (Htop : forall c, column < c < column + 19 ->
            cell (buffer wd') row c =
            if (column + 9 <=? c) && (c <? column + 11)
            then Sprite.from_text (title_of s) !! Z.to_nat (c - (column + 9))
            else Some (border_cell (Box.__config s)
                         (UiConfig.box_horizontal_border (Box.__config s)))).
  { intros c Hc. rewrite Hcell, box_paint_top by lia.
    rewrite top_paint_row; [|lia..| |lia].
    - rewrite HW, Hl, Hoff.
      replace (column + 1 + 8) with (column + 9) by lia.
      replace (column + 9 + 2) with (column + 11) by lia.
      destruct ((column + 9 <=? c) && (c <? column + 11)) eqn:Ein;
        [|reflexivity].
      destruct (lookup_lt_is_Some_2 (Sprite.from_text (title_of s))
                  (Z.to_nat (c - (column + 9))) ltac:(lia)) as [x Ex].
      rewrite Ex. reflexivity.
    - intros Heq. apply Hsound in Heq. rewrite Ht in Heq. discriminate Heq. }
  exists wd'. unfold top_row_split. rewrite Hlen.
  split; [exact E|].
  split; [rewrite Hcell, box_paint_top_left by lia; reflexivity|].
  split.
  { intros c Hc. rewrite Htop by lia. settle. reflexivity. }
  split.
  { intros i Hi. rewrite Htop by lia. settle. f_equal. lia. }
  split.
  { intros c Hc. rewrite Htop by lia. settle. reflexivity. }
  replace (column + 1 + 8 + 2 + 8) with (column + Box.__width s - 1) by lia.
  rewrite Hcell, box_paint_top_right by lia. reflexivity.
Qed.

Lemma Box_title_split_8_2_8_witness :
  top_row_split 8 8 Sample.object_eq (Sample.box 20 3 "Hi") 0 0 3 20
    (Sample.blank 3 20).
Proof.
  apply (Box_title_split_8_2_8 3 20 Sample.object_eq (Sample.box 20 3 "Hi")
           0 0 (Sample.blank 3 20)).
  - intros t Heq. discriminate Heq.
  - reflexivity.
  - reflexivity.
  - reflexivity.
  - lia.
  - lia.
  - lia.
  - lia.
  - split; [reflexivity | repeat constructor].
Defined.

(** C10, as the claim states it, fails: a box of width 4 whose title has 6
    characters, rendered at column 5 of a buffer of 12 columns, ends with a
    letter of its title where its top-left corner should be. *)
Lemma Box_corner_overwritten_by_title :
  ~ corners_placed Sample.object_eq (Sample.box 4 3 "ABCDEF") 0 5 3 12
      (Sample.blank 3 12).
Proof.
  intros (wd' & E & Htl & _).
  vm_compute in E. injection E as <-.
  vm_compute in Htl. discriminate Htl.
Qed.

(** C10, amended.  A box of width and height 2 at least whose title is
    shorter than its width, rendered inside the buffer: the entries of the
    cache are crossed, and after the rendering the glyph configured as
    [box_top_left_corner] is at [(row, column)], [box_top_right_corner] at
    [(row, column + width - 1)], [box_bottom_left_corner] at
    [(row + height - 1, column)] and [box_bottom_right_corner] at
    [(row + height - 1, column + width - 1)]. *)
Theorem Box_corners_visually_correct :
  forall (bh bw : Z) (Text_eq : Text.t -> string -> bool) (s : Box.t)
         (row column : Z) (wd : World),
    2 <= Box.__width s < 2 ^ 53 -> 2 <= Box.__height s ->
    title_len s < Box.__width s ->
    0 <= row -> row + Box.__height s <= bh ->
    0 <= column -> column + Box.__width s <= bw ->
    rect bh bw (buffer wd) ->
    corners_crossed s /\ corners_placed Text_eq s row column bh bw wd.
Proof.
  intros bh bw Text_eq s row column wd HW HH Hl Hr1 Hr2 Hc1 Hc2 Hrect.
  split; [repeat split|].
  destruct (Box_render_paints bh bw Text_eq s row column HW HH Hl
              Hr1 Hr2 Hc1 Hc2 wd Hrect) as (wd' & E & Hrect' & Hs & Hcell).
  exists wd'. split; [exact E|].
  split; [rewrite Hcell, box_paint_top_left by lia; reflexivity|].
  split; [rewrite Hcell, box_paint_top_right by lia; reflexivity|].
  split; [rewrite Hcell, box_paint_bottom_left by lia; reflexivity|].
  rewrite Hcell, box_paint_bottom_right by lia; reflexivity.
Qed.

Lemma Box_corners_visually_correct_witness :
  corners_crossed (Sample.box 11 4 "abc") /\
  corners_placed Sample.object_eq (Sample.box 11 4 "abc") 1 1 5 13
    (Sample.blank 5 13).
Proof.
  apply (Box_corners_visually_correct 5 13 Sample.object_eq
           (Sample.box 11 4 "abc") 1 1 (Sample.blank 5 13)).
  - cbn. lia.
  - cbn. lia.
  - vm_compute. reflexivity.
  - lia.
  - cbn. lia.
  - lia.
  - cbn. lia.
  - split; [reflexivity | repeat constructor].
Defined.

(** ** The claims on ProgressBar *)

(** C1, as the claim states it, fails on a negative value: with value -10,
    maximum 100 and width 20 the bar rendered at column 2 also writes the
    columns 0 and 1, to the left of its own cells.  It fails on huge values
    too: with value 2^54 - 1, maximum 2^54 and width 1 the float quotient is
    1.0 and the single cell is filled, although the floor of the quotient
    is 0. *)
Lemma ProgressBar_negative_or_huge_value_breaks_row :
  ~ bar_drawn (ProgressBar._build_cache (Sample.bar (-10) 100 20)) 0 2 1 24
      (Sample.blank 1 24) /\
  ~ bar_drawn (ProgressBar._build_cache (Sample.bar (2 ^ 54 - 1) (2 ^ 54) 1))
      0 0 1 1 (Sample.blank 1 1).
Proof.
  split.
  - intros (wd' & filled & empty & _ & _ & E & _ & Hcell).
    vm_compute in E. injection E as <-.
    specialize (Hcell 0 0). vm_compute in Hcell. discriminate Hcell.
  - intros (wd' & filled & empty & Ef & Ee & E & _ & Hcell).
    vm_compute in Ef. injection Ef as <-.
    vm_compute in Ee. injection Ee as <-.
    vm_compute in E. injection E as <-.
    specialize (Hcell 0 0). vm_compute in Hcell. discriminate Hcell.
Qed.

(** C1, amended.  For every progress bar with [maximum > 0], a value that is
    not negative (values above the maximum included) and
    [value * width < 2^53], rendered inside the buffer: the rendering writes
    exactly [width] cells of the row, the first
    [min (floor (value * width / maximum)) width] with the cached filled
    cell and the others with the cached empty cell. *)
Theorem ProgressBar_render_fills_row :
  forall (bh bw : Z) (s : ProgressBar.t) (row column : Z) (wd : World),
    0 < ProgressBar.__maximum s ->
    0 <= ProgressBar.__value s ->
    0 <= ProgressBar.__width s ->
    ProgressBar.__value s * ProgressBar.__width s < 2 ^ 53 ->
    0 <= row < bh -> 0 <= column -> column + ProgressBar.__width s <= bw ->
    rect bh bw (buffer wd) ->
    bar_drawn (ProgressBar._build_cache s) row column bh bw wd.
Proof.
  intros bh bw s row column wd HM HV HW Hb Hr Hc1 Hc2 Hrect.
  set (V := ProgressBar.__value s) in *.
  set (W := ProgressBar.__width s) in *.
  set (Mx := ProgressBar.__maximum s) in *.
  destruct (int_truediv_floor (V * W) Mx ltac:(nia) HM) as (q & Eq & Ei).
  assert (Hn : 0 <= V * W / Mx) by (apply Z.div_pos; nia).
  set (prog := Z.min (V * W / Mx) W).
  pose (cellof := fun m : marker =>
          match m with
          | MSprixel x => x
          | MStr str =>
              Sprixel.__init__ str
                (UiConfig.bg_color (ProgressBar.__config s))
                (UiConfig.fg_color (ProgressBar.__config s))
          end).
  set (filled := cellof (ProgressBar.__progress_marker s)).
  set (empty := cellof (ProgressBar.__empty_marker s)).
  assert (Ef : ProgressBar.Cache.pb_progress (ProgressBar._cache (ProgressBar._build_cache s))
               = Some filled).
  { reflexivity. }
  assert (Ee : ProgressBar.Cache.pb_empty (ProgressBar._cache (ProgressBar._build_cache s))
               = Some empty).
  { reflexivity. }
  assert (Hp : paints bh bw
            (ProgressBar.render_to_buffer (ProgressBar._build_cache s) row column bh bw)
            (over (hline row (column + prog) (column + W) empty)
                  (hline row (column + 0) (column + prog) filled))).
  { unfold ProgressBar.render_to_buffer. rewrite Ef, Ee.
    cbn [ProgressBar._build_cache ProgressBar.__value ProgressBar.__width
         ProgressBar.__maximum].
    fold V W Mx.
    apply (paints_pure _ _ _ q); [intros wd0; unfold lift; rewrite Eq; reflexivity|].
    apply (paints_pure _ _ _ (V * W / Mx));
      [intros wd0; unfold lift; rewrite Ei; reflexivity|].
    fold prog.
    apply paints_bind.
    - exact (paints_hline bh bw row column filled 0 prog Hr ltac:(lia) ltac:(lia)).
    - exact (paints_hline bh bw row column empty prog W Hr ltac:(lia) ltac:(lia)). }
  destruct (Hp wd Hrect) as (wd' & E & Hrect' & Hs & Hcell).
  exists wd', filled, empty.
  split; [exact Ef|]. split; [exact Ee|]. split; [exact E|]. split; [exact Hs|].
  intros r c. rewrite Hcell. unfold over, hline.
  cbn [ProgressBar._build_cache ProgressBar.__value ProgressBar.__width
       ProgressBar.__maximum].
  fold V W Mx prog.
  destruct (Z.eqb_spec r row); cbn [andb]; [|reflexivity].
  destruct (Z.leb_spec (column + prog) c), (Z.ltb_spec c (column + W)),
    (Z.leb_spec (column + 0) c), (Z.ltb_spec c (column + prog)),
    (Z.leb_spec column c); cbn [andb]; try reflexivity; lia.
Qed.

Lemma ProgressBar_render_fills_row_witness :
  bar_drawn (ProgressBar._build_cache (Sample.bar 150 100 20)) 0 2 1 24
    (Sample.blank 1 24).
Proof.
  apply (ProgressBar_render_fills_row 1 24 (Sample.bar 150 100 20) 0 2
           (Sample.blank 1 24)).
  - cbn. lia.
  - cbn. lia.
  - cbn. lia.
  - vm_compute. reflexivity.
  - lia.
  - lia.
  - cbn. lia.
  - split; [reflexivity | repeat constructor].
Defined.

(** C4, as the claim states it, fails: the exception that the rendering of a
    bar of maximum 0 raises is not one that the library defines. *)
Lemma ProgressBar_maximum_zero_not_library_error :
  ~ exists message,
      (ProgressBar.render_to_buffer
         (ProgressBar._build_cache (Sample.bar 5 0 20)) 0 2 1 24
         (Sample.blank 1 24)).1
      = Raised (PglInvalidTypeException message).
Proof. intros (message & E). vm_compute in E. discriminate E. Qed.

(** C4, amended.  Rendering a progress bar whose maximum is 0 raises
    ZeroDivisionError, the exception of Python for the division that the
    method does not guard, and leaves the buffer and the screen as they
    were. *)
Theorem ProgressBar_maximum_zero_raises :
  forall (pb : ProgressBar.t) (row column bh bw : Z) (wd : World),
    ProgressBar.__maximum pb = 0 ->
    ProgressBar.render_to_buffer pb row column bh bw wd
    = (Raised ZeroDivisionError, wd).
Proof.
  intros pb row column bh bw wd HM.
  unfold ProgressBar.render_to_buffer, bind, lift, Py.truediv.
  rewrite HM. reflexivity.
Qed.

Lemma ProgressBar_maximum_zero_raises_witness :
  ProgressBar.render_to_buffer
    (ProgressBar._build_cache (Sample.bar 5 0 20)) 0 2 1 24 (Sample.blank 1 24)
  = (Raised ZeroDivisionError, Sample.blank 1 24).
Proof.
  apply (ProgressBar_maximum_zero_raises
           (ProgressBar._build_cache (Sample.bar 5 0 20)) 0 2 1 24
           (Sample.blank 1 24)).
  reflexivity.
Defined.

(** C9.  On a progress bar whose cache is built, after [pb.empty_marker = e]
    and [pb.progress_marker = p] with [p] distinct from [e], reading
    [pb.empty_marker] yields [p] and not [e]: the setter has stored [e] in the
    attribute [__empty_marker] and rebuilt the cached empty cell from it, and
    the getter reads the attribute of the progress marker. *)
Theorem ProgressBar_empty_marker_getter_yields_progress_marker :
  forall (s : ProgressBar.t) (e p : text_or_str) (wd : World),
    text_in p <> text_in e ->
    exists pb1 wd1 pb2 wd2,
      ProgressBar.empty_marker_setter (ProgressBar._build_cache s) (as_obj e) wd
      = (Returned pb1, wd1) /\
      ProgressBar.progress_marker_setter pb1 (as_obj p) wd1 = (Returned pb2, wd2) /\
      ProgressBar.empty_marker pb2 = MStr (text_in p) /\
      ProgressBar.empty_marker pb2 <> MStr (text_in e) /\
      ProgressBar.__empty_marker pb2 = MStr (text_in e) /\
      ProgressBar.Cache.pb_empty (ProgressBar._cache pb2)
      = Some (Sprixel.__init__ (text_in e)
                (UiConfig.bg_color (ProgressBar.__config s))
                (UiConfig.fg_color (ProgressBar.__config s))).
Proof.
  intros s e p wd Hne.
  destruct e as [te|se], p as [tp|sp]; cbn [as_obj text_in] in *;
    (do 4 eexists; split; [reflexivity|]; split; [reflexivity|];
     split; [reflexivity|]; split; [|split; reflexivity];
     cbn; intros Heq; injection Heq as Heq; exact (Hne Heq)).
Qed.

Lemma ProgressBar_empty_marker_getter_yields_progress_marker_witness :
  exists pb1 wd1 pb2 wd2,
    ProgressBar.empty_marker_setter
      (ProgressBar._build_cache (Sample.bar 5 100 20)) (PyStr ".") (Sample.blank 1 1)
    = (Returned pb1, wd1) /\
    ProgressBar.progress_marker_setter pb1 (PyStr "=") wd1 = (Returned pb2, wd2) /\
    ProgressBar.empty_marker pb2 = MStr "=" /\
    ProgressBar.empty_marker pb2 <> MStr "." /\
    ProgressBar.__empty_marker pb2 = MStr "." /\
    ProgressBar.Cache.pb_empty (ProgressBar._cache pb2)
    = Some (Sprixel.__init__ "."
              (UiConfig.bg_color Sample.config) (UiConfig.fg_color Sample.config)).
Proof.
  apply (ProgressBar_empty_marker_getter_yields_progress_marker
           (Sample.bar 5 100 20) (IsStr ".") (IsStr "=") (Sample.blank 1 1)).
  cbn. discriminate.
Defined.

(** ** The claims on ProgressDialog *)

(** What [_build_cache] leaves is consistent, whatever the cache held. *)
Lemma build_cache_consistent (d : ProgressDialog.t) :
  consistent (ProgressDialog._build_cache d).
Proof.
  destruct d as [sup lbl v mx wdt pm em ad doc dst cache].
  split; [reflexivity|]. split; [reflexivity|].
  unfold ProgressDialog.config.
  cbn [ProgressDialog._build_cache ProgressDialog.super].
  intros Hb.
  unfold ProgressDialog._build_cache, ProgressDialog.config.
  cbn [ProgressDialog.super ProgressDialog._cache ProgressDialog.Cache.borders].
  rewrite Hb. reflexivity.
Qed.

Lemma consistent_built (d : ProgressDialog.t) : consistent d -> built d.
Proof. intros (Hl & Hp & _). split; eexists; eassumption. Qed.

(** The assignment of a value to the dialog and to its cached bar keeps a
    consistent cache consistent. *)
Lemma consistent_with_value (v : Z) (d : ProgressDialog.t) :
  consistent d -> consistent (dialog_with_value v d).
Proof.
  intros (Hl & Hp & Hb). split; [exact Hl|]. split; [|exact Hb].
  cbn [dialog_with_value ProgressDialog._cache ProgressDialog.Cache.pb].
  rewrite Hp. reflexivity.
Qed.

(** C5, as the claim states it, fails for the setter of the value: on a
    dialog that was given another configuration it returns with a cache
    whose label is still in the colours of the former configuration. *)
Lemma ProgressDialog_value_setter_no_rebuild :
  ~ setter_leaves_consistent ProgressDialog.value_setter
      Sample.stale_dialog (PyInt 5) (Sample.blank 1 1) (fun _ => True).
Proof.
  intros (d' & wd' & calls & E & _ & (Hl & _) & _).
  vm_compute in E. injection E as <- _.
  vm_compute in Hl. discriminate Hl.
Qed.

Lemma value_setter_returns (d : ProgressDialog.t) (v : Z) (wd : World) :
  built d ->
  exists bar,
    ProgressDialog.Cache.pb (ProgressDialog._cache d) = Some bar /\
    ProgressDialog.value_setter d (PyInt v) wd
    = (Returned (dialog_with_value v d),
       called (UiConfig.game (ProgressDialog.config d)) trigger_rendering
         (called (UiConfig.game (ProgressBar.__config bar)) trigger_rendering wd)).
Proof.
  intros [_ [bar Ebar]]. exists bar. split; [exact Ebar|].
  unfold ProgressDialog.value_setter, dialog_with_value. rewrite Ebar. reflexivity.
Qed.

(** C5, amended.  On a progress dialog whose cache has its entries,
    whatever they hold, the setters of the label and of the maximum assign
    the attribute, rebuild the whole cache and then request a rendering:
    when they return, the label is the [str] given (the text of the [Text]
    given), the maximum is the one given, and the cache is consistent with
    the attributes, that is, its label, its progress bar and, when the
    configuration asks for one, its box are those of the attributes of the
    dialog.  The setter of the value does not rebuild: on every such dialog
    it returns the dialog with the value given to it and to the cached
    progress bar and with every other entry of the cache as it was, after a
    request to render made by the setter of the bar and one made by the
    dialog; so the cache is consistent when it returns if it was before the
    call. *)
Theorem ProgressDialog_setters_and_cache :
  forall (d : ProgressDialog.t) (wd : World),
    built d ->
    (forall v : text_or_str,
       setter_leaves_consistent ProgressDialog.label_setter d (as_obj v) wd
         (fun d' => ProgressDialog.label d' = IsStr (text_in v))) /\
    (forall v : Z,
       setter_leaves_consistent ProgressDialog.maximum_setter d (PyInt v) wd
         (fun d' => ProgressDialog.maximum d' = v)) /\
    (forall v : Z,
       exists bar,
         ProgressDialog.Cache.pb (ProgressDialog._cache d) = Some bar /\
         ProgressDialog.value_setter d (PyInt v) wd
         = (Returned (dialog_with_value v d),
            called (UiConfig.game (ProgressDialog.config d)) trigger_rendering
              (called (UiConfig.game (ProgressBar.config bar))
                 trigger_rendering wd))) /\
    (forall v : Z,
       consistent d ->
       setter_leaves_consistent ProgressDialog.value_setter d (PyInt v) wd
         (fun d' => ProgressDialog.value d' = v)).
Proof.
  intros d wd Hb. pose proof Hb as [[lab Elab] _].
  split; [|split; [|split]].
  - intros [t|str]; cbn [as_obj text_in];
      unfold setter_leaves_consistent, ProgressDialog.label_setter.
    + do 3 eexists. split; [reflexivity|]. split; [reflexivity|].
      split; [apply build_cache_consistent|].
      split; [reflexivity|]. cbn [screen]. rewrite app_nil_l. reflexivity.
    + rewrite Elab. do 3 eexists. split; [reflexivity|]. split; [reflexivity|].
      split; [apply build_cache_consistent|].
      split; [reflexivity|]. cbn [screen]. rewrite app_nil_l. reflexivity.
  - intros v. unfold setter_leaves_consistent, ProgressDialog.maximum_setter.
    do 3 eexists. split; [reflexivity|]. split; [reflexivity|].
    split; [apply build_cache_consistent|].
    split; [reflexivity|]. cbn [screen]. rewrite app_nil_l. reflexivity.
  - intros v. exact (value_setter_returns d v wd Hb).
  - intros v Hc. destruct (value_setter_returns d v wd Hb) as (bar & _ & E).
    unfold setter_leaves_consistent. do 3 eexists. split; [exact E|].
    split; [reflexivity|].
    split; [apply consistent_with_value; exact Hc|].
    split; [reflexivity|]. cbn [called screen]. rewrite <- app_assoc.
    reflexivity.
Qed.

Lemma ProgressDialog_setters_and_cache_witness :
  (forall v : text_or_str,
     setter_leaves_consistent ProgressDialog.label_setter
       (ProgressDialog._build_cache Sample.progress_dialog) (as_obj v)
       (Sample.blank 1 1)
       (fun d' => ProgressDialog.label d' = IsStr (text_in v))) /\
  (forall v : Z,
     setter_leaves_consistent ProgressDialog.maximum_setter
       (ProgressDialog._build_cache Sample.progress_dialog) (PyInt v)
       (Sample.blank 1 1)
       (fun d' => ProgressDialog.maximum d' = v)) /\
  (forall v : Z,
     exists bar,
       ProgressDialog.Cache.pb
         (ProgressDialog._cache (ProgressDialog._build_cache Sample.progress_dialog))
       = Some bar /\
       ProgressDialog.value_setter
         (ProgressDialog._build_cache Sample.progress_dialog) (PyInt v)
         (Sample.blank 1 1)
       = (Returned
            (dialog_with_value v (ProgressDialog._build_cache Sample.progress_dialog)),
          called
            (UiConfig.game
               (ProgressDialog.config
                  (ProgressDialog._build_cache Sample.progress_dialog)))
            trigger_rendering
            (called (UiConfig.game (ProgressBar.config bar)) trigger_rendering
               (Sample.blank 1 1)))) /\
  (forall v : Z,
     consistent (ProgressDialog._build_cache Sample.progress_dialog) ->
     setter_leaves_consistent ProgressDialog.value_setter
       (ProgressDialog._build_cache Sample.progress_dialog) (PyInt v)
       (Sample.blank 1 1)
       (fun d' => ProgressDialog.value d' = v)).
Proof.
  apply (ProgressDialog_setters_and_cache
           (ProgressDialog._build_cache Sample.progress_dialog) (Sample.blank 1 1)).
  split; eexists; reflexivity.
Defined.

(** *** Computations that leave the screen alone *)

Lemma quiet_ret {A} (a : A) : quiet (ret a).
Proof. intros wd. reflexivity. Qed.

Lemma quiet_raise {A} (e : exn) : quiet (@raise A e).
Proof. intros wd. reflexivity. Qed.

Lemma quiet_lift {A} (r : Result A) : quiet (lift r).
Proof. intros wd. reflexivity. Qed.

Lemma quiet_getitem {A} (key : string) (entry : option A) : quiet (getitem key entry).
Proof. intros wd. destruct entry; reflexivity. Qed.

Lemma quiet_setitem (r c : Z) (x : Sprixel.t) : quiet (setitem r c x).
Proof.
  intros wd. unfold setitem.
  destruct (Py.index (length (buffer wd)) r); [reflexivity|].
  destruct (buffer wd !! a); [|reflexivity].
  destruct (Py.index (length l) c); reflexivity.
Qed.

Lemma quiet_bind {A B} (m : M A) (k : A -> M B) :
  quiet m -> (forall a, quiet (k a)) -> quiet (x <- m ;; k x).
Proof.
  intros Hm Hk wd. unfold bind. specialize (Hm wd).
  destruct (m wd) as [[e|a] wd1]; cbn [snd] in *; [exact Hm|].
  rewrite Hk. exact Hm.
Qed.

Lemma quiet_for {A} (xs : list A) (body : A -> M unit) :
  (forall x, quiet (body x)) -> quiet (for_ xs body).
Proof.
  intros Hb. induction xs as [|x xs IH]; cbn [for_].
  - apply quiet_ret.
  - apply quiet_bind; [apply Hb|]. intros _. exact IH.
Qed.

Ltac quiet_step :=
  first
    [ apply quiet_ret | apply quiet_raise | apply quiet_lift
    | apply quiet_getitem | apply quiet_setitem
    | apply quiet_for; intros ?
    | apply quiet_bind; [|intros ?]
    | match goal with |- quiet (if ?b then _ else _) => destruct b end ].

Lemma quiet_sprite (xs : Sprite.t) (row column bh bw : Z) :
  quiet (Sprite.render_to_buffer xs row column bh bw).
Proof. unfold Sprite.render_to_buffer. repeat quiet_step. Qed.

Lemma quiet_box (Text_eq : Text.t -> string -> bool) (b : Box.t)
    (row column bh bw : Z) :
  quiet (Box.render_to_buffer Text_eq b row column bh bw).
Proof.
  unfold Box.render_to_buffer, Box.half_gap, Box.half_gap_less_one.
  repeat first [apply quiet_sprite | quiet_step].
Qed.

Lemma quiet_bar (pb : ProgressBar.t) (row column bh bw : Z) :
  quiet (ProgressBar.render_to_buffer pb row column bh bw).
Proof. unfold ProgressBar.render_to_buffer. repeat quiet_step. Qed.

Lemma returns_only_ret {A} (x : A) : returns_only (ret x) x.
Proof. intros wd a E. cbn in E. congruence. Qed.

Lemma returns_only_bind {A B} (m : M A) (k : A -> M B) (x : B) :
  (forall a, returns_only (k a) x) -> returns_only (y <- m ;; k y) x.
Proof.
  intros Hk wd b. unfold bind. destruct (m wd) as [[e|a] wd1]; cbn [fst].
  - discriminate.
  - apply Hk.
Qed.

(** C2, as the claim states it, fails.  On a dialog that is complete and
    destroys itself when complete, the next rendering does not ask the screen
    to delete it and draws the label and the full bar; and once the flag
    [__destroy] is set, a rendering asks for the deletion and draws all the
    same. *)
Lemma ProgressDialog_complete_still_drawn :
  ~ deleted_instead_of_drawn Sample.object_eq
      (ProgressDialog._build_cache Sample.progress_dialog)
      0 0 2 2 (Sample.blank 2 2) /\
  ~ deleted_instead_of_drawn Sample.object_eq
      (ProgressDialog.assign_destroy
         (ProgressDialog._build_cache Sample.progress_dialog) true)
      0 0 2 2 (Sample.blank 2 2).
Proof.
  split; intros (d' & E); vm_compute in E; discriminate E.
Qed.

(** C2, amended.  On a progress dialog that destroys itself when complete
    and whose value equals its maximum: a rendering that finds the flag
    [__destroy] unset makes no call to the screen and, when it returns, has
    set the flag; a rendering that finds the flag set asks the screen to
    delete the dialog at [(row, column)] and then does all that a rendering
    with the flag unset does, drawing included. *)
Theorem ProgressDialog_render_when_complete :
  forall (Text_eq : Text.t -> string -> bool) (d : ProgressDialog.t)
         (row column bh bw : Z) (wd : World),
    ProgressDialog.destroy_on_complete d = true ->
    ProgressDialog.__value d = ProgressDialog.__maximum d ->
    (ProgressDialog.__destroy d = false ->
       screen (ProgressDialog.render_to_buffer Text_eq d row column bh bw wd).2
       = screen wd /\
       forall d',
         (ProgressDialog.render_to_buffer Text_eq d row column bh bw wd).1
         = Returned d' ->
         d' = ProgressDialog.assign_destroy d true) /\
    (ProgressDialog.__destroy d = true ->
       ProgressDialog.render_to_buffer Text_eq d row column bh bw wd
       = ProgressDialog.render_to_buffer Text_eq
           (ProgressDialog.assign_destroy d false) row column bh bw
           (called (UiConfig.game (ProgressDialog.config d))
              (delete row column) wd)).
Proof.
  intros Text_eq d row column bh bw wd Hdoc Hv. split.
  - intros Hd. split.
    + revert wd. change (quiet (ProgressDialog.render_to_buffer Text_eq d row column bh bw)).
      unfold ProgressDialog.render_to_buffer. rewrite Hd.
      repeat first [apply quiet_sprite | apply quiet_box | apply quiet_bar | quiet_step].
    + revert wd.
      change (returns_only (ProgressDialog.render_to_buffer Text_eq d row column bh bw)
                (ProgressDialog.assign_destroy d true)).
      unfold ProgressDialog.render_to_buffer.
      rewrite Hdoc, Hv, Z.eqb_refl. cbn [andb].
      repeat (apply returns_only_bind; intros ?). apply returns_only_ret.
  - intros Hd. unfold ProgressDialog.render_to_buffer.
    rewrite Hd.
    cbn [ProgressDialog.assign_destroy ProgressDialog.__destroy
         ProgressDialog.config ProgressDialog.super ProgressDialog.__width
         ProgressDialog._cache ProgressDialog.destroy_on_complete
         ProgressDialog.__value ProgressDialog.__maximum].
    rewrite Hdoc, Hv, Z.eqb_refl. cbn [andb].
    destruct d; reflexivity.
Qed.

Lemma ProgressDialog_render_when_complete_witness :
  ProgressDialog.render_to_buffer Sample.object_eq
    (ProgressDialog.assign_destroy
       (ProgressDialog._build_cache Sample.progress_dialog) true)
    0 0 2 2 (Sample.blank 2 2)
  = ProgressDialog.render_to_buffer Sample.object_eq
      (ProgressDialog.assign_destroy
         (ProgressDialog.assign_destroy
            (ProgressDialog._build_cache Sample.progress_dialog) true) false)
      0 0 2 2
      (called (UiConfig.game Sample.config) (delete 0 0) (Sample.blank 2 2)).
Proof.
  apply (ProgressDialog_render_when_complete Sample.object_eq
           (ProgressDialog.assign_destroy
              (ProgressDialog._build_cache Sample.progress_dialog) true)
           0 0 2 2 (Sample.blank 2 2)); reflexivity.
Defined.

(** ** The claims on the input dialogs *)

Lemma eqb_nonempty (s : string) : s <> EmptyString -> String.eqb s EmptyString = false.
Proof. intros H. apply String.eqb_neq. exact H. Qed.

Section LineInput.

Variables (d : LineInputDialog.t) (wd : World) (polls : list Keystroke.t).

Lemma line_loop_timeouts (n : nat) :
  LineInputDialog.loop (replicate n timeout ++ polls) d wd
  = LineInputDialog.loop polls d wd.
Proof. induction n as [|n IH]; [reflexivity|]. exact IH. Qed.

Lemma line_loop_enter (k : Keystroke.t) :
  Keystroke.name k = Some "KEY_ENTER" -> Keystroke.str k <> EmptyString ->
  LineInputDialog.loop (k :: polls) d wd
  = Finished (Returned (LineInputDialog.user_input d)) (d, wd).
Proof.
  intros Hn Hs. cbn [LineInputDialog.loop]. rewrite (eqb_nonempty _ Hs).
  unfold Keystroke.name_is. rewrite Hn. reflexivity.
Qed.

Lemma line_loop_backspace (k : Keystroke.t) :
  Keystroke.name k = Some "KEY_BACKSPACE" -> Keystroke.str k <> EmptyString ->
  LineInputDialog.loop (k :: polls) d wd
  = LineInputDialog.loop polls
      (with_input d (drop_last (LineInputDialog.user_input d)))
      (redraw (UiConfig.game (LineInputDialog.config d)) wd).
Proof.
  intros Hn Hs. cbn [LineInputDialog.loop]. rewrite (eqb_nonempty _ Hs).
  unfold Keystroke.name_is. rewrite Hn. reflexivity.
Qed.

Lemma line_loop_char (k : Keystroke.t) :
  Keystroke.name k = None -> Keystroke.str k <> EmptyString ->
  accepts (LineInputDialog.__filter d) k = true ->
  LineInputDialog.loop (k :: polls) d wd
  = LineInputDialog.loop polls
      (with_input d (String.append (LineInputDialog.user_input d) (Keystroke.str k)))
      (redraw (UiConfig.game (LineInputDialog.config d)) wd).
Proof.
  intros Hn Hs Ha. cbn [LineInputDialog.loop]. rewrite (eqb_nonempty _ Hs).
  unfold Keystroke.name_is. rewrite Hn. cbn [orb].
  unfold accepts in Ha. rewrite Ha. reflexivity.
Qed.

End LineInput.

Lemma line_init_empty (label config : PyObj) (d : LineInputDialog.t) :
  LineInputDialog.__init__ label EmptyString constants.PRINTABLE_FILTER config = Returned d ->
  LineInputDialog.user_input d = EmptyString /\
  LineInputDialog.__filter d = constants.PRINTABLE_FILTER.
Proof.
  unfold LineInputDialog.__init__. destruct config; cbn; try discriminate.
  destruct label; cbn; try discriminate; intros E; injection E as <-; split; reflexivity.
Qed.

(** C6.  A line dialog built with an empty default and the printable filter,
    whose [show()] reads the keys a, b, c, Backspace and Enter, with any
    number of polls that time out before each of them, returns "ab".  Each
    printable key was appended to the input, Backspace dropped its last
    character and Enter ended the loop, returning the input.  When the input
    is empty Backspace leaves it empty: on Backspace and Enter alone [show()]
    returns the empty string. *)
Theorem LineInputDialog_show_returns_ab :
  forall (label config : PyObj) (d : LineInputDialog.t)
         (backspace enter : Keystroke.t) (n0 n1 n2 n3 n4 : nat)
         (rest : list Keystroke.t) (wd : World),
    LineInputDialog.__init__ label EmptyString constants.PRINTABLE_FILTER config = Returned d ->
    Keystroke.name backspace = Some "KEY_BACKSPACE" -> Keystroke.str backspace <> EmptyString ->
    Keystroke.name enter = Some "KEY_ENTER" -> Keystroke.str enter <> EmptyString ->
    (exists wd',
       LineInputDialog.show d
         (replicate n0 timeout ++ char_key "a" ::
          replicate n1 timeout ++ char_key "b" ::
          replicate n2 timeout ++ char_key "c" ::
          replicate n3 timeout ++ backspace ::
          replicate n4 timeout ++ enter :: rest) wd
       = Finished (Returned "ab") (with_input d "ab", wd')) /\
    (exists wd',
       LineInputDialog.show d (backspace :: enter :: rest) wd
       = Finished (Returned EmptyString) (with_input d EmptyString, wd')).
Proof.
  intros label config d backspace enter n0 n1 n2 n3 n4 rest wd Hinit Hb1 Hb2 He1 He2.
  destruct (line_init_empty _ _ _ Hinit) as [Hu Hf].
  split; eexists; unfold LineInputDialog.show.
  - rewrite line_loop_timeouts.
    rewrite line_loop_char; [|reflexivity|discriminate|cbn [with_input LineInputDialog.__filter]; rewrite Hf; reflexivity].
    rewrite line_loop_timeouts.
    rewrite line_loop_char; [|reflexivity|discriminate|cbn [with_input LineInputDialog.__filter]; rewrite Hf; reflexivity].
    rewrite line_loop_timeouts.
    rewrite line_loop_char; [|reflexivity|discriminate|cbn [with_input LineInputDialog.__filter]; rewrite Hf; reflexivity].
    rewrite line_loop_timeouts.
    rewrite line_loop_backspace by assumption.
    rewrite line_loop_timeouts.
    rewrite line_loop_enter by assumption.
    unfold LineInputDialog.user_input, Dialog.user_input in *.
    cbn [with_input LineInputDialog.super Dialog._user_input].
    rewrite Hu. reflexivity.
  - rewrite line_loop_backspace by assumption.
    rewrite line_loop_enter by assumption.
    unfold LineInputDialog.user_input, Dialog.user_input in *.
    cbn [with_input LineInputDialog.super Dialog._user_input].
    rewrite Hu. reflexivity.
Qed.

Lemma LineInputDialog_show_returns_ab_witness :
  exists d wd',
    LineInputDialog.__init__ (PyStr "Input a value:") EmptyString
      constants.PRINTABLE_FILTER (PyUiConfig Sample.config) = Returned d /\
    LineInputDialog.show d
      (replicate 2 timeout ++ char_key "a" ::
       replicate 0 timeout ++ char_key "b" ::
       replicate 1 timeout ++ char_key "c" ::
       replicate 0 timeout ++ Sample.backspace ::
       replicate 3 timeout ++ Sample.enter :: []) (Sample.blank 1 1)
    = Finished (Returned "ab") (with_input d "ab", wd').
Proof.
  eexists.
  destruct (LineInputDialog_show_returns_ab (PyStr "Input a value:")
              (PyUiConfig Sample.config) _ Sample.backspace Sample.enter
              2 0 1 0 3 [] (Sample.blank 1 1) eq_refl eq_refl
              ltac:(discriminate) eq_refl ltac:(discriminate))
    as [[wd' E] _].
  exists wd'. split; [reflexivity|exact E].
Defined.

(** *** MultiLineInputDialog *)

Lemma multi_loop_waiting_inv (pre : list Keystroke.t) :
  forall (d : MultiLineInputDialog.t) (wd : World)
         (d1 : MultiLineInputDialog.t) (wd1 : World),
    MultiLineInputDialog.loop pre d wd = Waiting (d1, wd1) ->
    length (MultiLineInputDialog.__fields d1) = length (MultiLineInputDialog.__fields d) /\
    forall rest,
      MultiLineInputDialog.loop (pre ++ rest) d wd
      = MultiLineInputDialog.loop rest d1 wd1.
Proof.
  induction pre as [|k pre IH]; intros d wd d1 wd1 H.
  - cbn in H. injection H as <- <-. split; reflexivity.
  - cbn [MultiLineInputDialog.loop app] in H |- *.
    destruct (String.eqb (Keystroke.str k) EmptyString); [exact (IH _ _ _ _ H)|].
    destruct (Keystroke.name_is k "KEY_ENTER"); [discriminate H|].
    destruct (Keystroke.name_is k "KEY_TAB").
    { destruct (Py.len_list _ =? 0); [discriminate H|]. exact (IH _ _ _ _ H). }
    destruct (Keystroke.name_is k "KEY_ESCAPE"); [discriminate H|].
    destruct (Keystroke.name_is k "KEY_BACKSPACE" || Keystroke.name_is k "KEY_DELETE").
    { destruct (MultiLineInputDialog.current d) as [e|[i field]]; [discriminate H|].
      destruct (IH _ _ _ _ H) as [Hlen Happ]. split; [|exact Happ].
      rewrite Hlen. cbn [MultiLineInputDialog.assign_fields MultiLineInputDialog.__fields].
      apply length_insert. }
    destruct (MultiLineInputDialog.current d) as [e|[i field]]; [discriminate H|].
    match type of H with
    | (if ?b then _ else _) = _ => destruct b
    end.
    + destruct (IH _ _ _ _ H) as [Hlen Happ]. split; [|exact Happ].
      rewrite Hlen. cbn [MultiLineInputDialog.assign_fields MultiLineInputDialog.__fields].
      apply length_insert.
    + exact (IH _ _ _ _ H).
Qed.

(** C7.  When [show()] of a multi-line dialog of N fields, after keys that
    left it waiting for the next one, reads Escape: it returns the fields,
    still N of them, with the input of every one of them the empty string,
    whatever field was current; the keys that follow are not read. *)
Theorem MultiLineInputDialog_escape_clears_every_field :
  forall (d : MultiLineInputDialog.t) (before after : list Keystroke.t)
         (escape : Keystroke.t) (wd : World)
         (d1 : MultiLineInputDialog.t) (wd1 : World),
    Keystroke.name escape = Some "KEY_ESCAPE" -> Keystroke.str escape <> EmptyString ->
    MultiLineInputDialog.show d before wd = Waiting (d1, wd1) ->
    exists d2,
      MultiLineInputDialog.show d (before ++ escape :: after) wd
      = Finished (Returned (MultiLineInputDialog.__fields d2)) (d2, wd1) /\
      MultiLineInputDialog.__fields d2 = cleared <$> MultiLineInputDialog.__fields d1 /\
      length (MultiLineInputDialog.__fields d2) = length (MultiLineInputDialog.__fields d) /\
      Forall (fun field => MultiLineInputDialog.Field.user_input field = EmptyString)
        (MultiLineInputDialog.__fields d2).
Proof.
  intros d before after escape wd d1 wd1 Hn Hs Hrun.
  unfold MultiLineInputDialog.show in *.
  destruct (multi_loop_waiting_inv _ _ _ _ _ Hrun) as [Hlen Happ].
  rewrite Happ. cbn [MultiLineInputDialog.loop].
  rewrite (eqb_nonempty _ Hs). unfold Keystroke.name_is. rewrite Hn.
  cbn [String.eqb Ascii.eqb Bool.eqb andb].
  eexists. split; [reflexivity|].
  cbn [MultiLineInputDialog.assign_fields MultiLineInputDialog.__fields].
  split; [reflexivity|]. split.
  - rewrite length_fmap. exact Hlen.
  - apply Forall_fmap. apply Forall_forall. intros field _. reflexivity.
Qed.

Lemma MultiLineInputDialog_escape_clears_every_field_witness :
  exists d2 wd1,
    MultiLineInputDialog.show Sample.multi_dialog (Sample.keys ++ Sample.escape :: [])
      (Sample.blank 1 1)
    = Finished (Returned (MultiLineInputDialog.__fields d2)) (d2, wd1) /\
    length (MultiLineInputDialog.__fields d2) = 3%nat /\
    Forall (fun field => MultiLineInputDialog.Field.user_input field = EmptyString)
      (MultiLineInputDialog.__fields d2).
Proof.
  eassert (Hrun : MultiLineInputDialog.show Sample.multi_dialog Sample.keys
                    (Sample.blank 1 1) = Waiting (_, _))
    by (vm_compute; reflexivity).
  destruct (MultiLineInputDialog_escape_clears_every_field Sample.multi_dialog
              Sample.keys [] Sample.escape (Sample.blank 1 1) _ _
              eq_refl ltac:(discriminate) Hrun)
    as (d2 & E & _ & Hlen & Hall).
  exists d2. eexists. split; [exact E|]. split; [exact Hlen|exact Hall].
Defined.

(** * Further properties of the module *)

(** ** UiConfig and the constructors of the dialogs *)

(** X1.  [UiConfig.instance] builds the configuration once.  A first call
    whose arguments have a game stores what the constructor makes of them,
    and every later call returns that same configuration, whatever its
    arguments, those that the constructor refuses included.  A first call
    whose arguments have no game raises and leaves the class without an
    instance, so that the next call constructs again. *)
Theorem UiConfig_instance_built_once :
  forall (args1 args2 args3 : UiConfig.Args.t) (c : UiConfig.t)
         (cls : option UiConfig.t),
    UiConfig.instance None args1 = (Returned c, cls) ->
    UiConfig.Args.game args3 = None ->
    UiConfig.__init__ args1 = Returned c /\
    cls = Some c /\
    UiConfig.instance cls args2 = (Returned c, cls) /\
    UiConfig.instance None args3
    = (Raised (PglInvalidTypeException
                 "UiConfig: the 'game' parameter cannot be None."), None).
Proof.
  intros args1 args2 args3 c cls H Hg. unfold UiConfig.instance in H.
  destruct (UiConfig.__init__ args1) as [e|c1] eqn:E; [discriminate H|].
  injection H as <- <-.
  split; [reflexivity|]. split; [reflexivity|]. split; [reflexivity|].
  unfold UiConfig.instance, UiConfig.__init__. rewrite Hg. reflexivity.
Qed.

Lemma UiConfig_instance_built_once_witness :
  UiConfig.__init__ Sample.args = Returned Sample.config /\
  Some Sample.config = Some Sample.config /\
  UiConfig.instance (Some Sample.config) Sample.args_without_game
  = (Returned Sample.config, Some Sample.config) /\
  UiConfig.instance None Sample.args_without_game
  = (Raised (PglInvalidTypeException
               "UiConfig: the 'game' parameter cannot be None."), None).
Proof.
  apply (UiConfig_instance_built_once Sample.args Sample.args_without_game
           Sample.args_without_game Sample.config (Some Sample.config)).
  - reflexivity.
  - reflexivity.
Defined.

(** X2.  Every dialog checks its configuration before anything else: with a
    [config] that is not a [UiConfig] object ([None] included) the
    constructors of [Dialog], [ProgressDialog], [LineInputDialog] and
    [MultiLineInputDialog] raise the same [PglInvalidTypeException], also
    when the label is of a wrong type; and [MessageDialog], whose
    constructor gives no configuration, cannot be constructed at all. *)
Theorem Dialog_constructors_check_config_first :
  forall (config : PyObj),
    (forall c, config <> PyUiConfig c) ->
    let e := PglInvalidTypeException
      "The config parameter cannot be None and needs to be a UiConfig object." in
    Dialog.__init__ config = Raised e /\
    (forall label value maximum width progress_marker empty_marker
            adaptive_width destroy_on_complete,
       ProgressDialog.__init__ label value maximum width progress_marker
         empty_marker adaptive_width destroy_on_complete config = Raised e) /\
    (forall label default filter,
       LineInputDialog.__init__ label default filter config = Raised e) /\
    (forall fields, MultiLineInputDialog.__init__ fields config = Raised e) /\
    MessageDialog.__init__ = Raised e.
Proof.
  intros config Hc e.
  assert (E : Dialog.__init__ config = Raised e).
  { destruct config; try reflexivity. destruct (Hc c eq_refl). }
  split; [exact E|].
  split; [intros; unfold ProgressDialog.__init__; rewrite E; reflexivity|].
  split; [intros; unfold LineInputDialog.__init__; rewrite E; reflexivity|].
  split; [intros; unfold MultiLineInputDialog.__init__; rewrite E; reflexivity|].
  reflexivity.
Qed.

Lemma Dialog_constructors_check_config_first_witness :
  LineInputDialog.__init__ (PyInt 3) EmptyString constants.PRINTABLE_FILTER PyNone
  = Raised (PglInvalidTypeException
      "The config parameter cannot be None and needs to be a UiConfig object.").
Proof.
  apply (Dialog_constructors_check_config_first PyNone).
  intros c. discriminate.
Defined.

(** ** Box: the setters *)

(** X3.  Each setter of [Box] rebuilds every entry of the cache: the box
    that [config], [title], [width] or [height] was assigned to is the box
    that the constructor builds from the attributes as they now are,
    whatever its cache held before. *)
Theorem Box_setter_gives_the_box_built_anew :
  forall (b : Box.t),
    (forall c : UiConfig.t,
       Box.config_setter b (PyUiConfig c)
       = Returned (Box.__init__ (Box.width b) (Box.height b) (Box.title b) c)) /\
    (forall v : text_or_str,
       Box.title_setter b (as_obj v)
       = Returned (Box.__init__ (Box.width b) (Box.height b) v (Box.config b))) /\
    (forall w : Z,
       Box.width_setter b (PyInt w)
       = Returned (Box.__init__ w (Box.height b) (Box.title b) (Box.config b))) /\
    (forall h : Z,
       Box.height_setter b (PyInt h)
       = Returned (Box.__init__ (Box.width b) h (Box.title b) (Box.config b))).
Proof.
  intros b. split; [|split; [|split]].
  - intros c. reflexivity.
  - intros [t|s]; reflexivity.
  - intros w. reflexivity.
  - intros h. reflexivity.
Qed.

(** ** Box: the title in the top row *)

Section BoxTitle.

Variables bh bw : Z.
Variable Text_eq : Text.t -> string -> bool.
Variable s : Box.t.
Variables row column : Z.
Variables wd wd' : World.

Hypothesis Hsound : forall t, Text_eq t EmptyString = true -> Text.text t = EmptyString.
Hypothesis HH : 2 <= Box.__height s.
Hypothesis Hl : title_len s < Box.__width s.
Hypothesis Hcell : forall r c,
  cell (buffer wd') r c =
  match box_paint Text_eq s row column r c with
  | Some x => Some x
  | None => cell (buffer wd) r c
  end.

(** The cells of the top row between the corners, after the rendering. *)
Lemma top_row_between_corners (c : Z) :
  column < c < column + Box.__width s - 1 ->
  cell (buffer wd') row c =
    if (column + 1 + title_offset (Box.__width s) (title_len s) <=? c)
       && (c <? column + 1 + title_offset (Box.__width s) (title_len s)
                + title_len s)
    then Sprite.from_text (title_of s)
           !! Z.to_nat (c - (column + 1
                             + title_offset (Box.__width s) (title_len s)))
    else Some (border_cell (Box.__config s)
                 (UiConfig.box_horizontal_border (Box.__config s))).
Proof.
  intros Hc. rewrite Hcell, box_paint_top by lia.
  rewrite top_paint_row; [|lia..| |lia].
  - destruct ((column + 1 + title_offset (Box.__width s) (title_len s) <=? c)
              && (c <? column + 1 + title_offset (Box.__width s) (title_len s)
                       + title_len s)) eqn:Ein; [|reflexivity].
    apply andb_prop in Ein as [E1 E2].
    apply Z.leb_le in E1. apply Z.ltb_lt in E2.
    pose proof (length_from_text (title_of s)) as E'. fold (title_len s) in E'.
    destruct (lookup_lt_is_Some_2 (Sprite.from_text (title_of s))
                (Z.to_nat (c - (column + 1
                      + title_offset (Box.__width s) (title_len s))))
                ltac:(lia)) as [x Ex].
    rewrite Ex. reflexivity.
  - intros Heq. apply Hsound in Heq. unfold title_len. rewrite Heq. reflexivity.
Qed.

End BoxTitle.

(** X4.  The title of a box is centred in its top row.  For a box of width
    [W] whose title has [l <= W - 2] characters, rendered inside the buffer,
    the top row reads: the top-left corner, [floor ((W - 2 - l) / 2)] cells
    of horizontal border, the [l] cells of the title, the cells of
    horizontal border that remain ([W - 2 - l] less those on the left, that
    is one more than on the left when [W - l] is odd), the top-right corner.
    No cell between the corners is left as it was. *)
Theorem Box_title_is_centred :
  forall (bh bw : Z) (Text_eq : Text.t -> string -> bool) (s : Box.t)
         (row column : Z) (wd : World),
    (forall t, Text_eq t EmptyString = true -> Text.text t = EmptyString) ->
    2 <= Box.__width s < 2 ^ 53 -> 2 <= Box.__height s ->
    title_len s <= Box.__width s - 2 ->
    0 <= row -> row + Box.__height s <= bh ->
    0 <= column -> column + Box.__width s <= bw ->
    rect bh bw (buffer wd) ->
    top_row_split
      ((Box.__width s - 2 - title_len s) / 2)
      (Box.__width s - 2 - title_len s - (Box.__width s - 2 - title_len s) / 2)
      Text_eq s row column bh bw wd.
Proof.
  intros bh bw Text_eq s row column wd Hsound HW HH Hl Hr1 Hr2 Hc1 Hc2 Hrect.
  pose proof (len_nonneg (Text.text (title_of s))) as Hn.
  fold (title_len s) in Hn.
  assert (Hoff : title_offset (Box.__width s) (title_len s)
                 = (Box.__width s - 2 - title_len s) / 2).
  { unfold title_offset. apply Z.quot_div_nonneg; lia. }
  assert (Hnl : 2 * ((Box.__width s - 2 - title_len s) / 2)
                <= Box.__width s - 2 - title_len s
                < 2 * ((Box.__width s - 2 - title_len s) / 2) + 2).
  { Z.to_euclidean_division_equations. lia. }
  destruct (Box_render_paints bh bw Text_eq s row column HW HH ltac:(lia)
              Hr1 Hr2 Hc1 Hc2 wd Hrect) as (wd' & E & Hrect' & Hs & Hcell).
  pose proof (top_row_between_corners Text_eq s row column wd wd' Hsound HH
                ltac:(lia) Hcell) as Htop.
  rewrite Hoff in Htop.
  set (nl := (Box.__width s - 2 - title_len s) / 2) in *.
  exists wd'. rewrite length_from_text. fold (title_len s).
  split; [exact E|].
  split; [rewrite Hcell, box_paint_top_left by lia; reflexivity|].
  split.
  { intros c Hc. rewrite Htop by lia. settle. reflexivity. }
  split.
  { intros i Hi. rewrite Htop by lia. settle. f_equal. lia. }
  split.
  { intros c Hc. rewrite Htop by lia. settle. reflexivity. }
  replace (column + 1 + nl + title_len s
           + (Box.__width s - 2 - title_len s - nl))
    with (column + Box.__width s - 1) by lia.
  rewrite Hcell, box_paint_top_right by lia. reflexivity.
Qed.

Lemma Box_title_is_centred_witness :
  top_row_split 3 4 Sample.object_eq (Sample.box 12 3 "abc") 1 2 4 16
    (Sample.blank 4 16).
Proof.
  apply (Box_title_is_centred 4 16 Sample.object_eq (Sample.box 12 3 "abc")
           1 2 (Sample.blank 4 16)).
  - intros t Heq. discriminate Heq.
  - cbn. lia.
  - cbn. lia.
  - vm_compute. discriminate.
  - lia.
  - cbn. lia.
  - lia.
  - cbn. lia.
  - split; [reflexivity | repeat constructor].
Defined.

(** X5.  Nothing shortens a title.  When the title of a box of width [W]
    has [W - 1] characters, one more than there are cells between the
    corners, it starts right after the top-left corner, fills every cell up
    to the top-right corner, and its last character is overwritten by that
    corner. *)
Theorem Box_title_one_too_long_is_cut_by_corner :
  forall (bh bw : Z) (Text_eq : Text.t -> string -> bool) (s : Box.t)
         (row column : Z) (wd : World),
    (forall t, Text_eq t EmptyString = true -> Text.text t = EmptyString) ->
    2 <= Box.__width s < 2 ^ 53 -> 2 <= Box.__height s ->
    title_len s = Box.__width s - 1 ->
    0 <= row -> row + Box.__height s <= bh ->
    0 <= column -> column + Box.__width s <= bw ->
    rect bh bw (buffer wd) ->
    exists wd',
      Box.render_to_buffer Text_eq (Box._build_cache s) row column bh bw wd
      = (Returned tt, wd') /\
      cell (buffer wd') row column
      = Some (border_cell (Box.__config s)
                (UiConfig.box_top_left_corner (Box.__config s))) /\
      (forall i, 0 <= i < Box.__width s - 2 ->
         cell (buffer wd') row (column + 1 + i)
         = Sprite.from_text (title_of s) !! Z.to_nat i) /\
      cell (buffer wd') row (column + Box.__width s - 1)
      = Some (border_cell (Box.__config s)
                (UiConfig.box_top_right_corner (Box.__config s))).
Proof.
  intros bh bw Text_eq s row column wd Hsound HW HH Hl Hr1 Hr2 Hc1 Hc2 Hrect.
  assert (Hoff : title_offset (Box.__width s) (title_len s) = 0).
  { unfold title_offset. rewrite Hl.
    replace (Box.__width s - 2 - (Box.__width s - 1)) with (-1) by lia.
    reflexivity. }
  destruct (Box_render_paints bh bw Text_eq s row column HW HH ltac:(lia)
              Hr1 Hr2 Hc1 Hc2 wd Hrect) as (wd' & E & Hrect' & Hs & Hcell).
  pose proof (top_row_between_corners Text_eq s row column wd wd' Hsound HH
                ltac:(lia) Hcell) as Htop.
  rewrite Hoff in Htop.
  exists wd'. split; [exact E|].
  split; [rewrite Hcell, box_paint_top_left by lia; reflexivity|].
  split.
  { intros i Hi. rewrite Htop by lia. settle. f_equal. lia. }
  rewrite Hcell, box_paint_top_right by lia. reflexivity.
Qed.

Lemma Box_title_one_too_long_is_cut_by_corner_witness :
  exists wd',
    Box.render_to_buffer Sample.object_eq
      (Box._build_cache (Sample.box 4 2 "abc")) 0 0 2 4 (Sample.blank 2 4)
    = (Returned tt, wd') /\
    cell (buffer wd') 0 0
    = Some (border_cell Sample.config "1") /\
    (forall i, 0 <= i < 2 ->
       cell (buffer wd') 0 (0 + 1 + i)
       = Sprite.from_text (title_of (Sample.box 4 2 "abc")) !! Z.to_nat i) /\
    cell (buffer wd') 0 3 = Some (border_cell Sample.config "2").
Proof.
  apply (Box_title_one_too_long_is_cut_by_corner 2 4 Sample.object_eq
           (Sample.box 4 2 "abc") 0 0 (Sample.blank 2 4)).
  - intros t Heq. discriminate Heq.
  - cbn. lia.
  - cbn. lia.
  - reflexivity.
  - lia.
  - cbn. lia.
  - lia.
  - cbn. lia.
  - split; [reflexivity | repeat constructor].
Defined.

(** ** Renderings that raise *)

Section Raising.

Variables h w : Z.

Lemma raises_ext {A} (m : M A) (e : exn) (g g' : paint) :
  (forall r c, g r c = g' r c) ->
  raises_after h w m e g -> raises_after h w m e g'.
Proof.
  intros E Hm wd Hr. destruct (Hm wd Hr) as (wd' & Em & Hr' & Hs & Hc).
  exists wd'. split; [assumption|]. split; [assumption|]. split; [assumption|].
  intros r c. rewrite <- E. apply Hc.
Qed.

Lemma raises_first {A B} (m : M A) (k : A -> M B) (e : exn) (g : paint) :
  raises_after h w m e g -> raises_after h w (x <- m ;; k x) e g.
Proof.
  intros Hm wd Hr. destruct (Hm wd Hr) as (wd' & Em & Hp).
  exists wd'. split; [|exact Hp]. unfold bind. rewrite Em. reflexivity.
Qed.

Lemma raises_second {B} (m : M unit) (k : M B) (e : exn) (g1 g2 : paint) :
  paints h w m g1 -> raises_after h w k e g2 ->
  raises_after h w (m ;; k) e (over g2 g1).
Proof.
  intros Hm Hk wd Hr.
  destruct (Hm wd Hr) as (wd1 & E1 & Hr1 & Hs1 & Hc1).
  destruct (Hk wd1 Hr1) as (wd2 & E2 & Hr2 & Hs2 & Hc2).
  exists wd2. split.
  - unfold bind. rewrite E1. exact E2.
  - split; [assumption|]. split; [congruence|].
    intros r c. unfold over. rewrite Hc2.
    destruct (g2 r c); [reflexivity|]. apply Hc1.
Qed.

Lemma raises_pure {A B} (m : M A) (a : A) (k : A -> M B) (e : exn) (g : paint) :
  (forall wd, m wd = (Returned a, wd)) ->
  raises_after h w (k a) e g -> raises_after h w (x <- m ;; k x) e g.
Proof.
  intros Hm H wd Hr. destruct (H wd Hr) as (wd' & E & Hp).
  exists wd'. split; [|assumption]. unfold bind. rewrite Hm. exact E.
Qed.

Lemma raises_lift {A B} (e : exn) (k : A -> M B) :
  raises_after h w (x <- lift (Raised e) ;; k x) e nothing.
Proof.
  intros wd Hr. exists wd. split; [reflexivity|].
  split; [assumption|]. split; reflexivity.
Qed.

(** A write in a row of the buffer, at a column that the row has not. *)
Lemma raises_setitem_column (r c : Z) (x : Sprixel.t) :
  0 <= r < h -> c < - w \/ w <= c ->
  raises_after h w (setitem r c x) IndexError nothing.
Proof.
  intros Hr Hc wd [Hlen Hall]. unfold setitem, Py.index.
  destruct (Z.leb_spec 0 r) as [_|]; [|lia].
  destruct (Z.ltb_spec r (Z.of_nat (length (buffer wd)))) as [_|]; [|lia].
  cbn [andb].
  destruct (lookup_lt_is_Some_2 (buffer wd) (Z.to_nat r) ltac:(lia)) as [line El].
  rewrite El.
  assert (Hline : Z.of_nat (length line) = w).
  { rewrite Forall_forall in Hall. apply Hall.
    apply list_elem_of_lookup. eauto. }
  rewrite Hline.
  assert (E1 : (0 <=? c) && (c <? w) = false).
  { destruct (Z.leb_spec 0 c), (Z.ltb_spec c w); cbn; try reflexivity; lia. }
  assert (E2 : (- w <=? c) && (c <? 0) = false).
  { destruct (Z.leb_spec (- w) c), (Z.ltb_spec c 0); cbn; try reflexivity; lia. }
  rewrite E1, E2. exists wd. split; [reflexivity|].
  split; [split; assumption|]. split; reflexivity.
Qed.

(** A write in a row that the buffer has not. *)
Lemma raises_setitem_row (r c : Z) (x : Sprixel.t) :
  r < - h \/ h <= r ->
  raises_after h w (setitem r c x) IndexError nothing.
Proof.
  intros Hr wd [Hlen Hall]. unfold setitem, Py.index. rewrite Hlen.
  assert (E1 : (0 <=? r) && (r <? h) = false).
  { destruct (Z.leb_spec 0 r), (Z.ltb_spec r h); cbn; try reflexivity; lia. }
  assert (E2 : (- h <=? r) && (r <? 0) = false).
  { destruct (Z.leb_spec (- h) r), (Z.ltb_spec r 0); cbn; try reflexivity; lia. }
  rewrite E1, E2. exists wd. split; [reflexivity|].
  split; [split; assumption|]. split; reflexivity.
Qed.

(** A loop that fills a row beyond its last cell: the cells of the row are
    written, and the write after the last one raises. *)
Lemma raises_hline (r off : Z) (x : Sprixel.t) (a b : Z) :
  0 <= r < h -> 0 <= off + a <= w -> w < off + b ->
  raises_after h w (for_ (Py.range a b) (fun c => setitem r (off + c) x))
    IndexError (hline r (off + a) w x).
Proof.
  intros Hr. revert a b.
  apply (range_ind (fun a b => 0 <= off + a <= w -> w < off + b -> _)).
  - intros a b Hab Ha Hb. lia.
  - intros a b Hab IH Ha Hb. rewrite range_cons by assumption. cbn [for_].
    destruct (Z.eq_dec (off + a) w) as [Heq|Hne].
    + eapply raises_ext; [|apply raises_first; apply raises_setitem_column; lia].
      intros r' c'. unfold nothing, hline.
      destruct (r' =? r), (Z.leb_spec (off + a) c'), (Z.ltb_spec c' w);
        cbn; try reflexivity; lia.
    + eapply raises_ext; [|apply raises_second;
        [apply (paints_setitem h w r (off + a) x); lia | apply IH; lia]].
      intros r' c'. unfold over, hline, dot.
      destruct (Z.eqb_spec r' r), (Z.leb_spec (off + (a + 1)) c'),
        (Z.ltb_spec c' w), (Z.eqb_spec c' (off + a)),
        (Z.leb_spec (off + a) c'); cbn; try reflexivity; lia.
Qed.

End Raising.

(** ** ProgressBar: the rendering *)

Section BarFacts.

Variables bh bw : Z.
Variable s : ProgressBar.t.
Variables row column : Z.

Local Abbreviation V := (ProgressBar.__value s).
Local Abbreviation W := (ProgressBar.__width s).
Local Abbreviation Mx := (ProgressBar.__maximum s).

Hypothesis HM : 0 < Mx.
Hypothesis HV : 0 <= V.
Hypothesis HW : 0 <= W.
Hypothesis Hb : V * W < 2 ^ 53.

Lemma bar_progress_bounds : 0 <= bar_progress s <= W.
Proof.
  unfold bar_progress.
  assert (0 <= V * W / Mx) by (apply Z.div_pos; nia). lia.
Qed.

(** The two loops of the rendering, once the division has given the number
    of filled cells. *)
Lemma bar_render_loops (wd : World) :
  ProgressBar.render_to_buffer (ProgressBar._build_cache s) row column bh bw wd
  = (for_ (Py.range 0 (bar_progress s))
       (fun c => setitem row (column + c) (filled_cell s)) ;;
     for_ (Py.range (bar_progress s) W)
       (fun c => setitem row (column + c) (empty_cell s))) wd.
Proof.
  destruct (int_truediv_floor (V * W) Mx ltac:(nia) HM) as (q & Eq & Ei).
  unfold ProgressBar.render_to_buffer.
  cbn [ProgressBar._build_cache ProgressBar.__value ProgressBar.__width
       ProgressBar.__maximum ProgressBar._cache ProgressBar.Cache.pb_progress
       ProgressBar.Cache.pb_empty].
  unfold bind at 1, lift at 1. rewrite Eq.
  unfold bind at 1, lift at 1. rewrite Ei.
  reflexivity.
Qed.

Lemma bar_render_paints :
  0 <= row < bh -> 0 <= column -> column + W <= bw ->
  paints bh bw
    (ProgressBar.render_to_buffer (ProgressBar._build_cache s) row column bh bw)
    (over (hline row (column + bar_progress s) (column + W) (empty_cell s))
          (hline row (column + 0) (column + bar_progress s) (filled_cell s))).
Proof.
  intros Hr Hc1 Hc2. pose proof bar_progress_bounds as Hp.
  intros wd Hrect. rewrite bar_render_loops. revert wd Hrect.
  apply paints_bind.
  - exact (paints_hline bh bw row column (filled_cell s) 0 (bar_progress s)
             Hr ltac:(lia) ltac:(lia)).
  - exact (paints_hline bh bw row column (empty_cell s) (bar_progress s) W
             Hr ltac:(lia) ltac:(lia)).
Qed.

Lemma bar_render_shows (wd : World) :
  0 <= row < bh -> 0 <= column -> column + W <= bw ->
  rect bh bw (buffer wd) ->
  bar_shows (bar_progress s) s row column bh bw wd.
Proof.
  intros Hr Hc1 Hc2 Hrect. pose proof bar_progress_bounds as Hp.
  destruct (bar_render_paints Hr Hc1 Hc2 wd Hrect) as (wd' & E & _ & _ & Hcell).
  exists wd'. split; [exact E|].
  intros r c. rewrite Hcell. unfold over, hline.
  destruct (Z.eqb_spec r row); cbn [andb]; [|reflexivity].
  destruct (Z.leb_spec (column + bar_progress s) c), (Z.ltb_spec c (column + W)),
    (Z.leb_spec (column + 0) c), (Z.ltb_spec c (column + bar_progress s)),
    (Z.leb_spec column c); cbn [andb]; try reflexivity; lia.
Qed.

(** The bar reaches beyond the last column of the buffer. *)
Lemma bar_render_overflows :
  0 <= row < bh -> 0 <= column <= bw -> bw < column + W ->
  raises_after bh bw
    (ProgressBar.render_to_buffer (ProgressBar._build_cache s) row column bh bw)
    IndexError
    (fun r c =>
       if (r =? row) && (column <=? c) && (c <? bw)
       then Some (if c <? column + bar_progress s
                  then filled_cell s else empty_cell s)
       else None).
Proof.
  intros Hr Hc1 Hc2. pose proof bar_progress_bounds as Hp.
  intros wd Hrect. rewrite bar_render_loops. revert wd Hrect.
  destruct (Z.lt_ge_cases bw (column + bar_progress s)) as [Hlt|Hge].
  - eapply raises_ext; [|apply raises_first;
      exact (raises_hline bh bw row column (filled_cell s) 0 (bar_progress s)
               Hr ltac:(lia) ltac:(lia))].
    intros r c. unfold hline.
    destruct (Z.eqb_spec r row); cbn [andb]; [|reflexivity].
    destruct (Z.leb_spec (column + 0) c), (Z.ltb_spec c bw),
      (Z.leb_spec column c), (Z.ltb_spec c (column + bar_progress s));
      cbn [andb]; try reflexivity; lia.
  - eapply raises_ext; [|apply raises_second;
      [exact (paints_hline bh bw row column (filled_cell s) 0 (bar_progress s)
                Hr ltac:(lia) ltac:(lia))
      |exact (raises_hline bh bw row column (empty_cell s) (bar_progress s) W
                Hr ltac:(lia) ltac:(lia))]].
    intros r c. unfold over, hline.
    destruct (Z.eqb_spec r row); cbn [andb]; [|reflexivity].
    destruct (Z.leb_spec (column + bar_progress s) c), (Z.ltb_spec c bw),
      (Z.leb_spec (column + 0) c), (Z.ltb_spec c (column + bar_progress s)),
      (Z.leb_spec column c); cbn [andb]; try reflexivity; lia.
Qed.

End BarFacts.

(** X6.  A value at or above the maximum fills the whole bar, and a value
    too small for one cell leaves it empty.  For a bar with [maximum > 0],
    [0 <= value] and [value * width < 2^53], rendered inside the buffer:
    when [maximum <= value] the [width] cells of the bar all hold the filled
    cell; when [value * width < maximum] (the value 0 included) they all hold
    the empty cell.  The other cells of the buffer are as they were. *)
Theorem ProgressBar_full_at_maximum_empty_below_one_cell :
  forall (bh bw : Z) (s : ProgressBar.t) (row column : Z) (wd : World),
    0 < ProgressBar.__maximum s ->
    0 <= ProgressBar.__value s ->
    0 <= ProgressBar.__width s ->
    ProgressBar.__value s * ProgressBar.__width s < 2 ^ 53 ->
    0 <= row < bh -> 0 <= column -> column + ProgressBar.__width s <= bw ->
    rect bh bw (buffer wd) ->
    (ProgressBar.__maximum s <= ProgressBar.__value s ->
     bar_shows (ProgressBar.__width s) s row column bh bw wd) /\
    (ProgressBar.__value s * ProgressBar.__width s < ProgressBar.__maximum s ->
     bar_shows 0 s row column bh bw wd).
Proof.
  intros bh bw s row column wd HM HV HW Hb Hr Hc1 Hc2 Hrect.
  pose proof (bar_render_shows bh bw s row column HM HV HW Hb wd Hr Hc1 Hc2 Hrect)
    as Hshow.
  split; intros Hv.
  - replace (ProgressBar.__width s) with (bar_progress s) at 1; [exact Hshow|].
    unfold bar_progress. apply Z.min_r.
    apply Z.div_le_lower_bound; [assumption|]. nia.
  - replace 0 with (bar_progress s); [exact Hshow|].
    unfold bar_progress. rewrite Z.div_small by nia. lia.
Qed.

Lemma ProgressBar_full_at_maximum_empty_below_one_cell_witness :
  bar_shows 20 (Sample.bar 150 100 20) 0 2 1 24 (Sample.blank 1 24).
Proof.
  apply (ProgressBar_full_at_maximum_empty_below_one_cell 1 24
           (Sample.bar 150 100 20) 0 2 (Sample.blank 1 24)).
  - cbn. lia.
  - cbn. lia.
  - cbn. lia.
  - vm_compute. reflexivity.
  - lia.
  - lia.
  - cbn. lia.
  - split; [reflexivity | repeat constructor].
  - cbn. lia.
Defined.

(** X7.  The filled part of a bar never shrinks when the value grows.  For
    a bar with [maximum > 0] and two values [0 <= v1 <= v2] with
    [v2 * width < 2^53], rendered inside the buffer: the bar shows [n1]
    filled cells with the value [v1] and [n2] with the value [v2], where
    [0 <= n1 <= n2 <= width]. *)
Theorem ProgressBar_fill_grows_with_value :
  forall (bh bw : Z) (s : ProgressBar.t) (v1 v2 row column : Z) (wd : World),
    0 < ProgressBar.__maximum s ->
    0 <= ProgressBar.__width s ->
    0 <= v1 <= v2 ->
    v2 * ProgressBar.__width s < 2 ^ 53 ->
    0 <= row < bh -> 0 <= column -> column + ProgressBar.__width s <= bw ->
    rect bh bw (buffer wd) ->
    exists n1 n2,
      0 <= n1 <= n2 /\ n2 <= ProgressBar.__width s /\
      bar_shows n1 (bar_with_value v1 s) row column bh bw wd /\
      bar_shows n2 (bar_with_value v2 s) row column bh bw wd.
Proof.
  intros bh bw s v1 v2 row column wd HM HW Hv Hb Hr Hc1 Hc2 Hrect.
  exists (bar_progress (bar_with_value v1 s)), (bar_progress (bar_with_value v2 s)).
  assert (H1 : 0 <= v1 * ProgressBar.__width s / ProgressBar.__maximum s)
    by (apply Z.div_pos; nia).
  assert (H2 : v1 * ProgressBar.__width s / ProgressBar.__maximum s
               <= v2 * ProgressBar.__width s / ProgressBar.__maximum s)
    by (apply Z.div_le_mono; nia).
  split; [|split; [|split]].
  - unfold bar_progress. cbn [bar_with_value ProgressBar.__value
      ProgressBar.__width ProgressBar.__maximum]. lia.
  - unfold bar_progress. cbn [bar_with_value ProgressBar.__value
      ProgressBar.__width ProgressBar.__maximum]. lia.
  - apply bar_render_shows; cbn [bar_with_value ProgressBar.__value
      ProgressBar.__width ProgressBar.__maximum]; try assumption; try lia; nia.
  - apply bar_render_shows; cbn [bar_with_value ProgressBar.__value
      ProgressBar.__width ProgressBar.__maximum]; try assumption; lia.
Qed.

Lemma ProgressBar_fill_grows_with_value_witness :
  exists n1 n2,
    0 <= n1 <= n2 /\ n2 <= 20 /\
    bar_shows n1 (bar_with_value 30 (Sample.bar 0 100 20)) 0 2 1 24
      (Sample.blank 1 24) /\
    bar_shows n2 (bar_with_value 31 (Sample.bar 0 100 20)) 0 2 1 24
      (Sample.blank 1 24).
Proof.
  apply (ProgressBar_fill_grows_with_value 1 24 (Sample.bar 0 100 20) 30 31
           0 2 (Sample.blank 1 24)).
  - cbn. lia.
  - cbn. lia.
  - lia.
  - vm_compute. reflexivity.
  - lia.
  - lia.
  - cbn. lia.
  - split; [reflexivity | repeat constructor].
Defined.

(** X8.  Nothing clips a bar.  For a bar with [maximum > 0], [0 <= value]
    and [value * width < 2^53] that starts inside a row of the buffer and
    reaches beyond its last column: the rendering writes the cells of the
    bar that the row has, filled ones first, and then raises [IndexError];
    the cells that it has written stay, and the screen is not called. *)
Theorem ProgressBar_beyond_last_column_raises :
  forall (bh bw : Z) (s : ProgressBar.t) (row column : Z) (wd : World),
    0 < ProgressBar.__maximum s ->
    0 <= ProgressBar.__value s ->
    ProgressBar.__value s * ProgressBar.__width s < 2 ^ 53 ->
    0 <= row < bh -> 0 <= column <= bw -> bw < column + ProgressBar.__width s ->
    rect bh bw (buffer wd) ->
    exists wd',
      ProgressBar.render_to_buffer (ProgressBar._build_cache s)
        row column bh bw wd
      = (Raised IndexError, wd') /\
      screen wd' = screen wd /\
      forall r c,
        cell (buffer wd') r c =
        if (r =? row) && (column <=? c) && (c <? bw)
        then Some (if c <? column + bar_progress s
                   then filled_cell s else empty_cell s)
        else cell (buffer wd) r c.
Proof.
  intros bh bw s row column wd HM HV Hb Hr Hc1 Hc2 Hrect.
  destruct (bar_render_overflows bh bw s row column HM HV ltac:(lia) Hb
              Hr Hc1 Hc2 wd Hrect) as (wd' & E & _ & Hs & Hcell).
  exists wd'. split; [exact E|]. split; [exact Hs|].
  intros r c. rewrite Hcell.
  destruct ((r =? row) && (column <=? c) && (c <? bw)); reflexivity.
Qed.

Lemma ProgressBar_beyond_last_column_raises_witness :
  exists wd',
    ProgressBar.render_to_buffer (ProgressBar._build_cache (Sample.bar 50 100 20))
      0 10 1 24 (Sample.blank 1 24)
    = (Raised IndexError, wd') /\
    screen wd' = screen (Sample.blank 1 24) /\
    forall r c,
      cell (buffer wd') r c =
      if (r =? 0) && (10 <=? c) && (c <? 24)
      then Some (if c <? 10 + bar_progress (Sample.bar 50 100 20)
                 then filled_cell (Sample.bar 50 100 20)
                 else empty_cell (Sample.bar 50 100 20))
      else cell (buffer (Sample.blank 1 24)) r c.
Proof.
  apply (ProgressBar_beyond_last_column_raises 1 24 (Sample.bar 50 100 20)
           0 10 (Sample.blank 1 24)).
  - cbn. lia.
  - cbn. lia.
  - vm_compute. reflexivity.
  - lia.
  - lia.
  - cbn. lia.
  - split; [reflexivity | repeat constructor].
Defined.

(** *** A negative row *)

Lemma index_from_the_end (n : nat) (i : Z) :
  0 <= i < Z.of_nat n -> Py.index n (i - Z.of_nat n) = Py.index n i.
Proof.
  intros Hi. unfold Py.index.
  destruct (Z.leb_spec 0 (i - Z.of_nat n)); [lia|].
  destruct (Z.leb_spec 0 i); [|lia].
  destruct (Z.ltb_spec i (Z.of_nat n)); [|lia].
  destruct (Z.leb_spec (- Z.of_nat n) (i - Z.of_nat n)); [|lia].
  destruct (Z.ltb_spec (i - Z.of_nat n) 0); [|lia].
  cbn [andb]. f_equal. lia.
Qed.

Lemma setitem_from_the_end (r c : Z) (x : Sprixel.t) (wd : World) :
  0 <= r < Z.of_nat (length (buffer wd)) ->
  setitem (r - Z.of_nat (length (buffer wd))) c x wd = setitem r c x wd.
Proof. intros Hr. unfold setitem. rewrite index_from_the_end by lia. reflexivity. Qed.

Lemma setitem_height (r c : Z) (x : Sprixel.t) (wd : World) :
  length (buffer (setitem r c x wd).2) = length (buffer wd).
Proof.
  unfold setitem.
  destruct (Py.index (length (buffer wd)) r); [reflexivity|].
  destruct (buffer wd !! a); [|reflexivity].
  destruct (Py.index (length l) c); [reflexivity|].
  cbn [snd buffer]. apply length_insert.
Qed.

Lemma for_agrees {A} (n : nat) (xs : list A) (f g : A -> M unit) :
  (forall x wd, length (buffer wd) = n -> f x wd = g x wd) ->
  (forall x wd, length (buffer (g x wd).2) = length (buffer wd)) ->
  forall wd, length (buffer wd) = n ->
    for_ xs f wd = for_ xs g wd /\ length (buffer (for_ xs g wd).2) = n.
Proof.
  intros Hfg Hg. induction xs as [|x xs IH]; intros wd Hn.
  - split; [reflexivity|exact Hn].
  - cbn [for_]. unfold bind. rewrite (Hfg x wd Hn).
    pose proof (Hg x wd) as Hlen.
    destruct (g x wd) as [[e|[]] wd1]; cbn [snd] in *.
    + split; [reflexivity|congruence].
    + apply IH. congruence.
Qed.

Lemma bind_lift_agrees {A B} (r : Result A) (k1 k2 : A -> M B) (wd : World) :
  (forall a, k1 a wd = k2 a wd) ->
  (x <- lift r ;; k1 x) wd = (x <- lift r ;; k2 x) wd.
Proof. intros H. unfold bind, lift. destruct r; [reflexivity|apply H]. Qed.

Lemma bind_agrees {B} (n : nat) (m1 m2 : M unit) (k1 k2 : M B) (wd : World) :
  m1 wd = m2 wd ->
  length (buffer (m2 wd).2) = n ->
  (forall wd1, length (buffer wd1) = n -> k1 wd1 = k2 wd1) ->
  (m1 ;; k1) wd = (m2 ;; k2) wd.
Proof.
  intros E L H. unfold bind. rewrite E.
  destruct (m2 wd) as [[e|a] wd1]; [reflexivity|]. apply H. exact L.
Qed.

(** X9.  A negative row counts from the last row of the buffer.  On a
    buffer of [n] rows, rendering a bar at the row [row - n], for
    [0 <= row < n], does what rendering it at [row] does: nothing in the
    method refuses a negative row, and the subscription of Python takes it
    from the end. *)
Theorem ProgressBar_negative_row_counts_from_the_end :
  forall (pb : ProgressBar.t) (row column bh bw : Z) (wd : World),
    0 <= row < Z.of_nat (length (buffer wd)) ->
    ProgressBar.render_to_buffer pb
      (row - Z.of_nat (length (buffer wd))) column bh bw wd
    = ProgressBar.render_to_buffer pb row column bh bw wd.
Proof.
  intros pb row column bh bw wd Hr.
  set (n := length (buffer wd)) in *.
  assert (Hbody : forall (key : string) (entry : option Sprixel.t) c wd0,
            length (buffer wd0) = n ->
            (x <- getitem key entry ;; setitem (row - Z.of_nat n) (column + c) x) wd0
            = (x <- getitem key entry ;; setitem row (column + c) x) wd0).
  { intros key [x|] c wd0 Hn; [|reflexivity].
    unfold bind, getitem, ret. rewrite <- Hn.
    apply setitem_from_the_end. rewrite Hn. exact Hr. }
  assert (Hkeep : forall (key : string) (entry : option Sprixel.t) c wd0,
            length (buffer ((x <- getitem key entry ;; setitem row (column + c) x) wd0).2)
            = length (buffer wd0)).
  { intros key [x|] c wd0; [|reflexivity].
    unfold bind, getitem, ret. apply setitem_height. }
  unfold ProgressBar.render_to_buffer.
  apply bind_lift_agrees. intros q.
  apply bind_lift_agrees. intros k.
  apply (bind_agrees n).
  - apply (for_agrees n); [apply Hbody|apply Hkeep|reflexivity].
  - apply (for_agrees n _ _ _ (Hbody _ _) (Hkeep _ _)). reflexivity.
  - intros wd1 L1. apply (for_agrees n); [apply Hbody|apply Hkeep|exact L1].
Qed.

Lemma ProgressBar_negative_row_counts_from_the_end_witness :
  ProgressBar.render_to_buffer (ProgressBar._build_cache (Sample.bar 50 100 20))
    (2 - Z.of_nat (length (buffer (Sample.blank 3 24)))) 2 3 24
    (Sample.blank 3 24)
  = ProgressBar.render_to_buffer (ProgressBar._build_cache (Sample.bar 50 100 20))
      2 2 3 24 (Sample.blank 3 24).
Proof.
  apply (ProgressBar_negative_row_counts_from_the_end
           (ProgressBar._build_cache (Sample.bar 50 100 20)) 2 2 3 24
           (Sample.blank 3 24)).
  cbn. lia.
Defined.

(** *** The setters of ProgressBar *)

Lemma bar_build_cache_idempotent (pb : ProgressBar.t) :
  up_to_date (ProgressBar._build_cache pb).
Proof. destruct pb. reflexivity. Qed.

Lemma build_cache_cells_match (pb : ProgressBar.t) :
  cells_match_markers (ProgressBar._build_cache pb).
Proof. split; reflexivity. Qed.

(** X10.  The setters of a progress bar keep the cached cells in step with
    the markers.  On a bar whose cache holds the cells of its two markers (a
    marker that is a [Sprixel] itself, a marker that is a [str] as a cell of
    that text in the colours [bg_color] and [fg_color] of the
    configuration), a setter of [progress_marker], [empty_marker], [value]
    or [maximum] that returns has left a bar whose cache holds the cells of
    its markers and has made one call to the screen, the request to render
    again; one that raises has made no call.  The setter of [config] leaves
    such a bar as well.  The setters of the markers, given a [str] or a
    [Text], return with the text as the marker, and the setter of [config],
    given a configuration, with that configuration: the cached cells are
    then those of the new marker and of the new colours. *)
Theorem ProgressBar_setters_keep_cache_up_to_date :
  forall (pb : ProgressBar.t) (v : PyObj),
    cells_match_markers pb ->
    (forall setter wd,
       In setter ProgressBar_setters ->
       match setter pb v wd with
       | (Returned pb', wd') =>
           cells_match_markers pb' /\
           wd' = called (UiConfig.game (ProgressBar.config pb'))
                   trigger_rendering wd
       | (Raised _, wd') => wd' = wd
       end) /\
    (forall pb',
       ProgressBar.config_setter pb v = Returned pb' ->
       cells_match_markers pb') /\
    (forall (t : text_or_str) (wd : World),
       v = as_obj t ->
       exists pb1 pb2,
         (ProgressBar.progress_marker_setter pb v wd).1 = Returned pb1 /\
         ProgressBar.__progress_marker pb1 = MStr (text_in t) /\
         (ProgressBar.empty_marker_setter pb v wd).1 = Returned pb2 /\
         ProgressBar.__empty_marker pb2 = MStr (text_in t)) /\
    (forall c : UiConfig.t,
       v = PyUiConfig c ->
       exists pb',
         ProgressBar.config_setter pb v = Returned pb' /\
         ProgressBar.config pb' = c).
Proof.
  intros pb v [Ep Ee]. split; [|split; [|split]].
  - intros setter wd Hin.
    cbn [In ProgressBar_setters] in Hin.
    destruct Hin as [<-|[<-|[<-|[<-|[]]]]].
    + unfold ProgressBar.progress_marker_setter.
      destruct v; try reflexivity.
      * rewrite Ep. split; [apply build_cache_cells_match|reflexivity].
      * split; [apply build_cache_cells_match|reflexivity].
    + unfold ProgressBar.empty_marker_setter.
      destruct v; try reflexivity.
      * rewrite Ee. split; [apply build_cache_cells_match|reflexivity].
      * split; [apply build_cache_cells_match|reflexivity].
    + unfold ProgressBar.value_setter.
      destruct v; try reflexivity.
      split; [|reflexivity]. split; [exact Ep|exact Ee].
    + unfold ProgressBar.maximum_setter.
      destruct v; try reflexivity.
      split; [|reflexivity]. split; [exact Ep|exact Ee].
  - intros pb' E. unfold ProgressBar.config_setter in E.
    destruct v; try discriminate E. injection E as <-.
    apply build_cache_cells_match.
  - intros [t|str] wd ->; cbn [as_obj text_in];
      unfold ProgressBar.progress_marker_setter, ProgressBar.empty_marker_setter.
    + do 2 eexists. repeat split; reflexivity.
    + rewrite Ep, Ee. do 2 eexists. repeat split; reflexivity.
  - intros c ->. eexists. split; reflexivity.
Qed.

Lemma ProgressBar_setters_keep_cache_up_to_date_witness :
  cells_match_markers
    (bar_with_value 7 (ProgressBar._build_cache (Sample.bar 5 100 20))) /\
  called 0%nat trigger_rendering (Sample.blank 1 1)
  = called 0%nat trigger_rendering (Sample.blank 1 1).
Proof.
  apply (proj1 (ProgressBar_setters_keep_cache_up_to_date
                  (ProgressBar._build_cache (Sample.bar 5 100 20)) (PyInt 7)
                  (build_cache_cells_match (Sample.bar 5 100 20)))
           ProgressBar.value_setter (Sample.blank 1 1)).
  cbn. tauto.
Defined.

(** X11.  The constructor of a progress bar takes a marker that is a
    [Sprixel] and caches that very cell, but the setters of the markers
    refuse a [Sprixel]: they raise [PglInvalidTypeException] and make no
    call to the screen.  Given a [Text], a setter keeps its text only: the
    marker becomes the [str], and the cached cell is built from it with the
    colours of the configuration; the bar that the setter returns is the
    one that it returns when the [str] is assigned. *)
Theorem ProgressBar_marker_setters_take_text_only :
  forall (pb : ProgressBar.t) (x : Sprixel.t) (t : Text.t) (wd : World),
    up_to_date pb ->
    ProgressBar.Cache.pb_progress
      (ProgressBar._cache
         (ProgressBar.__init__ (ProgressBar.value pb) (ProgressBar.maximum pb)
            (ProgressBar.__width pb) (MSprixel x) (MSprixel x)
            (ProgressBar.config pb)))
    = Some x /\
    (exists message,
       ProgressBar.progress_marker_setter pb (PySprixel x) wd
       = (Raised (PglInvalidTypeException message), wd)) /\
    (exists message,
       ProgressBar.empty_marker_setter pb (PySprixel x) wd
       = (Raised (PglInvalidTypeException message), wd)) /\
    ProgressBar.progress_marker_setter pb (PyText t) wd
    = ProgressBar.progress_marker_setter pb (PyStr (Text.text t)) wd /\
    ProgressBar.empty_marker_setter pb (PyText t) wd
    = ProgressBar.empty_marker_setter pb (PyStr (Text.text t)) wd /\
    (exists pb' wd',
       ProgressBar.progress_marker_setter pb (PyText t) wd = (Returned pb', wd') /\
       ProgressBar.progress_marker pb' = MStr (Text.text t) /\
       ProgressBar.Cache.pb_progress (ProgressBar._cache pb')
       = Some (Sprixel.__init__ (Text.text t)
                 (UiConfig.bg_color (ProgressBar.config pb))
                 (UiConfig.fg_color (ProgressBar.config pb)))).
Proof.
  intros pb x t wd Hpb.
  assert (Ep : exists y,
            ProgressBar.Cache.pb_progress (ProgressBar._cache pb) = Some y)
    by (rewrite <- Hpb; eexists; reflexivity).
  assert (Ee : exists y,
            ProgressBar.Cache.pb_empty (ProgressBar._cache pb) = Some y)
    by (rewrite <- Hpb; eexists; reflexivity).
  destruct Ep as [xp Ep], Ee as [xe Ee].
  split; [reflexivity|].
  split; [eexists; reflexivity|].
  split; [eexists; reflexivity|].
  split; [unfold ProgressBar.progress_marker_setter; rewrite Ep; reflexivity|].
  split; [unfold ProgressBar.empty_marker_setter; rewrite Ee; reflexivity|].
  do 2 eexists. split; [reflexivity|]. split; reflexivity.
Qed.

Lemma ProgressBar_marker_setters_take_text_only_witness :
  ProgressBar.progress_marker_setter
    (ProgressBar._build_cache (Sample.bar 5 100 20))
    (PyText (Text.__init__ "=" None None)) (Sample.blank 1 1)
  = ProgressBar.progress_marker_setter
      (ProgressBar._build_cache (Sample.bar 5 100 20)) (PyStr "=")
      (Sample.blank 1 1).
Proof.
  apply (ProgressBar_marker_setters_take_text_only
           (ProgressBar._build_cache (Sample.bar 5 100 20))
           (Sprixel.__init__ "#" None None) (Text.__init__ "=" None None)
           (Sample.blank 1 1)).
  apply bar_build_cache_idempotent.
Defined.

(** ** Dialogs: the frame and the contents *)

Section Drawing.

Variables h w : Z.

Lemma draws_ext {A} (m : M A) (a : A) (g g' : paint) :
  (forall r c, g r c = g' r c) -> draws h w m a g -> draws h w m a g'.
Proof.
  intros E Hm wd Hr. destruct (Hm wd Hr) as (wd' & Em & Hr' & Hs & Hc).
  exists wd'. split; [assumption|]. split; [assumption|]. split; [assumption|].
  intros r c. rewrite <- E. apply Hc.
Qed.

Lemma draws_ret {A} (a : A) : draws h w (ret a) a nothing.
Proof.
  intros wd Hr. exists wd. split; [reflexivity|].
  split; [assumption|]. split; reflexivity.
Qed.

Lemma draws_bind {A} (m : M unit) (k : M A) (a : A) (g1 g2 : paint) :
  paints h w m g1 -> draws h w k a g2 -> draws h w (m ;; k) a (over g2 g1).
Proof.
  intros Hm Hk wd Hr.
  destruct (Hm wd Hr) as (wd1 & E1 & Hr1 & Hs1 & Hc1).
  destruct (Hk wd1 Hr1) as (wd2 & E2 & Hr2 & Hs2 & Hc2).
  exists wd2. split.
  - unfold bind. rewrite E1. exact E2.
  - split; [assumption|]. split; [congruence|].
    intros r c. unfold over. rewrite Hc2.
    destruct (g2 r c); [reflexivity|]. apply Hc1.
Qed.

Lemma draws_pure {A B} (m : M A) (a : A) (k : A -> M B) (b : B) (g : paint) :
  (forall wd, m wd = (Returned a, wd)) ->
  draws h w (k a) b g -> draws h w (x <- m ;; k x) b g.
Proof.
  intros Hm H wd Hr. destruct (H wd Hr) as (wd' & E & Hp).
  exists wd'. split; [|assumption]. unfold bind. rewrite Hm. exact E.
Qed.

(** A computation that draws and then gives a value to what follows. *)
Lemma draws_after {A B} (m : M unit) (a : A) (k : A -> M B) (b : B)
    (g1 g2 : paint) :
  paints h w m g1 -> draws h w (k a) b g2 ->
  draws h w (x <- (m ;; ret a) ;; k x) b (over g2 g1).
Proof.
  intros Hm Hk wd Hr.
  destruct (Hm wd Hr) as (wd1 & E1 & Hr1 & Hs1 & Hc1).
  destruct (Hk wd1 Hr1) as (wd2 & E2 & Hr2 & Hs2 & Hc2).
  exists wd2. split.
  - unfold bind at 1 2. rewrite E1. exact E2.
  - split; [assumption|]. split; [congruence|].
    intros r c. unfold over. rewrite Hc2.
    destruct (g2 r c); [reflexivity|]. apply Hc1.
Qed.

Lemma paints_of_draws (m : M unit) (g : paint) :
  draws h w m tt g -> paints h w m g.
Proof. intros H. exact H. Qed.

Lemma raises_after_drawing {A B} (m : M unit) (a : A) (k : A -> M B) (e : exn)
    (g1 g2 : paint) :
  paints h w m g1 -> raises_after h w (k a) e g2 ->
  raises_after h w (x <- (m ;; ret a) ;; k x) e (over g2 g1).
Proof.
  intros Hm Hk wd Hr.
  destruct (Hm wd Hr) as (wd1 & E1 & Hr1 & Hs1 & Hc1).
  destruct (Hk wd1 Hr1) as (wd2 & E2 & Hr2 & Hs2 & Hc2).
  exists wd2. split.
  - unfold bind at 1 2. rewrite E1. exact E2.
  - split; [assumption|]. split; [congruence|].
    intros r c. unfold over. rewrite Hc2.
    destruct (g2 r c); [reflexivity|]. apply Hc1.
Qed.

End Drawing.

(** The box that the dialogs draw has the default title, the empty [str]:
    its rendering leaves the frame. *)
Lemma box_paint_empty_title (Text_eq : Text.t -> string -> bool) (s : Box.t)
    (row column : Z) :
  2 <= Box.__width s -> 2 <= Box.__height s -> title_len s = 0 ->
  forall r c,
    box_paint Text_eq s row column r c
    = frame (Box.__config s) row column (Box.__height s) (Box.__width s) r c.
Proof.
  intros HW HH Hl r c. unfold frame.
  assert (Hlt : title_len s < Box.__width s) by lia.
  destruct (Z.eqb_spec r row) as [->|Hr]; cbn [andb orb].
  - destruct (Z.eqb_spec c column) as [->|Hc]; cbn [andb].
    { apply box_paint_top_left; assumption. }
    destruct (Z.eqb_spec c (column + Box.__width s - 1)) as [->|Hc2]; cbn [andb].
    { apply box_paint_top_right; assumption. }
    replace (row =? row + Box.__height s - 1) with false
      by (symmetry; apply Z.eqb_neq; lia).
    cbn [andb orb].
    replace ((row <? row) && (row <? row + Box.__height s - 1)) with false
      by (rewrite Z.ltb_irrefl; reflexivity).
    cbn [andb].
    destruct (Z.ltb_spec column c), (Z.ltb_spec c (column + Box.__width s - 1));
      cbn [andb].
    + rewrite box_paint_top by lia.
      rewrite top_paint_row; [|lia..| |lia].
      * rewrite Hl.
        destruct (Z.leb_spec (column + 1 + title_offset (Box.__width s) 0) c),
          (Z.ltb_spec c (column + 1 + title_offset (Box.__width s) 0 + 0));
          cbn [andb]; [lia|..]; reflexivity.
      * intros _. exact Hl.
    + apply box_paint_elsewhere; lia.
    + apply box_paint_elsewhere; lia.
    + apply box_paint_elsewhere; lia.
  - destruct (Z.eqb_spec r (row + Box.__height s - 1)) as [->|Hr2]; cbn [andb orb].
    + destruct (Z.eqb_spec c column) as [->|Hc]; cbn [andb].
      { apply box_paint_bottom_left; assumption. }
      destruct (Z.eqb_spec c (column + Box.__width s - 1)) as [->|Hc2]; cbn [andb].
      { apply box_paint_bottom_right; assumption. }
      destruct (Z.ltb_spec column c), (Z.ltb_spec c (column + Box.__width s - 1));
        cbn [andb].
      * apply box_paint_bottom; lia.
      * rewrite Z.ltb_irrefl, andb_false_r. cbn [andb].
        apply box_paint_elsewhere; lia.
      * rewrite Z.ltb_irrefl, andb_false_r. cbn [andb].
        apply box_paint_elsewhere; lia.
      * rewrite Z.ltb_irrefl, andb_false_r. cbn [andb].
        apply box_paint_elsewhere; lia.
    + destruct (Z.ltb_spec row r), (Z.ltb_spec r (row + Box.__height s - 1));
        cbn [andb]; try (apply box_paint_elsewhere; lia).
      destruct (box_paint_sides Text_eq s row column) with (r := r) as [E1 E2];
        try lia.
      destruct (Z.eqb_spec c column) as [->|Hc]; cbn [orb]; [exact E1|].
      destruct (Z.eqb_spec c (column + Box.__width s - 1)) as [->|Hc2];
        [exact E2|].
      apply box_paint_elsewhere; lia.
Qed.

Lemma empty_box_paints (bh bw : Z) (Text_eq : Text.t -> string -> bool)
    (cfg : UiConfig.t) (W H row column : Z) :
  2 <= W < 2 ^ 53 -> 2 <= H ->
  0 <= row -> row + H <= bh -> 0 <= column -> column + W <= bw ->
  paints bh bw
    (Box.render_to_buffer Text_eq (Box.__init__ W H (IsStr EmptyString) cfg)
       row column bh bw)
    (frame cfg row column H W).
Proof.
  intros HW HH Hr1 Hr2 Hc1 Hc2. unfold Box.__init__.
  set (s := {| Box.__width := W; Box.__height := H; Box.__title := IsStr EmptyString;
               Box.__config := cfg; Box._cache := Box.Cache.empty |}).
  assert (Hl : title_len s = 0) by reflexivity.
  eapply paints_ext;
    [|apply (Box_render_paints bh bw Text_eq s row column);
      rewrite ?Hl; cbn [s Box.__width Box.__height]; lia].
  intros r c.
  exact (box_paint_empty_title Text_eq s row column ltac:(cbn [s Box.__width]; lia)
           ltac:(cbn [s Box.__height]; lia) Hl r c).
Qed.

Lemma bar_render_cells (bh bw : Z) (s : ProgressBar.t) (row column : Z) :
  0 < ProgressBar.__maximum s -> 0 <= ProgressBar.__value s ->
  0 <= ProgressBar.__width s ->
  ProgressBar.__value s * ProgressBar.__width s < 2 ^ 53 ->
  0 <= row < bh -> 0 <= column -> column + ProgressBar.__width s <= bw ->
  paints bh bw
    (ProgressBar.render_to_buffer (ProgressBar._build_cache s) row column bh bw)
    (bar_cells s row column).
Proof.
  intros HM HV HW Hb Hr Hc1 Hc2.
  pose proof (bar_progress_bounds s HM HV HW) as Hp.
  eapply paints_ext; [|apply bar_render_paints; assumption].
  intros r c. unfold over, hline, bar_cells.
  destruct (Z.eqb_spec r row); cbn [andb]; [|reflexivity].
  destruct (Z.leb_spec (column + bar_progress s) c),
    (Z.ltb_spec c (column + ProgressBar.__width s)),
    (Z.leb_spec (column + 0) c), (Z.ltb_spec c (column + bar_progress s)),
    (Z.leb_spec column c); cbn [andb]; try reflexivity; lia.
Qed.

(** ** ProgressDialog *)

Lemma adapted_width (w l : Z) : (if true && negb (w =? l) then l else w) = l.
Proof. cbn [andb]. destruct (Z.eqb_spec w l); cbn [negb]; congruence. Qed.

(** X12.  With [adaptive_width] the width given to the constructor of a
    progress dialog has no effect: whatever the width, the constructor
    returns the same dialog, whose width, like the width of the bar in its
    cache, is the length of the label.  Without [adaptive_width] the dialog
    and its bar have the width given. *)
Theorem ProgressDialog_adaptive_width_ignores_the_width :
  forall (label : text_or_str) (value maximum w1 w2 : Z)
         (progress_marker empty_marker : marker) (destroy_on_complete : bool)
         (config : PyObj) (d : ProgressDialog.t),
    ProgressDialog.__init__ label value maximum w1 progress_marker empty_marker
      true destroy_on_complete config = Returned d ->
    ProgressDialog.__init__ label value maximum w2 progress_marker empty_marker
      true destroy_on_complete config = Returned d /\
    ProgressDialog.__width d = Py.len (text_in label) /\
    (exists bar,
       ProgressDialog.Cache.pb (ProgressDialog._cache d) = Some bar /\
       ProgressBar.__width bar = Py.len (text_in label)) /\
    (exists d' bar',
       ProgressDialog.__init__ label value maximum w2 progress_marker
         empty_marker false destroy_on_complete config = Returned d' /\
       ProgressDialog.__width d' = w2 /\
       ProgressDialog.Cache.pb (ProgressDialog._cache d') = Some bar' /\
       ProgressBar.__width bar' = w2).
Proof.
  intros label value maximum w1 w2 pm em doc config d H.
  unfold ProgressDialog.__init__ in *.
  destruct (Dialog.__init__ config) as [e|sup]; [discriminate H|].
  injection H as <-.
  unfold ProgressDialog._build_cache.
  cbn [ProgressDialog.__adaptive_width ProgressDialog.__width
       ProgressDialog.__label ProgressDialog._cache ProgressDialog.Cache.pb].
  unfold Text.length. rewrite !adapted_width.
  split; [reflexivity|].
  split; [destruct label; reflexivity|].
  split; [eexists; split; [reflexivity|destruct label; reflexivity]|].
  do 2 eexists. split; [reflexivity|]. split; [reflexivity|].
  split; reflexivity.
Qed.

Lemma ProgressDialog_adaptive_width_ignores_the_width_witness :
  exists d,
    ProgressDialog.__init__ (IsStr "ab") 0 100 20 (MStr "#") (MStr "_")
      true true (PyUiConfig Sample.config) = Returned d /\
    ProgressDialog.__init__ (IsStr "ab") 0 100 7 (MStr "#") (MStr "_")
      true true (PyUiConfig Sample.config) = Returned d /\
    ProgressDialog.__width d = 2.
Proof.
  eexists. split; [reflexivity|].
  destruct (ProgressDialog_adaptive_width_ignores_the_width
              (IsStr "ab") 0 100 20 7 (MStr "#") (MStr "_") true
              (PyUiConfig Sample.config) _ eq_refl) as (E & Ew & _).
  split; [exact E|exact Ew].
Defined.



(** X14.  The attribute [__destroy] is never cleared.  A rendering that
    returns has changed no attribute of the dialog but [__destroy], which
    is set afterwards if it was set before or if the dialog destroys itself
    when complete and its value equals its maximum; a value above the
    maximum does not set it.  A setter of the label, of the value or of the
    maximum that returns leaves the flag as it was. *)
Theorem ProgressDialog_destroy_flag_is_never_cleared :
  forall (d : ProgressDialog.t),
    (forall Text_eq row column bh bw wd d' wd',
       ProgressDialog.render_to_buffer Text_eq d row column bh bw wd
       = (Returned d', wd') ->
       d' = ProgressDialog.assign_destroy d
              (ProgressDialog.__destroy d
               || (ProgressDialog.destroy_on_complete d
                   && (ProgressDialog.__value d =? ProgressDialog.__maximum d))) /\
       (ProgressDialog.__maximum d < ProgressDialog.__value d ->
        ProgressDialog.__destroy d' = ProgressDialog.__destroy d)) /\
    (forall setter v wd d' wd',
       In setter ProgressDialog_setters ->
       setter d v wd = (Returned d', wd') ->
       ProgressDialog.__destroy d' = ProgressDialog.__destroy d).
Proof.
  intros d. split.
  - intros Text_eq row column bh bw wd d' wd' E.
    assert (Hd : d' = ProgressDialog.assign_destroy d
              (ProgressDialog.__destroy d
               || (ProgressDialog.destroy_on_complete d
                   && (ProgressDialog.__value d =? ProgressDialog.__maximum d)))).
    { assert (R : returns_only
                (ProgressDialog.render_to_buffer Text_eq d row column bh bw)
                (if ProgressDialog.destroy_on_complete d
                    && (ProgressDialog.__value d =? ProgressDialog.__maximum d)
                 then ProgressDialog.assign_destroy d true else d)).
      { unfold ProgressDialog.render_to_buffer.
        repeat (apply returns_only_bind; intros ?). apply returns_only_ret. }
      rewrite (R wd d' ltac:(rewrite E; reflexivity)).
      destruct (ProgressDialog.destroy_on_complete d
                && (ProgressDialog.__value d =? ProgressDialog.__maximum d)).
      - rewrite orb_true_r. reflexivity.
      - rewrite orb_false_r. destruct d. reflexivity. }
    split; [exact Hd|].
    intros Hv. rewrite Hd. cbn [ProgressDialog.assign_destroy ProgressDialog.__destroy].
    replace (ProgressDialog.__value d =? ProgressDialog.__maximum d) with false
      by (symmetry; apply Z.eqb_neq; lia).
    rewrite andb_false_r, orb_false_r. reflexivity.
  - intros setter v wd d' wd' Hin E.
    cbn [In ProgressDialog_setters] in Hin.
    destruct Hin as [<-|[<-|[<-|[]]]].
    + unfold ProgressDialog.label_setter in E.
      destruct v; try discriminate E.
      * destruct (ProgressDialog.Cache.label (ProgressDialog._cache d));
          [|discriminate E].
        injection E as <- _. reflexivity.
      * injection E as <- _. reflexivity.
    + unfold ProgressDialog.value_setter in E.
      destruct v; try discriminate E.
      destruct (ProgressDialog.Cache.pb (ProgressDialog._cache d));
        [|discriminate E].
      injection E as <- _. reflexivity.
    + unfold ProgressDialog.maximum_setter in E.
      destruct v; try discriminate E.
      injection E as <- _. reflexivity.
Qed.

Lemma ProgressDialog_destroy_flag_is_never_cleared_witness :
  exists d' wd',
    ProgressDialog.value_setter
      (ProgressDialog.assign_destroy
         (ProgressDialog._build_cache Sample.progress_dialog) true)
      (PyInt 0) (Sample.blank 1 1) = (Returned d', wd') /\
    ProgressDialog.__destroy d' = true.
Proof.
  do 2 eexists. split; [reflexivity|].
  exact (proj2 (ProgressDialog_destroy_flag_is_never_cleared
                  (ProgressDialog.assign_destroy
                     (ProgressDialog._build_cache Sample.progress_dialog) true))
           ProgressDialog.value_setter (PyInt 0) (Sample.blank 1 1) _ _
           (or_intror (or_introl eq_refl)) eq_refl).
Defined.

(** *** The rendering of a progress dialog *)

Lemma draws_getitem (h w : Z) {A B} (key : string) (a : A) (k : A -> M B)
    (b : B) (g : paint) :
  draws h w (k a) b g -> draws h w (x <- getitem key (Some a) ;; k x) b g.
Proof. intros H wd Hr. exact (H wd Hr). Qed.

Lemma raises_getitem (h w : Z) {A B} (key : string) (a : A) (k : A -> M B)
    (e : exn) (g : paint) :
  raises_after h w (k a) e g ->
  raises_after h w (x <- getitem key (Some a) ;; k x) e g.
Proof. intros H wd Hr. exact (H wd Hr). Qed.

Section ProgressDialogRender.

Variables bh bw : Z.
Variable Text_eq : Text.t -> string -> bool.
Variable d0 : ProgressDialog.t.
Variables row column : Z.

Local Abbreviation d := (ProgressDialog._build_cache d0).
Local Abbreviation cfg := (ProgressDialog.config d0).
Local Abbreviation off := (dialog_offset cfg).
Local Abbreviation Wd := (ProgressDialog.__width d).
Local Abbreviation lbl := (Sprite.from_text (label_of d0)).

Hypothesis Hflag : ProgressDialog.__destroy d0 = false.
Hypothesis HW : 0 <= Wd < 2 ^ 53 - 2.
Hypothesis Hr1 : 0 <= row.
Hypothesis Hr2 : row + 2 + 2 * off <= bh.
Hypothesis Hc1 : 0 <= column.
Hypothesis Hc2 : column + Wd + 2 * off <= bw.
Hypothesis Hc3 : column + off + Py.len (Text.text (label_of d0)) <= bw.

(** The frame, if there is one, and the offset that it gives. *)
Lemma dialog_frame_drawn {B} (k : Z -> M B) (b : B) (g : paint) :
  draws bh bw (k off) b g ->
  draws bh bw
    (offset <- (if negb (UiConfig.borderless_dialog cfg) then
                  Box.render_to_buffer Text_eq
                    (Box.__init__ (Wd + 2) 4 (IsStr EmptyString) cfg) row column bh bw ;;
                  ret 1
                else ret 0) ;;
     k offset)
    b (over g (dialog_frame cfg row column 4 (Wd + 2))).
Proof.
  unfold dialog_offset, dialog_frame in *.
  destruct (UiConfig.borderless_dialog cfg); cbn [negb]; intros Hk.
  - eapply draws_ext; [|apply (draws_pure bh bw (ret 0) 0); [reflexivity|exact Hk]].
    intros r c. unfold over, nothing. destruct (g r c); reflexivity.
  - apply draws_after; [|exact Hk].
    apply empty_box_paints; lia.
Qed.

Lemma dialog_frame_then_raises {B} (k : Z -> M B) (e : exn) (g : paint) :
  raises_after bh bw (k off) e g ->
  raises_after bh bw
    (offset <- (if negb (UiConfig.borderless_dialog cfg) then
                  Box.render_to_buffer Text_eq
                    (Box.__init__ (Wd + 2) 4 (IsStr EmptyString) cfg) row column bh bw ;;
                  ret 1
                else ret 0) ;;
     k offset)
    e (over g (dialog_frame cfg row column 4 (Wd + 2))).
Proof.
  unfold dialog_offset, dialog_frame in *.
  destruct (UiConfig.borderless_dialog cfg); cbn [negb]; intros Hk.
  - eapply raises_ext; [|apply (raises_pure bh bw (ret 0) 0); [reflexivity|exact Hk]].
    intros r c. unfold over, nothing. destruct (g r c); reflexivity.
  - apply raises_after_drawing; [|exact Hk].
    apply empty_box_paints; lia.
Qed.

Lemma dialog_label_paints :
  paints bh bw (Sprite.render_to_buffer lbl (row + off) (column + off) bh bw)
    (stamp (row + off) (column + off) lbl).
Proof.
  assert (0 <= off <= 1) by (unfold dialog_offset; destruct (UiConfig.borderless_dialog cfg); lia).
  apply paints_sprite; [lia|lia|]. rewrite length_from_text. lia.
Qed.

Lemma progress_dialog_draws :
  0 < ProgressDialog.__maximum d0 -> 0 <= ProgressDialog.__value d0 ->
  ProgressDialog.__value d0 * Wd < 2 ^ 53 ->
  draws bh bw (ProgressDialog.render_to_buffer Text_eq d row column bh bw)
    (if ProgressDialog.destroy_on_complete d0
        && (ProgressDialog.__value d0 =? ProgressDialog.__maximum d0)
     then ProgressDialog.assign_destroy d true else d)
    (progress_dialog_picture d row column).
Proof.
  intros HM HV Hb.
  assert (Hoff : 0 <= off <= 1)
    by (unfold dialog_offset; destruct (UiConfig.borderless_dialog cfg); lia).
  unfold ProgressDialog.render_to_buffer.
  change (ProgressDialog.__destroy d) with (ProgressDialog.__destroy d0).
  rewrite Hflag.
  eapply draws_ext; cycle 1.
  - apply draws_bind; [apply paints_ret|].
    apply dialog_frame_drawn.
    apply draws_getitem.
    apply draws_bind; [exact dialog_label_paints|].
    apply draws_getitem.
    apply draws_bind; [|apply draws_ret].
    apply (bar_render_cells bh bw (bar_of d) (row + 1 + off) (column + off));
      cbn [bar_of ProgressBar.__maximum ProgressBar.__value ProgressBar.__width];
      try assumption; lia.
  - intros r c. unfold progress_dialog_picture, over, nothing.
    change (ProgressDialog.config d) with cfg.
    change (label_of d) with (label_of d0).
    destruct (bar_cells (bar_of d) (row + 1 + off) (column + off) r c);
      [reflexivity|].
    destruct (stamp (row + off) (column + off) lbl r c); [reflexivity|].
    destruct (dialog_frame cfg row column 4 (Wd + 2) r c); reflexivity.
Qed.

Lemma progress_dialog_raises :
  ProgressDialog.__maximum d0 = 0 ->
  raises_after bh bw (ProgressDialog.render_to_buffer Text_eq d row column bh bw)
    ZeroDivisionError
    (over (stamp (row + off) (column + off) lbl)
       (dialog_frame cfg row column 4 (Wd + 2))).
Proof.
  intros HM. unfold ProgressDialog.render_to_buffer.
  change (ProgressDialog.__destroy d) with (ProgressDialog.__destroy d0).
  rewrite Hflag.
  eapply raises_ext; cycle 1.
  - apply raises_second; [apply paints_ret|].
    apply dialog_frame_then_raises.
    apply raises_getitem.
    apply raises_second; [exact dialog_label_paints|].
    apply raises_getitem.
    apply raises_first.
    unfold ProgressBar.render_to_buffer.
    cbn [ProgressBar.__init__ ProgressBar._build_cache ProgressBar.__maximum
         ProgressDialog.__maximum].
    rewrite HM. unfold Py.truediv. cbn [Z.eqb].
    apply raises_lift.
  - intros r c. unfold over, nothing.
    destruct (stamp (row + off) (column + off) lbl r c); [reflexivity|].
    destruct (dialog_frame cfg row column 4 (Wd + 2) r c); reflexivity.
Qed.

End ProgressDialogRender.

(** X15.  What the rendering of a progress dialog draws.  For a dialog
    whose cache is built and whose flag [__destroy] is not set, with
    [maximum > 0], [0 <= value] and [value * width < 2^53], rendered inside
    the buffer: without a border the label is written at [(row, column)]
    and the bar in the row below; with a border a frame of 4 rows and
    [width + 2] columns is drawn first, the label is written at
    [(row + 1, column + 1)] and the bar in the row below it.  The label is
    written over the frame and the bar over both, no other cell changes,
    and the screen is not called. *)
Theorem ProgressDialog_render_draws_frame_label_and_bar :
  forall (bh bw : Z) (Text_eq : Text.t -> string -> bool)
         (d0 : ProgressDialog.t) (row column : Z) (wd : World),
    let d := ProgressDialog._build_cache d0 in
    let off := dialog_offset (ProgressDialog.config d) in
    ProgressDialog.__destroy d = false ->
    0 < ProgressDialog.__maximum d -> 0 <= ProgressDialog.__value d ->
    0 <= ProgressDialog.__width d < 2 ^ 53 - 2 ->
    ProgressDialog.__value d * ProgressDialog.__width d < 2 ^ 53 ->
    0 <= row -> row + 2 + 2 * off <= bh ->
    0 <= column -> column + ProgressDialog.__width d + 2 * off <= bw ->
    column + off + Py.len (Text.text (label_of d)) <= bw ->
    rect bh bw (buffer wd) ->
    exists d' wd',
      ProgressDialog.render_to_buffer Text_eq d row column bh bw wd
      = (Returned d', wd') /\
      painted bh bw (progress_dialog_picture d row column) wd wd'.
Proof.
  intros bh bw Text_eq d0 row column wd d off
    Hflag HM HV HW Hb Hr1 Hr2 Hc1 Hc2 Hc3 Hrect.
  destruct (progress_dialog_draws bh bw Text_eq d0 row column
              Hflag HW Hr1 Hr2 Hc1 Hc2 Hc3 HM HV Hb wd Hrect)
    as (wd' & E & Hp).
  eexists. exists wd'. split; [exact E|exact Hp].
Qed.

Lemma ProgressDialog_render_draws_frame_label_and_bar_witness :
  exists d' wd',
    ProgressDialog.render_to_buffer Sample.object_eq
      (ProgressDialog._build_cache Sample.bordered_dialog) 1 1 6 10
      (Sample.blank 6 10)
    = (Returned d', wd') /\
    painted 6 10
      (progress_dialog_picture
         (ProgressDialog._build_cache Sample.bordered_dialog) 1 1)
      (Sample.blank 6 10) wd'.
Proof.
  apply (ProgressDialog_render_draws_frame_label_and_bar 6 10 Sample.object_eq
           Sample.bordered_dialog 1 1 (Sample.blank 6 10)).
  - reflexivity.
  - cbn. lia.
  - cbn. lia.
  - vm_compute. split; [discriminate|reflexivity].
  - vm_compute. reflexivity.
  - lia.
  - vm_compute. discriminate.
  - lia.
  - vm_compute. discriminate.
  - vm_compute. discriminate.
  - split; [reflexivity | repeat constructor].
Defined.

(** X16.  A progress dialog whose maximum is 0 raises [ZeroDivisionError]
    when it is rendered, with its flag [__destroy] unset and its frame and
    label inside the buffer, but not before it has drawn: when the exception
    leaves the method, the frame, if the configuration asks for one, and
    the label are in the buffer; the bar is not, and the screen has not
    been called. *)
Theorem ProgressDialog_maximum_zero_raises_after_the_label :
  forall (bh bw : Z) (Text_eq : Text.t -> string -> bool)
         (d0 : ProgressDialog.t) (row column : Z) (wd : World),
    let d := ProgressDialog._build_cache d0 in
    let off := dialog_offset (ProgressDialog.config d) in
    ProgressDialog.__destroy d = false ->
    ProgressDialog.__maximum d = 0 ->
    0 <= ProgressDialog.__width d < 2 ^ 53 - 2 ->
    0 <= row -> row + 2 + 2 * off <= bh ->
    0 <= column -> column + ProgressDialog.__width d + 2 * off <= bw ->
    column + off + Py.len (Text.text (label_of d)) <= bw ->
    rect bh bw (buffer wd) ->
    exists wd',
      ProgressDialog.render_to_buffer Text_eq d row column bh bw wd
      = (Raised ZeroDivisionError, wd') /\
      painted bh bw
        (over (stamp (row + off) (column + off) (Sprite.from_text (label_of d)))
           (dialog_frame (ProgressDialog.config d) row column 4
              (ProgressDialog.__width d + 2)))
        wd wd'.
Proof.
  intros bh bw Text_eq d0 row column wd d off
    Hflag HM HW Hr1 Hr2 Hc1 Hc2 Hc3 Hrect.
  exact (progress_dialog_raises bh bw Text_eq d0 row column
           Hflag HW Hr1 Hr2 Hc1 Hc2 Hc3 HM wd Hrect).
Qed.

Lemma ProgressDialog_maximum_zero_raises_after_the_label_witness :
  exists wd',
    ProgressDialog.render_to_buffer Sample.object_eq
      (ProgressDialog._build_cache
         (dialog_with_maximum 0 Sample.bordered_dialog)) 1 1 6 10
      (Sample.blank 6 10)
    = (Raised ZeroDivisionError, wd') /\
    painted 6 10
      (over (stamp 2 2 (Sprite.from_text (label_of Sample.bordered_dialog)))
         (dialog_frame Sample.other_config 1 1 4 4))
      (Sample.blank 6 10) wd'.
Proof.
  apply (ProgressDialog_maximum_zero_raises_after_the_label 6 10
           Sample.object_eq (dialog_with_maximum 0 Sample.bordered_dialog)
           1 1 (Sample.blank 6 10)).
  - reflexivity.
  - reflexivity.
  - vm_compute. split; [discriminate|reflexivity].
  - lia.
  - vm_compute. discriminate.
  - lia.
  - vm_compute. discriminate.
  - vm_compute. discriminate.
  - split; [reflexivity | repeat constructor].
Defined.

(** ** LineInputDialog: the rendering *)

Lemma from_text_lookup (t : Text.t) (i : nat) :
  Sprite.from_text t !! i
  = (fun ch : ascii =>
       Sprixel.__init__ (String ch EmptyString) (Text.bg_color t) (Text.fg_color t))
    <$> String.get i (Text.text t).
Proof.
  unfold Sprite.from_text. rewrite list_lookup_fmap. f_equal.
  generalize (Text.text t). intros s. revert i.
  induction s as [|ch s IH]; intros [|i]; cbn; try reflexivity. apply IH.
Qed.

Section LineDialogRender.

Variables bh bw : Z.
Variable Text_eq : Text.t -> string -> bool.
Variable d : LineInputDialog.t.
Variables row column : Z.

Local Abbreviation cfg := (LineInputDialog.config d).
Local Abbreviation off := (dialog_offset cfg).
Local Abbreviation L := (Text.length (LineInputDialog.__label d)).
Local Abbreviation inp := (input_line (LineInputDialog.user_input d)).

Hypothesis HL : L < 2 ^ 53 - 2.
Hypothesis Hr1 : 0 <= row.
Hypothesis Hr2 : row + 2 + 2 * off <= bh.
Hypothesis Hc1 : 0 <= column.
Hypothesis Hc2 : column + L + 2 * off <= bw.
Hypothesis Hc3 : column + off + Z.of_nat (length inp) <= bw.

Lemma line_dialog_paints :
  paints bh bw (LineInputDialog.render_to_buffer Text_eq d row column bh bw)
    (line_dialog_picture d row column).
Proof.
  assert (Hoff : 0 <= off <= 1)
    by (unfold dialog_offset; destruct (UiConfig.borderless_dialog cfg); lia).
  assert (HL0 : 0 <= L) by apply len_nonneg.
  unfold LineInputDialog.render_to_buffer.
  apply paints_of_draws.
  eapply draws_ext; cycle 1.
  - assert (Hk : forall k : Z -> M unit, forall g,
              draws bh bw (k off) tt g ->
              draws bh bw
                (offset <- (if negb (UiConfig.borderless_dialog cfg) then
                              Box.render_to_buffer Text_eq
                                (Box.__init__ (L + 2) 4 (IsStr EmptyString) cfg)
                                row column bh bw ;;
                              ret 1
                            else ret 0) ;;
                 k offset)
                tt (over g (dialog_frame cfg row column 4 (L + 2)))).
    { intros k g. unfold dialog_offset, dialog_frame in *.
      destruct (UiConfig.borderless_dialog cfg); cbn [negb]; intros Hk.
      - eapply draws_ext;
          [|apply (draws_pure bh bw (ret 0) 0); [reflexivity|exact Hk]].
        intros r c. unfold over, nothing. destruct (g r c); reflexivity.
      - apply draws_after; [|exact Hk]. apply empty_box_paints; lia. }
    apply Hk.
    apply draws_bind.
    + apply paints_sprite; [lia|lia|]. rewrite length_from_text.
      fold L. lia.
    + pose proof Hc3 as Hc3'. unfold input_line in Hc3'.
      apply paints_sprite; lia.
  - intros r c. unfold line_dialog_picture, over, input_line.
    destruct (stamp (row + 1 + off) (column + off) _ r c); reflexivity.
Qed.

End LineDialogRender.

(** X17.  What the rendering of a line input dialog draws.  Rendered inside
    the buffer, without a border: the label at [(row, column)] and, in the
    row below, the prompt "> " followed by the input.  With a border: a
    frame of 4 rows and as many columns as the label has characters plus 2,
    then the label at [(row + 1, column + 1)] and the input line in the row
    below it.  The label is written over the frame and the input line over
    both; no other cell changes and the screen is not called. *)
Theorem LineInputDialog_render_draws_frame_label_and_input :
  forall (bh bw : Z) (Text_eq : Text.t -> string -> bool)
         (d : LineInputDialog.t) (row column : Z) (wd : World),
    let off := dialog_offset (LineInputDialog.config d) in
    Text.length (LineInputDialog.__label d) < 2 ^ 53 - 2 ->
    0 <= row -> row + 2 + 2 * off <= bh ->
    0 <= column ->
    column + Text.length (LineInputDialog.__label d) + 2 * off <= bw ->
    column + off + 2 + Py.len (LineInputDialog.user_input d) <= bw ->
    rect bh bw (buffer wd) ->
    exists wd',
      LineInputDialog.render_to_buffer Text_eq d row column bh bw wd
      = (Returned tt, wd') /\
      painted bh bw (line_dialog_picture d row column) wd wd'.
Proof.
  intros bh bw Text_eq d row column wd off HL Hr1 Hr2 Hc1 Hc2 Hc3 Hrect.
  apply (line_dialog_paints bh bw Text_eq d row column HL Hr1 Hr2 Hc1 Hc2);
    [|exact Hrect].
  unfold input_line. rewrite length_from_text.
  cbn [Text.text]. unfold Py.len in *.
  change (String.length (String.append "> " (LineInputDialog.user_input d)))
    with (S (S (String.length (LineInputDialog.user_input d)))).
  fold off. lia.
Qed.

Lemma LineInputDialog_render_draws_frame_label_and_input_witness :
  exists wd',
    LineInputDialog.render_to_buffer Sample.object_eq Sample.line_dialog
      1 1 6 16 (Sample.blank 6 16)
    = (Returned tt, wd') /\
    painted 6 16 (line_dialog_picture Sample.line_dialog 1 1)
      (Sample.blank 6 16) wd'.
Proof.
  apply (LineInputDialog_render_draws_frame_label_and_input 6 16
           Sample.object_eq Sample.line_dialog 1 1 (Sample.blank 6 16)).
  - vm_compute. reflexivity.
  - lia.
  - vm_compute. discriminate.
  - lia.
  - vm_compute. discriminate.
  - vm_compute. discriminate.
  - split; [reflexivity | repeat constructor].
Defined.

(** X18.  The frame of a line input dialog is as wide as its label, not as
    its input.  With a border, in the row of the input line, the cell at
    [column + length of the label + 1], where the right border of the frame
    goes, holds the vertical border as long as the input has no more
    characters than the label less 2; with a longer input it holds a
    character of the input line, the one of index [length of the label],
    in the default colours. *)
Theorem LineInputDialog_long_input_overwrites_the_border :
  forall (bh bw : Z) (Text_eq : Text.t -> string -> bool)
         (d : LineInputDialog.t) (row column : Z) (wd : World),
    let cfg := LineInputDialog.config d in
    let L := Text.length (LineInputDialog.__label d) in
    let n := Py.len (LineInputDialog.user_input d) in
    UiConfig.borderless_dialog cfg = false ->
    L < 2 ^ 53 - 2 ->
    0 <= row -> row + 4 <= bh ->
    0 <= column -> column + L + 2 <= bw -> column + 3 + n <= bw ->
    rect bh bw (buffer wd) ->
    exists wd',
      LineInputDialog.render_to_buffer Text_eq d row column bh bw wd
      = (Returned tt, wd') /\
      (n + 2 <= L ->
       cell (buffer wd') (row + 2) (column + L + 1)
       = Some (border_cell cfg (UiConfig.box_vertical_border cfg))) /\
      (L < n + 2 ->
       exists ch,
         String.get (Z.to_nat L)
           (String.append "> " (LineInputDialog.user_input d)) = Some ch /\
         cell (buffer wd') (row + 2) (column + L + 1)
         = Some (Sprixel.__init__ (String ch EmptyString) None None)).
Proof.
  intros bh bw Text_eq d row column wd cfg L n Hb HL Hr1 Hr2 Hc1 Hc2 Hc3 Hrect.
  assert (HL0 : 0 <= L) by apply len_nonneg.
  assert (Hoff : dialog_offset cfg = 1) by (unfold dialog_offset; rewrite Hb; reflexivity).
  assert (Hlen : Z.of_nat (length (input_line (LineInputDialog.user_input d)))
                 = 2 + n).
  { unfold input_line. rewrite length_from_text.
    cbn [Text.text]. unfold n, Py.len.
    change (String.length (String.append "> " (LineInputDialog.user_input d)))
      with (S (S (String.length (LineInputDialog.user_input d)))).
    lia. }
  destruct (line_dialog_paints bh bw Text_eq d row column HL Hr1
              ltac:(fold cfg; rewrite Hoff; lia) Hc1
              ltac:(fold cfg L; rewrite Hoff; lia)
              ltac:(fold cfg; rewrite Hoff, Hlen; lia) wd Hrect)
    as (wd' & E & _ & _ & Hcell).
  exists wd'. split; [exact E|].
  assert (Hat : cell (buffer wd') (row + 2) (column + L + 1)
                = match stamp (row + 2) (column + 1)
                          (input_line (LineInputDialog.user_input d))
                          (row + 2) (column + L + 1) with
                  | Some x => Some x
                  | None => Some (border_cell cfg (UiConfig.box_vertical_border cfg))
                  end).
  { rewrite Hcell. unfold line_dialog_picture, over. fold cfg L.
    rewrite Hoff.
    replace (row + 1 + 1) with (row + 2) by lia.
    destruct (stamp (row + 2) (column + 1)
                (input_line (LineInputDialog.user_input d))
                (row + 2) (column + L + 1)); [reflexivity|].
    replace (stamp (row + 1) (column + 1)
               (Sprite.from_text (LineInputDialog.__label d))
               (row + 2) (column + L + 1)) with (@None Sprixel.t)
      by (unfold stamp; settle; reflexivity).
    unfold dialog_frame. rewrite Hb. unfold frame. settle. reflexivity. }
  rewrite Hat. unfold stamp. rewrite Hlen. split; intros Hn.
  - settle. reflexivity.
  - settle. replace (column + L + 1 - (column + 1)) with L by lia.
    unfold input_line. rewrite from_text_lookup. cbn [Text.text Text.bg_color Text.fg_color].
    destruct (String.get (Z.to_nat L)
                (String.append "> " (LineInputDialog.user_input d))) as [ch|] eqn:Eg.
    + exists ch. split; reflexivity.
    + exfalso.
      pose proof (from_text_lookup
                    (Text.__init__ (String.append "> " (LineInputDialog.user_input d))
                       None None) (Z.to_nat L)) as Hl.
      cbn [Text.text] in Hl. rewrite Eg in Hl.
      change (Sprite.from_text
                (Text.__init__ (String.append "> " (LineInputDialog.user_input d))
                   None None) !! Z.to_nat L = None) in Hl.
      apply lookup_ge_None in Hl. unfold input_line in Hlen. lia.
Qed.

Lemma LineInputDialog_long_input_overwrites_the_border_witness :
  exists wd',
    LineInputDialog.render_to_buffer Sample.object_eq Sample.line_dialog
      1 1 6 16 (Sample.blank 6 16)
    = (Returned tt, wd') /\
    (9 + 2 <= 4 ->
     cell (buffer wd') (1 + 2) (1 + 4 + 1)
     = Some (border_cell Sample.other_config "|")) /\
    (4 < 9 + 2 ->
     exists ch,
       String.get (Z.to_nat 4) (String.append "> " "Alexandra") = Some ch /\
       cell (buffer wd') (1 + 2) (1 + 4 + 1)
       = Some (Sprixel.__init__ (String ch EmptyString) None None)).
Proof.
  apply (LineInputDialog_long_input_overwrites_the_border 6 16
           Sample.object_eq Sample.line_dialog 1 1 (Sample.blank 6 16)).
  - reflexivity.
  - vm_compute. reflexivity.
  - lia.
  - lia.
  - lia.
  - vm_compute. discriminate.
  - vm_compute. discriminate.
  - split; [reflexivity | repeat constructor].
Defined.

(** ** LineInputDialog: the loop of show *)

Lemma append_empty_r (s : string) : String.append s EmptyString = s.
Proof.
  induction s as [|c s IH]; [reflexivity|].
  change (String c (String.append s EmptyString) = String c s). f_equal. exact IH.
Qed.

Lemma append_assoc (s1 s2 s3 : string) :
  String.append (String.append s1 s2) s3 = String.append s1 (String.append s2 s3).
Proof.
  induction s1 as [|c s1 IH]; [reflexivity|].
  change (String c (String.append (String.append s1 s2) s3)
          = String c (String.append s1 (String.append s2 s3))).
  f_equal. exact IH.
Qed.

Lemma list_ascii_append (s1 s2 : string) :
  String.list_ascii_of_string (String.append s1 s2)
  = String.list_ascii_of_string s1 ++ String.list_ascii_of_string s2.
Proof.
  induction s1 as [|c s1 IH]; [reflexivity|].
  change (c :: String.list_ascii_of_string (String.append s1 s2)
          = c :: (String.list_ascii_of_string s1 ++ String.list_ascii_of_string s2)).
  f_equal. exact IH.
Qed.

Lemma drop_last_append_char (s : string) (c : ascii) :
  drop_last (String.append s (String c EmptyString)) = s.
Proof.
  induction s as [|c' s IH]; [reflexivity|].
  change (drop_last (String c' (String.append s (String c EmptyString))) = String c' s).
  destruct s as [|c'' s]; [reflexivity|].
  change (String c' (drop_last (String.append (String c'' s) (String c EmptyString)))
          = String c' (String c'' s)).
  f_equal. exact IH.
Qed.

Lemma all_digits_append (s1 s2 : string) :
  all_digits s1 = true -> all_digits s2 = true ->
  all_digits (String.append s1 s2) = true.
Proof.
  unfold all_digits. intros H1 H2. rewrite list_ascii_append, forallb_app, H1, H2.
  reflexivity.
Qed.

Lemma all_digits_drop_last (s : string) :
  all_digits s = true -> all_digits (drop_last s) = true.
Proof.
  unfold all_digits. induction s as [|c s IH]; [reflexivity|].
  cbn [String.list_ascii_of_string forallb]. intros H.
  apply andb_prop in H as [Hc Hs].
  destruct s as [|c' s]; [reflexivity|].
  cbn [drop_last String.list_ascii_of_string forallb]. rewrite Hc.
  exact (IH Hs).
Qed.

Lemma with_input_same (d : LineInputDialog.t) :
  with_input d (LineInputDialog.user_input d) = d.
Proof. destruct d as [[c u] l df f]. reflexivity. Qed.

Lemma with_input_twice (d : LineInputDialog.t) (s1 s2 : string) :
  with_input (with_input d s1) s2 = with_input d s2.
Proof. reflexivity. Qed.

Lemma world_same (wd : World) :
  {| buffer := buffer wd; screen := screen wd ++ [] |} = wd.
Proof. destruct wd. cbn. rewrite app_nil_r. reflexivity. Qed.

Section LineLoop.

Variables (d : LineInputDialog.t) (wd : World) (polls : list Keystroke.t).

Local Abbreviation g := (UiConfig.game (LineInputDialog.config d)).

Lemma line_loop_timeout (k : Keystroke.t) :
  Keystroke.str k = EmptyString ->
  LineInputDialog.loop (k :: polls) d wd = LineInputDialog.loop polls d wd.
Proof. intros Hs. cbn [LineInputDialog.loop]. rewrite Hs. reflexivity. Qed.

Lemma line_loop_typed (k : Keystroke.t) :
  Keystroke.str k <> EmptyString -> typed (LineInputDialog.__filter d) k = true ->
  LineInputDialog.loop (k :: polls) d wd
  = LineInputDialog.loop polls
      (with_input d (String.append (LineInputDialog.user_input d) (Keystroke.str k)))
      (redraw g wd).
Proof.
  intros Hs Ht. unfold typed in Ht.
  repeat (apply andb_prop in Ht as [Ht ?]).
  cbn [LineInputDialog.loop]. rewrite (eqb_nonempty _ Hs).
  repeat match goal with
         | H : negb ?b = true |- _ => apply negb_true_iff in H; rewrite H
         end.
  cbn [orb]. unfold accepts in *.
  match goal with H : _ = true |- _ => rewrite H end.
  reflexivity.
Qed.

Lemma line_loop_erases (k : Keystroke.t) :
  Keystroke.str k <> EmptyString ->
  Keystroke.name_is k "KEY_ENTER" = false ->
  Keystroke.name_is k "KEY_ESCAPE" = false ->
  erases k = true ->
  LineInputDialog.loop (k :: polls) d wd
  = LineInputDialog.loop polls
      (with_input d (drop_last (LineInputDialog.user_input d)))
      (redraw g wd).
Proof.
  intros Hs H1 H2 He. cbn [LineInputDialog.loop]. rewrite (eqb_nonempty _ Hs).
  rewrite H1, H2. unfold erases in He. rewrite He. reflexivity.
Qed.

Lemma line_loop_ends (k : Keystroke.t) :
  Keystroke.str k <> EmptyString ->
  (Keystroke.name k = Some "KEY_ENTER" ->
   LineInputDialog.loop (k :: polls) d wd
   = Finished (Returned (LineInputDialog.user_input d)) (d, wd)) /\
  (Keystroke.name k = Some "KEY_ESCAPE" ->
   LineInputDialog.loop (k :: polls) d wd
   = Finished (Returned EmptyString) (with_input d EmptyString, wd)).
Proof.
  intros Hs. split; intros Hn; cbn [LineInputDialog.loop];
    rewrite (eqb_nonempty _ Hs); unfold Keystroke.name_is; rewrite Hn;
    reflexivity.
Qed.

End LineLoop.

(** What a key that does not end the loop makes of the dialog. *)
Lemma line_loop_step (k : Keystroke.t) (polls : list Keystroke.t)
    (d : LineInputDialog.t) (wd : World) :
  (exists s, LineInputDialog.loop (k :: polls) d wd
             = Finished (Returned s) (with_input d s, wd) /\
             (s = LineInputDialog.user_input d \/ s = EmptyString)) \/
  LineInputDialog.loop (k :: polls) d wd = LineInputDialog.loop polls d wd \/
  (erases k = true /\
   LineInputDialog.loop (k :: polls) d wd
   = LineInputDialog.loop polls
       (with_input d (drop_last (LineInputDialog.user_input d)))
       (redraw (UiConfig.game (LineInputDialog.config d)) wd)) \/
  (accepts (LineInputDialog.__filter d) k = true /\
   LineInputDialog.loop (k :: polls) d wd
   = LineInputDialog.loop polls
       (with_input d (String.append (LineInputDialog.user_input d) (Keystroke.str k)))
       (redraw (UiConfig.game (LineInputDialog.config d)) wd)).
Proof.
  cbn [LineInputDialog.loop].
  destruct (String.eqb (Keystroke.str k) EmptyString); [right; left; reflexivity|].
  destruct (Keystroke.name_is k "KEY_ENTER").
  { left. exists (LineInputDialog.user_input d). rewrite with_input_same.
    split; [reflexivity|left; reflexivity]. }
  destruct (Keystroke.name_is k "KEY_ESCAPE").
  { left. exists EmptyString. split; [reflexivity|right; reflexivity]. }
  destruct (Keystroke.name_is k "KEY_BACKSPACE" || Keystroke.name_is k "KEY_DELETE")
    eqn:Ee.
  { right; right; left. split; [exact Ee|reflexivity]. }
  fold (accepts (LineInputDialog.__filter d) k).
  destruct (accepts (LineInputDialog.__filter d) k) eqn:Ea.
  - right; right; right. split; [reflexivity|reflexivity].
  - right; left. reflexivity.
Qed.

Lemma line_loop_waiting (pre : list Keystroke.t) :
  forall (d : LineInputDialog.t) (wd : World)
         (d1 : LineInputDialog.t) (wd1 : World),
    LineInputDialog.loop pre d wd = Waiting (d1, wd1) ->
    (exists s, d1 = with_input d s) /\
    forall rest,
      LineInputDialog.loop (pre ++ rest) d wd = LineInputDialog.loop rest d1 wd1.
Proof.
  induction pre as [|k pre IH]; intros d wd d1 wd1 H.
  - cbn in H. injection H as <- <-. split; [|reflexivity].
    exists (LineInputDialog.user_input d). symmetry. apply with_input_same.
  - assert (Hstep : forall d' wd',
              LineInputDialog.loop pre d' wd' = Waiting (d1, wd1) ->
              (exists s, d' = with_input d s) ->
              (exists s, d1 = with_input d s) /\
              forall rest,
                LineInputDialog.loop (pre ++ rest) d' wd'
                = LineInputDialog.loop rest d1 wd1).
    { intros d' wd' H' [s' ->]. destruct (IH _ _ _ _ H') as [[s ->] Happ].
      split; [exists s; reflexivity|exact Happ]. }
    cbn [LineInputDialog.loop app] in H |- *.
    destruct (String.eqb (Keystroke.str k) EmptyString).
    { apply Hstep; [exact H|].
      exists (LineInputDialog.user_input d). symmetry. apply with_input_same. }
    destruct (Keystroke.name_is k "KEY_ENTER"); [discriminate H|].
    destruct (Keystroke.name_is k "KEY_ESCAPE"); [discriminate H|].
    destruct (Keystroke.name_is k "KEY_BACKSPACE" || Keystroke.name_is k "KEY_DELETE").
    { apply Hstep; [exact H|]. eexists. reflexivity. }
    match type of H with
    | (if ?b then _ else _) = _ => destruct b
    end.
    + apply Hstep; [exact H|]. eexists. reflexivity.
    + apply Hstep; [exact H|].
      exists (LineInputDialog.user_input d). symmetry. apply with_input_same.
Qed.

Lemma redraw_screen (game : Game) (wd : World) :
  redraw game wd
  = {| buffer := buffer wd;
       screen := screen wd ++ [(game, trigger_rendering); (game, update)] |}.
Proof. unfold redraw, screen_call. cbn. rewrite <- app_assoc. reflexivity. Qed.

Lemma line_loop_types (f : constants.Filter) (ks : list Keystroke.t) :
  forall (d : LineInputDialog.t) (wd : World) (rest : list Keystroke.t),
    LineInputDialog.__filter d = f ->
    Forall (fun k => Keystroke.str k = EmptyString \/ typed f k = true) ks ->
    LineInputDialog.loop (ks ++ rest) d wd
    = LineInputDialog.loop rest
        (with_input d
           (String.append (LineInputDialog.user_input d)
              (joined (Keystroke.str <$> ks))))
        {| buffer := buffer wd;
           screen := screen wd
                     ++ redraws (UiConfig.game (LineInputDialog.config d)) ks |}.
Proof.
  induction ks as [|k ks IH]; intros d wd rest Hf Hks.
  - cbn [app fmap list_fmap joined foldr redraws mjoin list_join].
    rewrite append_empty_r, with_input_same, world_same. reflexivity.
  - apply Forall_cons in Hks as [Hk Hks].
    change ((k :: ks) ++ rest) with (k :: (ks ++ rest)).
    destruct (String.eqb_spec (Keystroke.str k) EmptyString) as [Hs|Hs].
    + rewrite line_loop_timeout by exact Hs.
      rewrite (IH d wd rest Hf Hks).
      cbn [fmap list_fmap joined foldr redraws mjoin list_join].
      rewrite Hs. cbn [String.eqb String.append app]. reflexivity.
    + destruct Hk as [Hk|Hk]; [contradiction|].
      rewrite line_loop_typed by (try rewrite Hf; assumption).
      rewrite (IH (with_input d _) _ rest Hf Hks).
      cbn [fmap list_fmap joined foldr redraws mjoin list_join].
      rewrite (eqb_nonempty _ Hs), redraw_screen.
      cbn [with_input LineInputDialog.user_input Dialog.user_input
           LineInputDialog.super Dialog._user_input LineInputDialog.config
           Dialog.config Dialog._config buffer screen].
      rewrite append_assoc, <- app_assoc. reflexivity.
Qed.

Lemma line_init_state (label config : PyObj) (default : string)
    (filter : constants.Filter) (d : LineInputDialog.t) :
  LineInputDialog.__init__ label default filter config = Returned d ->
  LineInputDialog.user_input d = default /\
  LineInputDialog.__filter d = filter.
Proof.
  unfold LineInputDialog.__init__. destruct config; cbn; try discriminate.
  destruct label; cbn; try discriminate; intros E; injection E as <-;
    split; reflexivity.
Qed.

(** X19.  [show()] of a line input dialog returns the default followed by
    what was typed.  On a dialog as its constructor returns it, when every
    poll before Enter times out or gives a key that the filter accepts
    (and that is none of Enter, Escape, Backspace and Delete), [show()]
    returns, at Enter, the default followed by the strings of these keys in
    their order, which is then the input of the dialog.  It has called the
    screen for an update first, and then for a rendering and an update once
    for every key; it has not written into the buffer, and the polls after
    Enter are not read. *)
Theorem LineInputDialog_show_returns_default_then_typed :
  forall (label config : PyObj) (default : string) (filter : constants.Filter)
         (d : LineInputDialog.t) (ks rest : list Keystroke.t)
         (enter : Keystroke.t) (wd : World),
    LineInputDialog.__init__ label default filter config = Returned d ->
    Forall (fun k => Keystroke.str k = EmptyString \/ typed filter k = true) ks ->
    Keystroke.name enter = Some "KEY_ENTER" -> Keystroke.str enter <> EmptyString ->
    let s := String.append default (joined (Keystroke.str <$> ks)) in
    let game := UiConfig.game (LineInputDialog.config d) in
    LineInputDialog.show d (ks ++ enter :: rest) wd
    = Finished (Returned s)
        (with_input d s,
         {| buffer := buffer wd;
            screen := screen wd ++ (game, update) :: redraws game ks |}).
Proof.
  intros label config default filter d ks rest enter wd Hinit Hks He1 He2 s game.
  destruct (line_init_state _ _ _ _ _ Hinit) as [Hu Hf].
  unfold LineInputDialog.show.
  rewrite (line_loop_types filter ks d _ (enter :: rest) Hf Hks).
  rewrite (proj1 (line_loop_ends _ _ _ enter He2) He1).
  rewrite Hu. fold s. cbn [with_input LineInputDialog.user_input
    Dialog.user_input LineInputDialog.super Dialog._user_input].
  unfold screen_call. cbn [snd buffer screen]. fold game.
  rewrite <- app_assoc. reflexivity.
Qed.

Lemma LineInputDialog_show_returns_default_then_typed_witness :
  exists d,
    LineInputDialog.__init__ (PyStr "Age") "4" constants.INTEGER_FILTER
      (PyUiConfig Sample.config) = Returned d /\
    LineInputDialog.show d
      ([char_key "2"; timeout; char_key "7"] ++ Sample.enter :: [char_key "9"])
      (Sample.blank 1 1)
    = Finished (Returned "427")
        (with_input d "427",
         {| buffer := buffer (Sample.blank 1 1);
            screen := [(0%nat, update); (0%nat, trigger_rendering);
                       (0%nat, update); (0%nat, trigger_rendering);
                       (0%nat, update)] |}).
Proof.
  eexists. split; [reflexivity|].
  apply (LineInputDialog_show_returns_default_then_typed (PyStr "Age")
           (PyUiConfig Sample.config) "4" constants.INTEGER_FILTER _
           [char_key "2"; timeout; char_key "7"] [char_key "9"] Sample.enter
           (Sample.blank 1 1) eq_refl).
  - repeat (constructor; [first [left; reflexivity | right; reflexivity]|]).
    constructor.
  - reflexivity.
  - discriminate.
Defined.

Lemma integer_filter_accepts (k : Keystroke.t) :
  accepts constants.INTEGER_FILTER k = true ->
  all_digits (Keystroke.str k) = true.
Proof.
  unfold accepts, Keystroke.isdigit. cbn [constants.Filter_eqb andb orb].
  intros H. apply andb_prop in H as [_ H]. exact H.
Qed.

Lemma line_loop_digits (polls : list Keystroke.t) :
  forall (d : LineInputDialog.t) (wd : World),
    LineInputDialog.__filter d = constants.INTEGER_FILTER ->
    all_digits (LineInputDialog.user_input d) = true ->
    match LineInputDialog.loop polls d wd with
    | Finished (Returned s) _ => all_digits s = true
    | Finished (Raised _) _ => False
    | Waiting (d', _) => all_digits (LineInputDialog.user_input d') = true
    end.
Proof.
  induction polls as [|k polls IH]; intros d wd Hf Hd; [exact Hd|].
  destruct (line_loop_step k polls d wd)
    as [(s & -> & [->| ->])|[->|[[_ ->]|[Ha ->]]]].
  - exact Hd.
  - reflexivity.
  - apply IH; assumption.
  - apply IH; [exact Hf|]. apply all_digits_drop_last. exact Hd.
  - apply IH; [exact Hf|]. rewrite Hf in Ha.
    apply all_digits_append; [exact Hd|]. apply integer_filter_accepts. exact Ha.
Qed.

(** X20.  With the integer filter, [show()] never lets a character that is
    not a digit into the input.  On a dialog built with the integer filter
    and a default made of digits, whatever the polls give, [show()] does
    not raise: it returns a string made of digits only, or it waits for a
    key with an input made of digits only. *)
Theorem LineInputDialog_integer_filter_keeps_digits :
  forall (label config : PyObj) (default : string) (d : LineInputDialog.t)
         (polls : list Keystroke.t) (wd : World),
    LineInputDialog.__init__ label default constants.INTEGER_FILTER config
    = Returned d ->
    all_digits default = true ->
    match LineInputDialog.show d polls wd with
    | Finished (Returned s) _ => all_digits s = true
    | Finished (Raised _) _ => False
    | Waiting (d', _) => all_digits (LineInputDialog.user_input d') = true
    end.
Proof.
  intros label config default d polls wd Hinit Hdef.
  destruct (line_init_state _ _ _ _ _ Hinit) as [Hu Hf].
  unfold LineInputDialog.show. apply line_loop_digits; [exact Hf|].
  rewrite Hu. exact Hdef.
Qed.

Lemma LineInputDialog_integer_filter_keeps_digits_witness :
  exists d,
    LineInputDialog.__init__ (PyStr "Age") "4" constants.INTEGER_FILTER
      (PyUiConfig Sample.config) = Returned d /\
    match LineInputDialog.show d
            [char_key "x"; char_key "2"; Sample.backspace; char_key "-";
             char_key "7"; Sample.enter] (Sample.blank 1 1) with
    | Finished (Returned s) _ => all_digits s = true
    | Finished (Raised _) _ => False
    | Waiting (d', _) => all_digits (LineInputDialog.user_input d') = true
    end.
Proof.
  eexists. split; [reflexivity|].
  apply (LineInputDialog_integer_filter_keeps_digits (PyStr "Age")
           (PyUiConfig Sample.config) "4" _
           [char_key "x"; char_key "2"; Sample.backspace; char_key "-";
            char_key "7"; Sample.enter] (Sample.blank 1 1) eq_refl).
  reflexivity.
Defined.

Lemma line_loop_only_edits (polls : list Keystroke.t) :
  forall (d : LineInputDialog.t) (wd : World),
    exists s wd' calls,
      (LineInputDialog.loop polls d wd
       = Finished (Returned s) (with_input d s, wd')
       \/ LineInputDialog.loop polls d wd = Waiting (with_input d s, wd')) /\
      buffer wd' = buffer wd /\
      screen wd' = screen wd ++ calls /\
      Forall (fun c => c = (UiConfig.game (LineInputDialog.config d),
                            trigger_rendering)
                       \/ c = (UiConfig.game (LineInputDialog.config d), update))
        calls.
Proof.
  induction polls as [|k polls IH]; intros d wd.
  - exists (LineInputDialog.user_input d), wd, [].
    rewrite with_input_same, app_nil_r.
    split; [right; reflexivity|]. split; [reflexivity|].
    split; [reflexivity|constructor].
  - assert (Hredraw : forall s0,
      exists s wd' calls,
        (LineInputDialog.loop polls (with_input d s0)
           (redraw (UiConfig.game (LineInputDialog.config d)) wd)
         = Finished (Returned s) (with_input d s, wd')
         \/ LineInputDialog.loop polls (with_input d s0)
              (redraw (UiConfig.game (LineInputDialog.config d)) wd)
            = Waiting (with_input d s, wd')) /\
        buffer wd' = buffer wd /\
        screen wd' = screen wd ++ calls /\
        Forall (fun c => c = (UiConfig.game (LineInputDialog.config d),
                              trigger_rendering)
                         \/ c = (UiConfig.game (LineInputDialog.config d), update))
          calls).
    { intros s0.
      destruct (IH (with_input d s0)
                  (redraw (UiConfig.game (LineInputDialog.config d)) wd))
        as (s & wd' & calls & Hout & Hbuf & Hscr & Hcalls).
      exists s, wd',
        ([(UiConfig.game (LineInputDialog.config d), trigger_rendering);
          (UiConfig.game (LineInputDialog.config d), update)] ++ calls).
      split; [exact Hout|]. split; [rewrite Hbuf, redraw_screen; reflexivity|].
      split; [rewrite Hscr, redraw_screen; cbn [screen];
              rewrite <- app_assoc; reflexivity|].
      apply Forall_app. split; [|exact Hcalls].
      constructor; [left; reflexivity|].
      constructor; [right; reflexivity|constructor]. }
    destruct (line_loop_step k polls d wd)
      as [(s & E & _)|[E|[[_ E]|[_ E]]]]; rewrite E.
    + exists s, wd, []. rewrite app_nil_r.
      split; [left; reflexivity|]. split; [reflexivity|].
      split; [reflexivity|constructor].
    + apply IH.
    + apply Hredraw.
    + apply Hredraw.
Qed.

(** X21.  [show()] of a line input dialog changes the input of the dialog
    and nothing else.  Whatever the polls give, it does not raise: it
    returns the input of the dialog as it then is, or it waits for a key.
    The label, the default, the filter and the configuration of the dialog
    are as they were, the buffer has not been written, and the calls made
    to the screen are requests for a rendering or an update, on the screen
    of the game of the configuration. *)
Theorem LineInputDialog_show_only_edits_the_input :
  forall (d : LineInputDialog.t) (polls : list Keystroke.t) (wd : World),
    exists s wd' calls,
      (LineInputDialog.show d polls wd
       = Finished (Returned s) (with_input d s, wd')
       \/ LineInputDialog.show d polls wd = Waiting (with_input d s, wd')) /\
      buffer wd' = buffer wd /\
      screen wd' = screen wd ++ calls /\
      Forall (fun c => c = (UiConfig.game (LineInputDialog.config d),
                            trigger_rendering)
                       \/ c = (UiConfig.game (LineInputDialog.config d), update))
        calls.
Proof.
  intros d polls wd. unfold LineInputDialog.show.
  destruct (line_loop_only_edits polls d
              (screen_call (UiConfig.game (LineInputDialog.config d)) update wd).2)
    as (s & wd' & calls & Hout & Hbuf & Hscr & Hcalls).
  exists s, wd', ((UiConfig.game (LineInputDialog.config d), update) :: calls).
  split; [exact Hout|]. split; [exact Hbuf|].
  split.
  - rewrite Hscr. unfold screen_call. cbn [snd screen].
    rewrite <- app_assoc. reflexivity.
  - constructor; [right; reflexivity|exact Hcalls].
Qed.

(** X22.  Enter keeps what was typed, Escape throws it away.  When
    [show()], after polls that left it waiting for a key with the input
    [s], reads Enter, it returns [s] and leaves the dialog as it is; when it
    reads Escape, it returns the empty string and the input of the dialog
    is empty from then on.  Neither key calls the screen, and the polls
    that follow are not read. *)
Theorem LineInputDialog_enter_keeps_escape_discards :
  forall (d : LineInputDialog.t) (before after : list Keystroke.t)
         (k : Keystroke.t) (wd : World) (d1 : LineInputDialog.t) (wd1 : World),
    LineInputDialog.show d before wd = Waiting (d1, wd1) ->
    Keystroke.str k <> EmptyString ->
    (Keystroke.name k = Some "KEY_ENTER" ->
     LineInputDialog.show d (before ++ k :: after) wd
     = Finished (Returned (LineInputDialog.user_input d1)) (d1, wd1)) /\
    (Keystroke.name k = Some "KEY_ESCAPE" ->
     LineInputDialog.show d (before ++ k :: after) wd
     = Finished (Returned EmptyString) (with_input d1 EmptyString, wd1)).
Proof.
  intros d before after k wd d1 wd1 Hrun Hs.
  unfold LineInputDialog.show in *.
  destruct (line_loop_waiting _ _ _ _ _ Hrun) as [_ Happ].
  rewrite Happ. exact (line_loop_ends d1 wd1 after k Hs).
Qed.

Lemma LineInputDialog_enter_keeps_escape_discards_witness :
  LineInputDialog.show (with_input Sample.line_dialog EmptyString)
    ([char_key "a"; char_key "b"] ++ Sample.escape :: []) (Sample.blank 1 1)
  = Finished (Returned EmptyString)
      (with_input (with_input Sample.line_dialog "ab") EmptyString,
       {| buffer := buffer (Sample.blank 1 1);
          screen := [(0%nat, update); (0%nat, trigger_rendering);
                     (0%nat, update); (0%nat, trigger_rendering);
                     (0%nat, update)] |}).
Proof.
  apply (proj2 (LineInputDialog_enter_keeps_escape_discards
                  (with_input Sample.line_dialog EmptyString)
                  [char_key "a"; char_key "b"] [] Sample.escape
                  (Sample.blank 1 1) (with_input Sample.line_dialog "ab")
                  {| buffer := buffer (Sample.blank 1 1);
                     screen := [(0%nat, update); (0%nat, trigger_rendering);
                                (0%nat, update); (0%nat, trigger_rendering);
                                (0%nat, update)] |}
                  eq_refl ltac:(discriminate))).
  reflexivity.
Defined.

(** X23.  Backspace undoes a typed character.  When [show()] waits for a
    key and then reads a key of one character that the filter accepts,
    followed by Backspace or Delete, the dialog is as it was before the two
    keys; the screen has been asked for a rendering and an update twice. *)
Theorem LineInputDialog_backspace_undoes_a_character :
  forall (d : LineInputDialog.t) (before : list Keystroke.t)
         (k erase : Keystroke.t) (wd : World)
         (d1 : LineInputDialog.t) (wd1 : World),
    LineInputDialog.show d before wd = Waiting (d1, wd1) ->
    typed (LineInputDialog.__filter d1) k = true ->
    String.length (Keystroke.str k) = 1%nat ->
    erases erase = true -> Keystroke.str erase <> EmptyString ->
    Keystroke.name_is erase "KEY_ENTER" = false ->
    Keystroke.name_is erase "KEY_ESCAPE" = false ->
    let game := UiConfig.game (LineInputDialog.config d1) in
    LineInputDialog.show d (before ++ [k; erase]) wd
    = Waiting (d1, redraw game (redraw game wd1)).
Proof.
  intros d before k erase wd d1 wd1 Hrun Hk Hlen He Hes Hn1 Hn2 game.
  unfold LineInputDialog.show in *.
  destruct (line_loop_waiting _ _ _ _ _ Hrun) as [_ Happ].
  rewrite Happ.
  assert (Hs : Keystroke.str k <> EmptyString).
  { intros E. rewrite E in Hlen. discriminate Hlen. }
  rewrite line_loop_typed by assumption.
  rewrite line_loop_erases by assumption.
  cbn [LineInputDialog.loop].
  destruct (Keystroke.str k) as [|c [|c' s']]; try discriminate Hlen.
  cbn [with_input LineInputDialog.user_input Dialog.user_input
       LineInputDialog.super Dialog._user_input LineInputDialog.config
       Dialog.config Dialog._config].
  rewrite drop_last_append_char.
  change (Dialog._user_input (LineInputDialog.super d1))
    with (LineInputDialog.user_input d1).
  change {| Dialog._config := Dialog._config (LineInputDialog.super d1);
            Dialog._user_input := LineInputDialog.user_input d1 |}
    with (LineInputDialog.super (with_input d1 (LineInputDialog.user_input d1))).
  destruct d1 as [[c1 u1] l1 df1 f1]. reflexivity.
Qed.

Lemma LineInputDialog_backspace_undoes_a_character_witness :
  LineInputDialog.show Sample.line_dialog
    ([char_key "x"] ++ [char_key "y"; Sample.backspace]) (Sample.blank 1 1)
  = Waiting
      (with_input Sample.line_dialog "Alexandrax",
       redraw 0%nat
         (redraw 0%nat
            {| buffer := buffer (Sample.blank 1 1);
               screen := [(0%nat, update); (0%nat, trigger_rendering);
                          (0%nat, update)] |})).
Proof.
  apply (LineInputDialog_backspace_undoes_a_character Sample.line_dialog
           [char_key "x"] (char_key "y") Sample.backspace (Sample.blank 1 1)
           (with_input Sample.line_dialog "Alexandrax")
           {| buffer := buffer (Sample.blank 1 1);
              screen := [(0%nat, update); (0%nat, trigger_rendering);
                         (0%nat, update)] |}).
  - reflexivity.
  - reflexivity.
  - reflexivity.
  - reflexivity.
  - discriminate.
  - reflexivity.
  - reflexivity.
Defined.

(** ** MultiLineInputDialog *)

(** X24.  Building the cache of a multi-line dialog throws the inputs
    away.  The constructor, and the setter of [fields] given a list,
    return a dialog whose fields are the fields given, each with its input
    set to its default, whatever input it had, and whose cache holds one
    text object for each field, in the order of the fields; the setter
    leaves the current field as it is and asks the screen for one rendering.
    Given anything but a list, the setter raises and calls nothing. *)
Theorem MultiLineInputDialog_setting_fields_resets_inputs :
  forall (d : MultiLineInputDialog.t) (fs : list MultiLineInputDialog.Field.t)
         (c : UiConfig.t) (wd : World),
    (exists d0,
       MultiLineInputDialog.__init__ fs (PyUiConfig c) = Returned d0 /\
       MultiLineInputDialog.fields d0 = reset <$> fs /\
       MultiLineInputDialog.__cache d0 = field_label <$> fs /\
       MultiLineInputDialog.__current_field d0 = 0) /\
    (exists d',
       MultiLineInputDialog.fields_setter d (MultiLineInputDialog.IsList fs) wd
       = (Returned d',
          called (UiConfig.game (MultiLineInputDialog.config d))
            trigger_rendering wd) /\
       MultiLineInputDialog.fields d' = reset <$> fs /\
       MultiLineInputDialog.__cache d' = field_label <$> fs /\
       MultiLineInputDialog.__current_field d'
       = MultiLineInputDialog.__current_field d) /\
    (forall v, exists message,
       MultiLineInputDialog.fields_setter d (MultiLineInputDialog.NotAList v) wd
       = (Raised (PglInvalidTypeException message), wd)) /\
    Forall (fun field =>
              MultiLineInputDialog.Field.user_input field
              = MultiLineInputDialog.Field.default field)
      (reset <$> fs).
Proof.
  intros d fs c wd. split; [|split; [|split]].
  - eexists. split; [reflexivity|]. split; [reflexivity|].
    split; reflexivity.
  - exists (MultiLineInputDialog._build_cache
              (MultiLineInputDialog.assign_fields d fs)).
    split; [reflexivity|]. split; [reflexivity|]. split; reflexivity.
  - intros v. eexists. reflexivity.
  - apply Forall_fmap. apply Forall_forall. intros field _. reflexivity.
Qed.

(** *** The loop of show *)

Section MultiLoop.

Variables (d : MultiLineInputDialog.t) (wd : World) (polls : list Keystroke.t).

Local Abbreviation g := (UiConfig.game (MultiLineInputDialog.config d)).
Local Abbreviation N := (Py.len_list (MultiLineInputDialog.__fields d)).

Lemma multi_loop_timeout (k : Keystroke.t) :
  Keystroke.str k = EmptyString ->
  MultiLineInputDialog.loop (k :: polls) d wd
  = MultiLineInputDialog.loop polls d wd.
Proof. intros Hs. cbn [MultiLineInputDialog.loop]. rewrite Hs. reflexivity. Qed.

Lemma multi_loop_tab (k : Keystroke.t) :
  Keystroke.name k = Some "KEY_TAB" -> Keystroke.str k <> EmptyString ->
  MultiLineInputDialog.loop (k :: polls) d wd
  = if N =? 0
    then Finished (Raised ZeroDivisionError)
           (MultiLineInputDialog.assign_current_field d
              (MultiLineInputDialog.__current_field d + 1), wd)
    else MultiLineInputDialog.loop polls
           (MultiLineInputDialog.assign_current_field d
              ((MultiLineInputDialog.__current_field d + 1) mod N))
           (redraw g wd).
Proof.
  intros Hn Hs. cbn [MultiLineInputDialog.loop]. rewrite (eqb_nonempty _ Hs).
  unfold Keystroke.name_is. rewrite Hn. reflexivity.
Qed.

Lemma multi_loop_ends (k : Keystroke.t) :
  Keystroke.str k <> EmptyString ->
  (Keystroke.name k = Some "KEY_ENTER" ->
   MultiLineInputDialog.loop (k :: polls) d wd
   = Finished (Returned (MultiLineInputDialog.__fields d)) (d, wd)) /\
  (Keystroke.name k = Some "KEY_ESCAPE" ->
   MultiLineInputDialog.loop (k :: polls) d wd
   = Finished (Returned (cleared <$> MultiLineInputDialog.__fields d))
       (MultiLineInputDialog.assign_fields d
          (cleared <$> MultiLineInputDialog.__fields d), wd)).
Proof.
  intros Hs. split; intros Hn; cbn [MultiLineInputDialog.loop];
    rewrite (eqb_nonempty _ Hs); unfold Keystroke.name_is; rewrite Hn;
    reflexivity.
Qed.

(** A key that is none of Enter, Tab and Escape reads the current field. *)
Lemma multi_loop_other (k : Keystroke.t) :
  Keystroke.str k <> EmptyString ->
  Keystroke.name_is k "KEY_ENTER" = false ->
  Keystroke.name_is k "KEY_TAB" = false ->
  Keystroke.name_is k "KEY_ESCAPE" = false ->
  MultiLineInputDialog.loop (k :: polls) d wd
  = match MultiLineInputDialog.current d with
    | Raised e => Finished (Raised e) (d, wd)
    | Returned (i, field) =>
        if erases k then
          MultiLineInputDialog.loop polls
            (MultiLineInputDialog.assign_fields d
               (<[i := MultiLineInputDialog.Field.assign_user_input field
                         (drop_last (MultiLineInputDialog.Field.user_input field))]>
                  (MultiLineInputDialog.__fields d)))
            (redraw g wd)
        else if accepts (MultiLineInputDialog.Field.filter field) k then
          MultiLineInputDialog.loop polls
            (MultiLineInputDialog.assign_fields d
               (<[i := with_typed (Keystroke.str k) field]>
                  (MultiLineInputDialog.__fields d)))
            (redraw g wd)
        else MultiLineInputDialog.loop polls d wd
    end.
Proof.
  intros Hs H1 H2 H3. cbn [MultiLineInputDialog.loop].
  rewrite (eqb_nonempty _ Hs), H1, H2, H3. unfold erases.
  destruct (Keystroke.name_is k "KEY_BACKSPACE" || Keystroke.name_is k "KEY_DELETE");
    destruct (MultiLineInputDialog.current d) as [e|[i field]]; reflexivity.
Qed.

End MultiLoop.

Lemma current_in_range (d : MultiLineInputDialog.t) :
  0 <= MultiLineInputDialog.__current_field d
     < Py.len_list (MultiLineInputDialog.__fields d) ->
  exists field,
    MultiLineInputDialog.__fields d
      !! Z.to_nat (MultiLineInputDialog.__current_field d) = Some field /\
    MultiLineInputDialog.current d
    = Returned (Z.to_nat (MultiLineInputDialog.__current_field d), field).
Proof.
  unfold Py.len_list. intros Hc.
  destruct (lookup_lt_is_Some_2 (MultiLineInputDialog.__fields d)
              (Z.to_nat (MultiLineInputDialog.__current_field d)) ltac:(lia))
    as [field E].
  exists field. split; [exact E|].
  unfold MultiLineInputDialog.current, Py.index.
  destruct (Z.leb_spec 0 (MultiLineInputDialog.__current_field d)); [|lia].
  destruct (Z.ltb_spec (MultiLineInputDialog.__current_field d)
              (Z.of_nat (length (MultiLineInputDialog.__fields d)))); [|lia].
  cbn [andb]. rewrite E. reflexivity.
Qed.

Lemma assign_current_same (d : MultiLineInputDialog.t) :
  MultiLineInputDialog.assign_current_field d
    (MultiLineInputDialog.__current_field d) = d.
Proof. destruct d. reflexivity. Qed.

(** While [show] waits, the current field is one of the fields, if there is
    any. *)
Lemma multi_loop_current (pre : list Keystroke.t) :
  forall (d : MultiLineInputDialog.t) (wd : World)
         (d1 : MultiLineInputDialog.t) (wd1 : World),
    MultiLineInputDialog.loop pre d wd = Waiting (d1, wd1) ->
    0 <= MultiLineInputDialog.__current_field d
       < Py.len_list (MultiLineInputDialog.__fields d) ->
    0 <= MultiLineInputDialog.__current_field d1
       < Py.len_list (MultiLineInputDialog.__fields d1).
Proof.
  induction pre as [|k pre IH]; intros d wd d1 wd1 H Hc.
  - cbn in H. injection H as <- <-. exact Hc.
  - cbn [MultiLineInputDialog.loop] in H.
    destruct (String.eqb (Keystroke.str k) EmptyString); [exact (IH _ _ _ _ H Hc)|].
    destruct (Keystroke.name_is k "KEY_ENTER"); [discriminate H|].
    destruct (Keystroke.name_is k "KEY_TAB").
    { destruct (Py.len_list _ =? 0); [discriminate H|].
      apply (IH _ _ _ _ H).
      cbn [MultiLineInputDialog.assign_current_field
           MultiLineInputDialog.__current_field MultiLineInputDialog.__fields].
      apply Z.mod_pos_bound. lia. }
    destruct (Keystroke.name_is k "KEY_ESCAPE"); [discriminate H|].
    assert (Hins : forall i x,
              0 <= MultiLineInputDialog.__current_field
                     (MultiLineInputDialog.assign_fields d
                        (<[i := x]> (MultiLineInputDialog.__fields d)))
                 < Py.len_list
                     (MultiLineInputDialog.__fields
                        (MultiLineInputDialog.assign_fields d
                           (<[i := x]> (MultiLineInputDialog.__fields d))))).
    { intros i x.
      cbn [MultiLineInputDialog.assign_fields MultiLineInputDialog.__fields
           MultiLineInputDialog.__current_field].
      unfold Py.len_list in *. rewrite length_insert. exact Hc. }
    destruct (Keystroke.name_is k "KEY_BACKSPACE" || Keystroke.name_is k "KEY_DELETE").
    { destruct (MultiLineInputDialog.current d) as [e|[i field]]; [discriminate H|].
      exact (IH _ _ _ _ H (Hins _ _)). }
    destruct (MultiLineInputDialog.current d) as [e|[i field]]; [discriminate H|].
    match type of H with
    | (if ?b then _ else _) = _ => destruct b
    end.
    + exact (IH _ _ _ _ H (Hins _ _)).
    + exact (IH _ _ _ _ H Hc).
Qed.

Lemma multi_show_current (d : MultiLineInputDialog.t) (pre : list Keystroke.t)
    (wd : World) (d1 : MultiLineInputDialog.t) (wd1 : World) :
  MultiLineInputDialog.show d pre wd = Waiting (d1, wd1) ->
  MultiLineInputDialog.__fields d1 <> [] ->
  0 <= MultiLineInputDialog.__current_field d1
     < Py.len_list (MultiLineInputDialog.__fields d1).
Proof.
  unfold MultiLineInputDialog.show. intros H Hne.
  destruct (multi_loop_waiting_inv _ _ _ _ _ H) as [Hlen _].
  apply (multi_loop_current _ _ _ _ _ H).
  cbn [MultiLineInputDialog.assign_current_field
       MultiLineInputDialog.__current_field MultiLineInputDialog.__fields]
    in *.
  unfold Py.len_list. rewrite <- Hlen.
  destruct (MultiLineInputDialog.__fields d1); [contradiction|]. cbn. lia.
Qed.

Lemma multi_loop_tabs (tab : Keystroke.t) (n : nat) :
  Keystroke.name tab = Some "KEY_TAB" -> Keystroke.str tab <> EmptyString ->
  forall (d : MultiLineInputDialog.t) (wd : World) (rest : list Keystroke.t),
    0 <= MultiLineInputDialog.__current_field d
       < Py.len_list (MultiLineInputDialog.__fields d) ->
    MultiLineInputDialog.loop (replicate n tab ++ rest) d wd
    = MultiLineInputDialog.loop rest
        (MultiLineInputDialog.assign_current_field d
           ((MultiLineInputDialog.__current_field d + Z.of_nat n)
            mod Py.len_list (MultiLineInputDialog.__fields d)))
        (Nat.iter n (redraw (UiConfig.game (MultiLineInputDialog.config d))) wd).
Proof.
  intros Hn Hs. induction n as [|n IH]; intros d wd rest Hc.
  - cbn [replicate app Nat.iter nat_rect]. rewrite Z.add_0_r.
    rewrite Z.mod_small by exact Hc. rewrite assign_current_same. reflexivity.
  - change (replicate (S n) tab ++ rest) with (tab :: (replicate n tab ++ rest)).
    rewrite (multi_loop_tab d wd _ tab Hn Hs).
    replace (Py.len_list (MultiLineInputDialog.__fields d) =? 0) with false
      by (symmetry; apply Z.eqb_neq; lia).
    rewrite IH.
    + cbn [MultiLineInputDialog.assign_current_field
           MultiLineInputDialog.__current_field MultiLineInputDialog.__fields
           MultiLineInputDialog.config MultiLineInputDialog.super].
      rewrite Zplus_mod_idemp_l.
      replace (MultiLineInputDialog.__current_field d + 1 + Z.of_nat n)
        with (MultiLineInputDialog.__current_field d + Z.of_nat (S n)) by lia.
      f_equal. rewrite Nat.iter_succ_r. reflexivity.
    + cbn [MultiLineInputDialog.assign_current_field
           MultiLineInputDialog.__current_field MultiLineInputDialog.__fields].
      apply Z.mod_pos_bound. lia.
Qed.

(** X25.  Tab goes round the fields.  When [show()] of a dialog that has
    fields waits for a key, its current field is one of them; each Tab
    makes the next field the current one, the first field following the
    last, and asks the screen for a rendering and an update.  After as
    many Tabs as there are fields the dialog is as it was. *)
Theorem MultiLineInputDialog_tab_goes_round_the_fields :
  forall (d : MultiLineInputDialog.t) (before : list Keystroke.t)
         (tab : Keystroke.t) (n : nat) (wd : World)
         (d1 : MultiLineInputDialog.t) (wd1 : World),
    MultiLineInputDialog.show d before wd = Waiting (d1, wd1) ->
    MultiLineInputDialog.__fields d1 <> [] ->
    Keystroke.name tab = Some "KEY_TAB" -> Keystroke.str tab <> EmptyString ->
    let N := Py.len_list (MultiLineInputDialog.__fields d1) in
    let game := UiConfig.game (MultiLineInputDialog.config d1) in
    0 <= MultiLineInputDialog.__current_field d1 < N /\
    MultiLineInputDialog.show d (before ++ replicate n tab) wd
    = Waiting
        (MultiLineInputDialog.assign_current_field d1
           ((MultiLineInputDialog.__current_field d1 + Z.of_nat n) mod N),
         Nat.iter n (redraw game) wd1) /\
    MultiLineInputDialog.show d
      (before ++ replicate (length (MultiLineInputDialog.__fields d1)) tab) wd
    = Waiting
        (d1, Nat.iter (length (MultiLineInputDialog.__fields d1))
               (redraw game) wd1).
Proof.
  intros d before tab n wd d1 wd1 Hrun Hne Hn Hs N game.
  pose proof (multi_show_current _ _ _ _ _ Hrun Hne) as Hc. fold N in Hc.
  split; [exact Hc|].
  unfold MultiLineInputDialog.show in *.
  destruct (multi_loop_waiting_inv _ _ _ _ _ Hrun) as [_ Happ].
  assert (Hk : forall k,
            MultiLineInputDialog.loop (before ++ replicate k tab)
              (MultiLineInputDialog.assign_current_field d 0)
              (redraw (UiConfig.game (MultiLineInputDialog.config d)) wd)
            = Waiting
                (MultiLineInputDialog.assign_current_field d1
                   ((MultiLineInputDialog.__current_field d1 + Z.of_nat k) mod N),
                 Nat.iter k (redraw game) wd1)).
  { intros k. rewrite Happ.
    rewrite <- (app_nil_r (replicate k tab)).
    rewrite (multi_loop_tabs tab k Hn Hs d1 wd1 [] Hc). reflexivity. }
  split; [apply Hk|].
  rewrite Hk.
  replace (MultiLineInputDialog.__current_field d1
           + Z.of_nat (length (MultiLineInputDialog.__fields d1)))
    with (MultiLineInputDialog.__current_field d1 + 1 * N)
    by (unfold N, Py.len_list; lia).
  rewrite Z_mod_plus_full, Z.mod_small by exact Hc.
  rewrite assign_current_same. reflexivity.
Qed.

Lemma MultiLineInputDialog_tab_goes_round_the_fields_witness :
  exists d1 wd1,
    MultiLineInputDialog.show Sample.multi_dialog [char_key "x"; Sample.tab]
      (Sample.blank 1 1) = Waiting (d1, wd1) /\
    MultiLineInputDialog.__current_field d1 = 1 /\
    MultiLineInputDialog.show Sample.multi_dialog
      ([char_key "x"; Sample.tab] ++ replicate 3 Sample.tab) (Sample.blank 1 1)
    = Waiting (d1, Nat.iter 3 (redraw 0%nat) wd1).
Proof.
  eassert (Hrun : MultiLineInputDialog.show Sample.multi_dialog
                    [char_key "x"; Sample.tab] (Sample.blank 1 1)
                  = Waiting (_, _))
    by (vm_compute; reflexivity).
  destruct (MultiLineInputDialog_tab_goes_round_the_fields Sample.multi_dialog
              [char_key "x"; Sample.tab] Sample.tab 0 (Sample.blank 1 1) _ _
              Hrun ltac:(discriminate) eq_refl ltac:(discriminate))
    as (_ & _ & E).
  do 2 eexists. split; [exact Hrun|]. split; [reflexivity|exact E].
Defined.

(** X26.  A multi-line dialog with no field.  When the list of fields is
    empty, the first key that [show()] reads ends it: Enter and Escape
    return the empty list; Tab raises [ZeroDivisionError], from the
    remainder by the number of fields; every other key, whether the filter
    of a field would accept it or not, raises [IndexError], from the
    subscription of the empty list.  Polls that time out are passed over. *)
Theorem MultiLineInputDialog_without_fields :
  forall (d : MultiLineInputDialog.t) (n : nat) (k : Keystroke.t)
         (rest : list Keystroke.t) (wd : World),
    MultiLineInputDialog.__fields d = [] ->
    Keystroke.str k <> EmptyString ->
    exists d' wd',
      MultiLineInputDialog.show d (replicate n timeout ++ k :: rest) wd
      = Finished
          (if Keystroke.name_is k "KEY_ENTER" then Returned []
           else if Keystroke.name_is k "KEY_TAB" then Raised ZeroDivisionError
           else if Keystroke.name_is k "KEY_ESCAPE" then Returned []
           else Raised IndexError)
          (d', wd').
Proof.
  intros d n k rest wd Hf Hs. unfold MultiLineInputDialog.show.
  set (d0 := MultiLineInputDialog.assign_current_field d 0).
  set (wd0 := redraw (UiConfig.game (MultiLineInputDialog.config d)) wd).
  assert (Hf0 : MultiLineInputDialog.__fields d0 = []) by exact Hf.
  assert (Ht : MultiLineInputDialog.loop (replicate n timeout ++ k :: rest) d0 wd0
               = MultiLineInputDialog.loop (k :: rest) d0 wd0).
  { induction n as [|n IH]; [reflexivity|]. exact IH. }
  rewrite Ht. cbn [MultiLineInputDialog.loop].
  rewrite (eqb_nonempty _ Hs).
  destruct (Keystroke.name_is k "KEY_ENTER");
    [rewrite Hf0; do 2 eexists; reflexivity|].
  destruct (Keystroke.name_is k "KEY_TAB").
  { cbn [MultiLineInputDialog.assign_current_field MultiLineInputDialog.__fields].
    rewrite Hf0. cbn. do 2 eexists. reflexivity. }
  destruct (Keystroke.name_is k "KEY_ESCAPE").
  { cbn [MultiLineInputDialog.assign_fields MultiLineInputDialog.__fields].
    rewrite Hf0. do 2 eexists. reflexivity. }
  assert (Hcur : MultiLineInputDialog.current d0 = Raised IndexError).
  { unfold MultiLineInputDialog.current. rewrite Hf0. reflexivity. }
  rewrite Hcur.
  destruct (Keystroke.name_is k "KEY_BACKSPACE" || Keystroke.name_is k "KEY_DELETE");
    do 2 eexists; reflexivity.
Qed.

Lemma MultiLineInputDialog_without_fields_witness :
  exists d' wd',
    MultiLineInputDialog.show
      (MultiLineInputDialog.assign_fields Sample.multi_dialog [])
      (replicate 2 timeout ++ char_key "x" :: []) (Sample.blank 1 1)
    = Finished (Raised IndexError) (d', wd').
Proof.
  apply (MultiLineInputDialog_without_fields
           (MultiLineInputDialog.assign_fields Sample.multi_dialog [])
           2 (char_key "x") [] (Sample.blank 1 1)).
  - reflexivity.
  - discriminate.
Defined.

(** *** What the loop leaves alone *)

Lemma same_but_input_refl (fs : list MultiLineInputDialog.Field.t) :
  Forall2 same_but_input fs fs.
Proof.
  induction fs as [|f fs IH]; constructor; [|exact IH].
  split; [|split]; reflexivity.
Qed.

Lemma same_but_input_trans (fs1 fs2 fs3 : list MultiLineInputDialog.Field.t) :
  Forall2 same_but_input fs1 fs2 -> Forall2 same_but_input fs2 fs3 ->
  Forall2 same_but_input fs1 fs3.
Proof.
  intros H12. revert fs3. induction H12 as [|f1 f2 fs1 fs2 H _ IH]; intros fs3 H23.
  - inversion H23. constructor.
  - inversion H23 as [|? f3 ? fs3' H' H23']; subst. constructor; [|apply IH; exact H23'].
    destruct H as (A1 & A2 & A3), H' as (B1 & B2 & B3).
    split; [|split]; congruence.
Qed.

Lemma same_but_input_insert (fs : list MultiLineInputDialog.Field.t) (i : nat)
    (field : MultiLineInputDialog.Field.t) (s : string) :
  fs !! i = Some field ->
  Forall2 same_but_input fs
    (<[i := MultiLineInputDialog.Field.assign_user_input field s]> fs).
Proof.
  revert i. induction fs as [|f fs IH]; intros [|i] E; try discriminate E.
  - cbn in E. injection E as ->. cbn. constructor; [|apply same_but_input_refl].
    split; [|split]; reflexivity.
  - cbn in E |- *. constructor; [|apply IH; exact E].
    split; [|split]; reflexivity.
Qed.

Lemma same_but_input_cleared (fs : list MultiLineInputDialog.Field.t) :
  Forall2 same_but_input fs (cleared <$> fs).
Proof.
  induction fs as [|f fs IH]; constructor; [|exact IH].
  split; [|split]; reflexivity.
Qed.

Lemma only_inputs_differ_refl (d : MultiLineInputDialog.t) :
  only_inputs_differ d d.
Proof. split; [|split]; [reflexivity..|apply same_but_input_refl]. Qed.

Lemma only_inputs_differ_trans (d1 d2 d3 : MultiLineInputDialog.t) :
  only_inputs_differ d1 d2 -> only_inputs_differ d2 d3 ->
  only_inputs_differ d1 d3.
Proof.
  intros (A1 & A2 & A3) (B1 & B2 & B3).
  split; [|split]; [congruence..|].
  exact (same_but_input_trans _ _ _ A3 B3).
Qed.

Lemma current_lookup (d : MultiLineInputDialog.t) (i : nat)
    (field : MultiLineInputDialog.Field.t) :
  MultiLineInputDialog.current d = Returned (i, field) ->
  MultiLineInputDialog.__fields d !! i = Some field.
Proof.
  unfold MultiLineInputDialog.current.
  destruct (Py.index _ _) as [e|j]; [discriminate|].
  destruct (MultiLineInputDialog.__fields d !! j) eqn:E; [|discriminate].
  intros H. injection H as <- <-. exact E.
Qed.

Lemma multi_loop_keeps (polls : list Keystroke.t) :
  forall (d : MultiLineInputDialog.t) (wd : World),
    match MultiLineInputDialog.loop polls d wd with
    | Finished r (d', wd') =>
        only_inputs_differ d d' /\ buffer wd' = buffer wd /\
        forall fs, r = Returned fs -> fs = MultiLineInputDialog.__fields d'
    | Waiting (d', wd') =>
        only_inputs_differ d d' /\ buffer wd' = buffer wd
    end.
Proof.
  induction polls as [|k polls IH]; intros d wd.
  - split; [apply only_inputs_differ_refl|reflexivity].
  - assert (Hnext : forall d1 wd1,
              only_inputs_differ d d1 -> buffer wd1 = buffer wd ->
              match MultiLineInputDialog.loop polls d1 wd1 with
              | Finished r (d', wd') =>
                  only_inputs_differ d d' /\ buffer wd' = buffer wd /\
                  forall fs, r = Returned fs -> fs = MultiLineInputDialog.__fields d'
              | Waiting (d', wd') =>
                  only_inputs_differ d d' /\ buffer wd' = buffer wd
              end).
    { intros d1 wd1 H1 Hb. specialize (IH d1 wd1).
      destruct (MultiLineInputDialog.loop polls d1 wd1) as [r [d' wd']|[d' wd']].
      - destruct IH as (A & B & C). split; [|split].
        + exact (only_inputs_differ_trans _ _ _ H1 A).
        + congruence.
        + exact C.
      - destruct IH as (A & B). split.
        + exact (only_inputs_differ_trans _ _ _ H1 A).
        + congruence. }
    assert (Hedit : forall i field s,
              MultiLineInputDialog.__fields d !! i = Some field ->
              only_inputs_differ d
                (MultiLineInputDialog.assign_fields d
                   (<[i := MultiLineInputDialog.Field.assign_user_input field s]>
                      (MultiLineInputDialog.__fields d)))).
    { intros i field s E. split; [|split]; [reflexivity..|].
      apply same_but_input_insert. exact E. }
    cbn [MultiLineInputDialog.loop].
    destruct (String.eqb (Keystroke.str k) EmptyString).
    { apply Hnext; [apply only_inputs_differ_refl|reflexivity]. }
    destruct (Keystroke.name_is k "KEY_ENTER").
    { split; [apply only_inputs_differ_refl|].
      split; [reflexivity|]. intros fs E. injection E as <-. reflexivity. }
    destruct (Keystroke.name_is k "KEY_TAB").
    { destruct (Py.len_list _ =? 0).
      - split; [split; [|split]; [reflexivity..|apply same_but_input_refl]|].
        split; [reflexivity|]. intros fs E. discriminate E.
      - apply Hnext; [|apply (f_equal buffer (redraw_screen _ wd))].
        split; [|split]; [reflexivity..|apply same_but_input_refl]. }
    destruct (Keystroke.name_is k "KEY_ESCAPE").
    { split; [split; [|split]; [reflexivity..|apply same_but_input_cleared]|].
      split; [reflexivity|]. intros fs E. injection E as <-. reflexivity. }
    destruct (Keystroke.name_is k "KEY_BACKSPACE" || Keystroke.name_is k "KEY_DELETE").
    { destruct (MultiLineInputDialog.current d) as [e|[i field]] eqn:Ec.
      - split; [apply only_inputs_differ_refl|].
        split; [reflexivity|]. intros fs E. discriminate E.
      - apply Hnext; [|apply (f_equal buffer (redraw_screen _ wd))].
        apply Hedit. exact (current_lookup _ _ _ Ec). }
    destruct (MultiLineInputDialog.current d) as [e|[i field]] eqn:Ec.
    { split; [apply only_inputs_differ_refl|].
      split; [reflexivity|]. intros fs E. discriminate E. }
    match goal with
    | |- context [if ?b then _ else _] => destruct b
    end.
    + apply Hnext; [|apply (f_equal buffer (redraw_screen _ wd))].
      apply Hedit. exact (current_lookup _ _ _ Ec).
    + apply Hnext; [apply only_inputs_differ_refl|reflexivity].
Qed.

(** X27.  [show()] of a multi-line dialog changes inputs and nothing else.
    Whatever the polls give, and whether [show()] returns, raises or waits
    for a key: the dialog has as many fields as before, each with the
    label, the default and the filter that it had; its configuration and
    its cache of labels are as they were; the buffer has not been written.
    When [show()] returns, what it returns is the list of the fields of the
    dialog. *)
Theorem MultiLineInputDialog_show_only_edits_inputs :
  forall (d : MultiLineInputDialog.t) (polls : list Keystroke.t) (wd : World),
    match MultiLineInputDialog.show d polls wd with
    | Finished r (d', wd') =>
        only_inputs_differ d d' /\ buffer wd' = buffer wd /\
        length (MultiLineInputDialog.__fields d')
        = length (MultiLineInputDialog.__fields d) /\
        forall fs, r = Returned fs -> fs = MultiLineInputDialog.__fields d'
    | Waiting (d', wd') =>
        only_inputs_differ d d' /\ buffer wd' = buffer wd /\
        length (MultiLineInputDialog.__fields d')
        = length (MultiLineInputDialog.__fields d)
    end.
Proof.
  intros d polls wd. unfold MultiLineInputDialog.show.
  pose proof (multi_loop_keeps polls
                (MultiLineInputDialog.assign_current_field d 0)
                (redraw (UiConfig.game (MultiLineInputDialog.config d)) wd)) as H.
  destruct (MultiLineInputDialog.loop polls _ _) as [r [d' wd']|[d' wd']].
  - destruct H as (A & B & C).
    split; [exact A|]. split; [rewrite B; apply (f_equal buffer (redraw_screen _ wd))|].
    split; [|exact C].
    destruct A as (_ & _ & A). symmetry. exact (Forall2_length _ _ _ A).
  - destruct H as (A & B).
    split; [exact A|]. split; [rewrite B; apply (f_equal buffer (redraw_screen _ wd))|].
    destruct A as (_ & _ & A). symmetry. exact (Forall2_length _ _ _ A).
Qed.

(** *** Typing in the current field *)

Lemma with_typed_empty (field : MultiLineInputDialog.Field.t) :
  with_typed EmptyString field = field.
Proof.
  unfold with_typed, MultiLineInputDialog.Field.assign_user_input.
  rewrite append_empty_r. destruct field. reflexivity.
Qed.

Lemma with_typed_twice (s1 s2 : string) (field : MultiLineInputDialog.Field.t) :
  with_typed s2 (with_typed s1 field) = with_typed (String.append s1 s2) field.
Proof.
  unfold with_typed, MultiLineInputDialog.Field.assign_user_input.
  cbn [MultiLineInputDialog.Field.user_input MultiLineInputDialog.Field.label
       MultiLineInputDialog.Field.default MultiLineInputDialog.Field.filter].
  rewrite append_assoc. reflexivity.
Qed.

Lemma assign_fields_same (d : MultiLineInputDialog.t) :
  MultiLineInputDialog.assign_fields d (MultiLineInputDialog.__fields d) = d.
Proof. destruct d. reflexivity. Qed.

Lemma current_after_insert (d : MultiLineInputDialog.t) (i : nat)
    (field x : MultiLineInputDialog.Field.t) :
  MultiLineInputDialog.current d = Returned (i, field) ->
  MultiLineInputDialog.current
    (MultiLineInputDialog.assign_fields d
       (<[i := x]> (MultiLineInputDialog.__fields d)))
  = Returned (i, x).
Proof.
  unfold MultiLineInputDialog.current.
  cbn [MultiLineInputDialog.assign_fields MultiLineInputDialog.__fields
       MultiLineInputDialog.__current_field].
  rewrite length_insert.
  destruct (Py.index _ _) as [e|j]; [discriminate|].
  destruct (MultiLineInputDialog.__fields d !! j) eqn:E; [|discriminate].
  intros H. injection H as <- <-.
  rewrite list_lookup_insert_eq; [reflexivity|].
  apply lookup_lt_is_Some. eauto.
Qed.

Lemma multi_loop_types (ks : list Keystroke.t) :
  forall (d : MultiLineInputDialog.t) (wd : World) (rest : list Keystroke.t)
         (i : nat) (field : MultiLineInputDialog.Field.t),
    MultiLineInputDialog.current d = Returned (i, field) ->
    Forall (fun k => Keystroke.str k = EmptyString
                     \/ typed_in_field (MultiLineInputDialog.Field.filter field) k
                        = true) ks ->
    MultiLineInputDialog.loop (ks ++ rest) d wd
    = MultiLineInputDialog.loop rest
        (MultiLineInputDialog.assign_fields d
           (<[i := with_typed (joined (Keystroke.str <$> ks)) field]>
              (MultiLineInputDialog.__fields d)))
        {| buffer := buffer wd;
           screen := screen wd
                     ++ redraws (UiConfig.game (MultiLineInputDialog.config d)) ks |}.
Proof.
  induction ks as [|k ks IH]; intros d wd rest i field Hcur Hks.
  - cbn [app fmap list_fmap joined foldr redraws mjoin list_join].
    rewrite with_typed_empty, world_same.
    rewrite list_insert_id by exact (current_lookup _ _ _ Hcur).
    rewrite assign_fields_same. reflexivity.
  - apply Forall_cons in Hks as [Hk Hks].
    change ((k :: ks) ++ rest) with (k :: (ks ++ rest)).
    destruct (String.eqb_spec (Keystroke.str k) EmptyString) as [Hs|Hs].
    + rewrite multi_loop_timeout by exact Hs.
      rewrite (IH d wd rest i field Hcur Hks).
      cbn [fmap list_fmap joined foldr redraws mjoin list_join].
      rewrite Hs. cbn [String.eqb String.append app]. reflexivity.
    + destruct Hk as [Hk|Hk]; [contradiction|].
      unfold typed_in_field, typed in Hk.
      apply andb_prop in Hk as [Htab Hk].
      repeat (apply andb_prop in Hk as [Hk ?]).
      repeat match goal with
             | H : negb ?b = true |- _ => apply negb_true_iff in H
             end.
      rewrite multi_loop_other by assumption.
      rewrite Hcur.
      replace (erases k) with false
        by (unfold erases;
            repeat match goal with H : _ = false |- _ => rewrite H end;
            reflexivity).
      match goal with H : accepts _ _ = true |- _ => rewrite H end.
      rewrite (IH _ _ rest i (with_typed (Keystroke.str k) field)
                 (current_after_insert _ _ _ _ Hcur) Hks).
      cbn [fmap list_fmap joined foldr redraws mjoin list_join].
      rewrite (eqb_nonempty _ Hs), redraw_screen.
      cbn [MultiLineInputDialog.assign_fields MultiLineInputDialog.__fields
           MultiLineInputDialog.config MultiLineInputDialog.super buffer screen].
      rewrite list_insert_insert_eq, with_typed_twice, <- app_assoc.
      reflexivity.
Qed.

(** X28.  What is typed goes to the current field, and to no other.  On a
    dialog whose fields are pairwise different, so that no dictionary stands
    at two positions of the list: when [show()] waits for a key, and the
    polls that follow time out or give keys that the filter of the current
    field accepts (none of them Enter, Tab, Escape, Backspace or Delete),
    the input of the current field becomes what it was followed by the
    strings of these keys in their order; every other field is as it was,
    and the screen has been asked for a rendering and an update once for
    every key. *)
Theorem MultiLineInputDialog_typing_goes_to_the_current_field :
  forall (d : MultiLineInputDialog.t) (before ks : list Keystroke.t)
         (wd : World) (d1 : MultiLineInputDialog.t) (wd1 : World)
         (field : MultiLineInputDialog.Field.t),
    NoDup (MultiLineInputDialog.__fields d) ->
    MultiLineInputDialog.show d before wd = Waiting (d1, wd1) ->
    let i := Z.to_nat (MultiLineInputDialog.__current_field d1) in
    MultiLineInputDialog.__fields d1 !! i = Some field ->
    Forall (fun k => Keystroke.str k = EmptyString
                     \/ typed_in_field (MultiLineInputDialog.Field.filter field) k
                        = true) ks ->
    exists d2,
      MultiLineInputDialog.show d (before ++ ks) wd
      = Waiting
          (d2,
           {| buffer := buffer wd1;
              screen := screen wd1
                        ++ redraws (UiConfig.game (MultiLineInputDialog.config d1))
                             ks |}) /\
      MultiLineInputDialog.__fields d2 !! i
      = Some (with_typed (joined (Keystroke.str <$> ks)) field) /\
      (forall j, j <> i ->
         MultiLineInputDialog.__fields d2 !! j
         = MultiLineInputDialog.__fields d1 !! j) /\
      MultiLineInputDialog.__current_field d2
      = MultiLineInputDialog.__current_field d1.
Proof.
  intros d before ks wd d1 wd1 field _ Hrun i Hfield Hks.
  assert (Hne : MultiLineInputDialog.__fields d1 <> []).
  { intros E. rewrite E in Hfield. discriminate Hfield. }
  pose proof (multi_show_current _ _ _ _ _ Hrun Hne) as Hc.
  destruct (current_in_range d1 Hc) as (field' & E' & Hcur).
  fold i in E', Hcur. rewrite Hfield in E'. injection E' as <-.
  unfold MultiLineInputDialog.show in *.
  destruct (multi_loop_waiting_inv _ _ _ _ _ Hrun) as [_ Happ].
  rewrite Happ.
  pose proof (multi_loop_types ks d1 wd1 [] i field Hcur Hks) as Hty.
  rewrite app_nil_r in Hty. rewrite Hty.
  eexists. split; [reflexivity|].
  cbn [MultiLineInputDialog.assign_fields MultiLineInputDialog.__fields
       MultiLineInputDialog.__current_field].
  split; [|split; [|reflexivity]].
  - apply list_lookup_insert_eq. apply lookup_lt_is_Some. eauto.
  - intros j Hj. apply list_lookup_insert_ne. congruence.
Qed.

Lemma MultiLineInputDialog_typing_goes_to_the_current_field_witness :
  exists d2 wd2,
    MultiLineInputDialog.show Sample.multi_dialog
      ([char_key "x"; Sample.tab] ++ [char_key "2"; timeout; char_key "1"])
      (Sample.blank 1 1)
    = Waiting (d2, wd2) /\
    MultiLineInputDialog.Field.user_input
    <$> MultiLineInputDialog.__fields d2 !! 1%nat = Some "421".
Proof.
  assert (Hnd : NoDup (MultiLineInputDialog.__fields Sample.multi_dialog)).
  { cbn.
    repeat (apply NoDup_cons_2;
            [intros Hin;
             repeat (apply elem_of_cons in Hin as [Hin|Hin];
                     [discriminate Hin|]);
             inversion Hin|]).
    apply NoDup_nil_2. }
  eassert (Hrun : MultiLineInputDialog.show Sample.multi_dialog
                    [char_key "x"; Sample.tab] (Sample.blank 1 1)
                  = Waiting (_, _))
    by (vm_compute; reflexivity).
  destruct (MultiLineInputDialog_typing_goes_to_the_current_field
              Sample.multi_dialog [char_key "x"; Sample.tab]
              [char_key "2"; timeout; char_key "1"] (Sample.blank 1 1) _ _ _
              Hnd Hrun eq_refl
              ltac:(repeat (constructor;
                            [first [left; reflexivity | right; reflexivity]|]);
                    constructor))
    as (d2 & E & Hi & _).
  exists d2. eexists. split; [exact E|].
  etransitivity;
    [apply (f_equal (fmap MultiLineInputDialog.Field.user_input)); exact Hi|].
  reflexivity.
Defined.

(** ** MultiLineInputDialog: the rendering *)



Section MultiDialogRender.

Variables bh bw : Z.
Variable d : MultiLineInputDialog.t.
Variables row column off : Z.

Local Abbreviation fields := (MultiLineInputDialog.__fields d).
Local Abbreviation cache := (MultiLineInputDialog.__cache d).

Hypothesis Hcache : length cache = length fields.
Hypothesis Hr1 : 0 <= row + off.
Hypothesis Hr2 : row + off + 2 * Py.len_list fields <= bh.
Hypothesis Hc1 : 0 <= column + off.
Hypothesis Hlabels :
  Forall (fun text => column + off + Py.len (Text.text text) <= bw) cache.
Hypothesis Hinputs :
  Forall (fun field =>
            column + off + 2
            + Py.len (MultiLineInputDialog.Field.user_input field) <= bw)
    fields.




End MultiDialogRender.



(** ** ProgressDialog: the calls to the screen *)

(** X30.  Setting the value of a progress dialog asks for two renderings.
    On a dialog whose cache has its entries, the setter of the value calls
    [trigger_rendering] twice: the setter of the cached bar, to which it
    gives the value, makes the first call, on the screen of the game of
    the configuration of the bar, and the dialog makes the second; the
    setters of the label and of the maximum make one call.  None of them
    writes into the buffer, and a setter that refuses its value, a [bool]
    for instance, raises without any call. *)
Theorem ProgressDialog_value_setter_requests_two_renderings :
  forall (d : ProgressDialog.t) (wd : World),
    built d ->
    let game := UiConfig.game (ProgressDialog.config d) in
    (exists bar,
       ProgressDialog.Cache.pb (ProgressDialog._cache d) = Some bar /\
       forall v : Z,
         (ProgressDialog.value_setter d (PyInt v) wd).2
         = {| buffer := buffer wd;
              screen := screen wd
                        ++ [(UiConfig.game (ProgressBar.config bar),
                             trigger_rendering);
                            (game, trigger_rendering)] |}) /\
    (forall v : text_or_str,
       (ProgressDialog.label_setter d (as_obj v) wd).2
       = {| buffer := buffer wd;
            screen := screen wd ++ [(game, trigger_rendering)] |}) /\
    (forall v : Z,
       (ProgressDialog.maximum_setter d (PyInt v) wd).2
       = {| buffer := buffer wd;
            screen := screen wd ++ [(game, trigger_rendering)] |}) /\
    (forall b : bool,
       exists message,
         ProgressDialog.value_setter d (PyBool b) wd
         = (Raised (PglInvalidTypeException message), wd) /\
         ProgressDialog.maximum_setter d (PyBool b) wd
         = (Raised (PglInvalidTypeException
                      "ProgressDialog.maximum: value needs to be an int."), wd)).
Proof.
  intros d wd [[lab Elab] [bar Ebar]] game. split; [|split; [|split]].
  - exists bar. split; [exact Ebar|]. intros v.
    unfold ProgressDialog.value_setter. rewrite Ebar.
    cbn. rewrite <- app_assoc. reflexivity.
  - intros [t|s]; unfold ProgressDialog.label_setter; cbn [as_obj].
    + reflexivity.
    + rewrite Elab. reflexivity.
  - intros v. reflexivity.
  - intros b. eexists. split; reflexivity.
Qed.

Lemma ProgressDialog_value_setter_requests_two_renderings_witness :
  exists bar,
    ProgressDialog.Cache.pb
      (ProgressDialog._cache (ProgressDialog._build_cache Sample.progress_dialog))
    = Some bar /\
    forall v : Z,
      (ProgressDialog.value_setter
         (ProgressDialog._build_cache Sample.progress_dialog) (PyInt v)
         (Sample.blank 1 1)).2
      = {| buffer := buffer (Sample.blank 1 1);
           screen := screen (Sample.blank 1 1)
                     ++ [(UiConfig.game (ProgressBar.config bar),
                          trigger_rendering);
                         (0%nat, trigger_rendering)] |}.
Proof.
  apply (ProgressDialog_value_setter_requests_two_renderings
           (ProgressDialog._build_cache Sample.progress_dialog)
           (Sample.blank 1 1)).
  split; eexists; reflexivity.
Defined.
